(** * Optuna storages: caching wrapper, in-memory and Redis backends

    A shallow embedding of [optuna/storages/_cached_storage.py],
    [optuna/storages/_in_memory.py] and [optuna/storages/_redis.py].

    Conventions of the embedding.
    - Python [int] is [Z]; positions in a Python list are [nat].
    - Objective values and Redis clock readings are Python floats; they are
      modelled by rationals [Q] (finite floats, no NaN), compared with the
      boolean tests [Qltb]/[Qgtb].
    - [datetime.now()] is an input of the operation that reads it.
    - A Python [dict] is a [gmap]; a Redis hash that is iterated is an
      association list in insertion order.
    - A method that raises leaves the mutations made before the raise in
      place, so a computation returns its outcome together with the state. *)

From Stdlib Require Import ZArith QArith Lia Lqa.
From stdpp Require Import base gmap strings list fin_maps.

Local Open Scope Z_scope.

(** ** Exceptions and the state-and-exception monad *)

Inductive exn : Type :=
| KeyError
| IndexError
| RuntimeError
| ValueError
| TypeError
| AssertionError.

Inductive result (A : Type) : Type :=
| Ok (a : A)
| Raise (e : exn).
Arguments Ok {A} a.
Arguments Raise {A} e.

#[global] Instance exn_eq_dec : EqDecision exn.
Proof. solve_decision. Defined.

Definition M (S A : Type) : Type := S -> result A * S.

Definition ret {S A} (a : A) : M S A := fun s => (Ok a, s).
Definition raise {S A} (e : exn) : M S A := fun s => (Raise e, s).
Definition bind {S A B} (m : M S A) (k : A -> M S B) : M S B :=
  fun s => match m s with
           | (Ok a, s') => k a s'
           | (Raise e, s') => (Raise e, s')
           end.
Definition get {S} : M S S := fun s => (Ok s, s).
Definition put {S} (s : S) : M S unit := fun _ => (Ok tt, s).
Definition lift {S A} (r : result A) : M S A := fun s => (r, s).
Definition from_option {S A} (e : exn) (o : option A) : M S A :=
  match o with Some a => ret a | None => raise e end.

#[global] Instance M_bind {S} : MBind (M S) := fun A B k m => bind m k.
#[global] Instance M_ret {S} : MRet (M S) := fun A a => ret a.

(** ** Enumerations *)

Inductive TrialState : Type := RUNNING | COMPLETE | PRUNED | FAIL | WAITING.
Inductive StudyDirection : Type := NOT_SET | MINIMIZE | MAXIMIZE.

#[global] Instance TrialState_eq_dec : EqDecision TrialState.
Proof. solve_decision. Defined.
#[global] Instance StudyDirection_eq_dec : EqDecision StudyDirection.
Proof. solve_decision. Defined.

(** Modelled from the spec: [TrialState.is_finished] ([optuna/trial/_state.py]
    is not among the sources).  "COMPLETE, FAIL, PRUNED (the latter three are
    finished)". *)
Definition is_finished (st : TrialState) : bool :=
  match st with
  | COMPLETE | FAIL | PRUNED => true
  | RUNNING | WAITING => false
  end.

(** Modelled from the spec: [BaseStorage.check_trial_is_updatable]
    ([optuna/storages/_base.py] is not among the sources).  "Any mutation
    attempted on a trial already in a finished state fails with a 'not
    updatable' error"; the error is Python's [RuntimeError], as in
    [_CachedStorage._check_trial_is_updatable]. *)
Definition check_trial_is_updatable (st : TrialState) : result unit :=
  if is_finished st then Raise RuntimeError else Ok tt.

(** ** Floats and clocks *)

Definition Qltb (x y : Q) : bool := negb (Qle_bool y x).
Definition Qgtb (x y : Q) : bool := Qltb y x.

Definition datetime : Type := Z.

(** ** What the storages take from [optuna.distributions]

    The module is not among the sources: distributions, the external
    representation of a parameter and attribute values are parameters of the
    development. [check_distribution_compatibility d_old d_new = false] stands
    for the [ValueError] the Python function raises. *)

Class Externals : Type := {
  distribution : Type;
  param_external : Type;
  attr_value : Type;
  check_distribution_compatibility : distribution -> distribution -> bool;
  to_external_repr : distribution -> Q -> param_external;
}.

(** ** FrozenTrial *)

Section FrozenTrial.
Context `{!Externals}.

Record FrozenTrial : Type := mkFrozenTrial {
  number : Z;
  state : TrialState;
  values : option (list Q);
  intermediate_values : gmap Z Q;
  params : gmap string param_external;
  distributions : gmap string distribution;
  user_attrs : gmap string attr_value;
  system_attrs : gmap string attr_value;
  datetime_start : option datetime;
  datetime_complete : option datetime;
  trial_id : Z;
}.

Definition set_number (x : Z) (t : FrozenTrial) : FrozenTrial :=
  mkFrozenTrial x (state t) (values t) (intermediate_values t) (params t)
    (distributions t) (user_attrs t) (system_attrs t) (datetime_start t)
    (datetime_complete t) (trial_id t).
Definition set_state (x : TrialState) (t : FrozenTrial) : FrozenTrial :=
  mkFrozenTrial (number t) x (values t) (intermediate_values t) (params t)
    (distributions t) (user_attrs t) (system_attrs t) (datetime_start t)
    (datetime_complete t) (trial_id t).
Definition set_values (x : option (list Q)) (t : FrozenTrial) : FrozenTrial :=
  mkFrozenTrial (number t) (state t) x (intermediate_values t) (params t)
    (distributions t) (user_attrs t) (system_attrs t) (datetime_start t)
    (datetime_complete t) (trial_id t).
Definition set_intermediate_values (x : gmap Z Q) (t : FrozenTrial) : FrozenTrial :=
  mkFrozenTrial (number t) (state t) (values t) x (params t)
    (distributions t) (user_attrs t) (system_attrs t) (datetime_start t)
    (datetime_complete t) (trial_id t).
Definition set_params (x : gmap string param_external) (t : FrozenTrial) : FrozenTrial :=
  mkFrozenTrial (number t) (state t) (values t) (intermediate_values t) x
    (distributions t) (user_attrs t) (system_attrs t) (datetime_start t)
    (datetime_complete t) (trial_id t).
Definition set_distributions (x : gmap string distribution) (t : FrozenTrial) : FrozenTrial :=
  mkFrozenTrial (number t) (state t) (values t) (intermediate_values t) (params t)
    x (user_attrs t) (system_attrs t) (datetime_start t)
    (datetime_complete t) (trial_id t).
Definition set_user_attrs (x : gmap string attr_value) (t : FrozenTrial) : FrozenTrial :=
  mkFrozenTrial (number t) (state t) (values t) (intermediate_values t) (params t)
    (distributions t) x (system_attrs t) (datetime_start t)
    (datetime_complete t) (trial_id t).
Definition set_system_attrs (x : gmap string attr_value) (t : FrozenTrial) : FrozenTrial :=
  mkFrozenTrial (number t) (state t) (values t) (intermediate_values t) (params t)
    (distributions t) (user_attrs t) x (datetime_start t)
    (datetime_complete t) (trial_id t).
Definition set_datetime_start (x : option datetime) (t : FrozenTrial) : FrozenTrial :=
  mkFrozenTrial (number t) (state t) (values t) (intermediate_values t) (params t)
    (distributions t) (user_attrs t) (system_attrs t) x
    (datetime_complete t) (trial_id t).
Definition set_datetime_complete (x : option datetime) (t : FrozenTrial) : FrozenTrial :=
  mkFrozenTrial (number t) (state t) (values t) (intermediate_values t) (params t)
    (distributions t) (user_attrs t) (system_attrs t) (datetime_start t)
    x (trial_id t).
Definition set_trial_id (x : Z) (t : FrozenTrial) : FrozenTrial :=
  mkFrozenTrial (number t) (state t) (values t) (intermediate_values t) (params t)
    (distributions t) (user_attrs t) (system_attrs t) (datetime_start t)
    (datetime_complete t) x.

(** Modelled from the spec: the [FrozenTrial.value] property
    ([optuna/trial/_frozen.py] is not among the sources).  "values (sequence
    of floats, one per objective, present only once finished with a value)":
    the value of a single-objective trial is the only element of [values],
    [None] when no values are recorded; reading it on a trial with several
    values is an error. *)
Definition value (t : FrozenTrial) : result (option Q) :=
  match values t with
  | None => Ok None
  | Some [] => Raise IndexError
  | Some [v] => Ok (Some v)
  | Some (_ :: _ :: _) => Raise RuntimeError
  end.

(** [InMemoryStorage._create_running_trial] and
    [RedisStorage._create_running_trial]. *)
Definition _create_running_trial (now : datetime) : FrozenTrial :=
  mkFrozenTrial (-1) RUNNING None ∅ ∅ ∅ ∅ ∅ (Some now) None (-1).

End FrozenTrial.

(** ** Study creation and list indexing *)

(** [optuna.exceptions.DuplicatedStudyError] is raised by [create_new_study]
    and by nothing else: the outcome of that method is the error or the id
    of the new study. *)
Inductive new_study : Type :=
| DuplicatedStudyError
| NewStudy (study_id : Z).

(** Python's [l[k]]: a negative [k] counts from the end, a position outside
    the list is an [IndexError] (here [None]). *)
Definition py_index {A : Type} (l : list A) (k : Z) : option A :=
  if decide (0 <= k) then l !! Z.to_nat k
  else if decide (0 <= Z.of_nat (length l) + k)
       then l !! Z.to_nat (Z.of_nat (length l) + k)
       else None.

(** ** [optuna/storages/_in_memory.py] *)

Module InMemory.
Section InMemory.
Context `{!Externals}.

Record StudyInfo : Type := mkStudyInfo {
  trials : list FrozenTrial;
  param_distribution : gmap string distribution;
  study_user_attrs : gmap string attr_value;
  study_system_attrs : gmap string attr_value;
  name : string;
  directions : list StudyDirection;
  best_trial_id : option Z;
}.

Record InMemoryStorage : Type := mkInMemoryStorage {
  trial_id_to_study_id_and_number : gmap Z (Z * nat);
  study_name_to_id : gmap string Z;
  studies : gmap Z StudyInfo;
  max_study_id : Z;
  max_trial_id : Z;
}.

Definition empty_storage : InMemoryStorage :=
  mkInMemoryStorage ∅ ∅ ∅ (-1) (-1).

Definition new_study_info (nm : string) : StudyInfo :=
  mkStudyInfo [] ∅ ∅ ∅ nm [NOT_SET] None.

Definition set_trials (x : list FrozenTrial) (st : StudyInfo) : StudyInfo :=
  mkStudyInfo x (param_distribution st) (study_user_attrs st)
    (study_system_attrs st) (name st) (directions st) (best_trial_id st).
Definition set_param_distribution (x : gmap string distribution) (st : StudyInfo)
  : StudyInfo :=
  mkStudyInfo (trials st) x (study_user_attrs st)
    (study_system_attrs st) (name st) (directions st) (best_trial_id st).
Definition set_directions (x : list StudyDirection) (st : StudyInfo) : StudyInfo :=
  mkStudyInfo (trials st) (param_distribution st) (study_user_attrs st)
    (study_system_attrs st) (name st) x (best_trial_id st).
Definition set_best_trial_id (x : option Z) (st : StudyInfo) : StudyInfo :=
  mkStudyInfo (trials st) (param_distribution st) (study_user_attrs st)
    (study_system_attrs st) (name st) (directions st) x.

Definition set_studies (x : gmap Z StudyInfo) (s : InMemoryStorage)
  : InMemoryStorage :=
  mkInMemoryStorage (trial_id_to_study_id_and_number s) (study_name_to_id s) x
    (max_study_id s) (max_trial_id s).

#[local] Abbreviation St := (M InMemoryStorage).

(** [self._studies[study_id]]: a missing key raises [KeyError]. *)
Definition study_at (study_id : Z) : St StudyInfo :=
  s ← get; from_option KeyError (studies s !! study_id).

Definition put_study (study_id : Z) (st : StudyInfo) : St unit :=
  s ← get; put (set_studies (<[study_id := st]> (studies s)) s).

Definition _check_study_id (study_id : Z) : St unit :=
  s ← get;
  if decide (is_Some (studies s !! study_id)) then ret tt else raise KeyError.

Definition _check_trial_id (trial_id : Z) : St unit :=
  s ← get;
  if decide (is_Some (trial_id_to_study_id_and_number s !! trial_id))
  then ret tt else raise KeyError.

Definition id_entry (trial_id : Z) : St (Z * nat) :=
  s ← get; from_option KeyError (trial_id_to_study_id_and_number s !! trial_id).

Definition _get_trial (trial_id : Z) : St FrozenTrial :=
  _ ← _check_trial_id trial_id;
  '(study_id, trial_number) ← id_entry trial_id;
  st ← study_at study_id;
  from_option IndexError (trials st !! trial_number).

Definition get_trial (trial_id : Z) : St FrozenTrial := _get_trial trial_id.

(** [self._studies[study_id].trials[trial_number] = trial]: a position outside
    the list raises [IndexError]. *)
Definition _set_trial (trial_id : Z) (trial : FrozenTrial) : St unit :=
  '(study_id, trial_number) ← id_entry trial_id;
  st ← study_at study_id;
  if decide (trial_number < length (trials st))%nat
  then put_study study_id (set_trials (<[trial_number := trial]> (trials st)) st)
  else raise IndexError.

Definition get_study_directions (study_id : Z) : St (list StudyDirection) :=
  _ ← _check_study_id study_id;
  st ← study_at study_id;
  ret (directions st).

Definition assign_best (study_id trial_id : Z) : St unit :=
  st ← study_at study_id;
  put_study study_id (set_best_trial_id (Some trial_id) st).

Definition _update_cache (trial_id study_id : Z) : St unit :=
  trial ← _get_trial trial_id;
  if decide (state trial ≠ COMPLETE) then ret tt else
  st ← study_at study_id;
  match best_trial_id st with
  | None => assign_best study_id trial_id
  | Some best_id =>
    _directions ← get_study_directions study_id;
    if decide (1 < length _directions)%nat then ret tt else
    direction ← from_option IndexError (_directions !! 0%nat);
    best_trial ← _get_trial best_id;
    best_value_or_none ← lift (value best_trial);
    match best_value_or_none with
    | None => assign_best study_id trial_id
    | Some best_value =>
      new_value_or_none ← lift (value trial);
      match new_value_or_none with
      | None => raise AssertionError
      | Some new_value =>
        if decide (direction = MAXIMIZE) then
          if Qltb best_value new_value
          then assign_best study_id trial_id else ret tt
        else
          if Qgtb best_value new_value
          then assign_best study_id trial_id else ret tt
      end
    end
  end.

Definition create_new_trial (now : datetime) (study_id : Z)
    (template_trial : option FrozenTrial) : St Z :=
  _ ← _check_study_id study_id;
  let trial := match template_trial with
               | None => _create_running_trial now
               | Some t => t
               end in
  s ← get;
  let new_id := max_trial_id s + 1 in
  _ ← put (mkInMemoryStorage (trial_id_to_study_id_and_number s)
             (study_name_to_id s) (studies s) (max_study_id s) new_id);
  st ← study_at study_id;
  let n := length (trials st) in
  let trial := set_trial_id new_id (set_number (Z.of_nat n) trial) in
  s ← get;
  _ ← put (mkInMemoryStorage
             (<[new_id := (study_id, n)]> (trial_id_to_study_id_and_number s))
             (study_name_to_id s) (studies s) (max_study_id s) (max_trial_id s));
  _ ← put_study study_id (set_trials (trials st ++ [trial]) st);
  _ ← _update_cache new_id study_id;
  ret new_id.

Definition set_trial_state (now : datetime) (trial_id : Z) (new_state : TrialState)
  : St bool :=
  trial ← _get_trial trial_id;
  _ ← lift (check_trial_is_updatable (state trial));
  _ ← lift (check_trial_is_updatable (state trial));
  if decide (new_state = RUNNING ∧ state trial ≠ WAITING) then ret false else
  let trial := set_state new_state trial in
  let trial := if decide (new_state = RUNNING)
               then set_datetime_start (Some now) trial else trial in
  if is_finished new_state then
    let trial := set_datetime_complete (Some now) trial in
    _ ← _set_trial trial_id trial;
    '(study_id, _) ← id_entry trial_id;
    _ ← _update_cache trial_id study_id;
    ret true
  else
    _ ← _set_trial trial_id trial;
    ret true.

Definition set_trial_param (trial_id : Z) (param_name : string)
    (param_value_internal : Q) (dist : distribution) : St unit :=
  trial ← _get_trial trial_id;
  _ ← lift (check_trial_is_updatable (state trial));
  '(study_id, _) ← id_entry trial_id;
  st ← study_at study_id;
  _ ← match param_distribution st !! param_name with
      | Some d_old =>
        if check_distribution_compatibility d_old dist
        then ret tt else raise ValueError
      | None => ret tt
      end;
  _ ← put_study study_id
        (set_param_distribution (<[param_name := dist]> (param_distribution st)) st);
  let trial :=
    set_params (<[param_name := to_external_repr dist param_value_internal]>
                  (params trial)) trial in
  let trial :=
    set_distributions (<[param_name := dist]> (distributions trial)) trial in
  _set_trial trial_id trial.

Definition set_trial_values (trial_id : Z) (vs : list Q) : St unit :=
  trial ← _get_trial trial_id;
  _ ← lift (check_trial_is_updatable (state trial));
  _ ← lift (check_trial_is_updatable (state trial));
  _set_trial trial_id (set_values (Some vs) trial).

Definition set_trial_intermediate_value (trial_id : Z) (step : Z)
    (intermediate_value : Q) : St unit :=
  trial ← _get_trial trial_id;
  _ ← lift (check_trial_is_updatable (state trial));
  _set_trial trial_id
    (set_intermediate_values
       (<[step := intermediate_value]> (intermediate_values trial)) trial).

Definition set_trial_user_attr (trial_id : Z) (key : string) (v : attr_value)
  : St unit :=
  _ ← _check_trial_id trial_id;
  trial ← _get_trial trial_id;
  _ ← lift (check_trial_is_updatable (state trial));
  _ ← lift (check_trial_is_updatable (state trial));
  _set_trial trial_id (set_user_attrs (<[key := v]> (user_attrs trial)) trial).

Definition set_trial_system_attr (trial_id : Z) (key : string) (v : attr_value)
  : St unit :=
  trial ← _get_trial trial_id;
  _ ← lift (check_trial_is_updatable (state trial));
  _ ← lift (check_trial_is_updatable (state trial));
  _set_trial trial_id (set_system_attrs (<[key := v]> (system_attrs trial)) trial).

Definition get_best_trial (study_id : Z) : St FrozenTrial :=
  _ ← _check_study_id study_id;
  st ← study_at study_id;
  match best_trial_id st with
  | None => raise ValueError
  | Some best_id =>
    if decide (1 < length (directions st))%nat then raise ValueError
    else get_trial best_id
  end.

Definition set_study_directions (study_id : Z) (new_directions : list StudyDirection)
  : St unit :=
  _ ← _check_study_id study_id;
  study ← study_at study_id;
  first ← from_option IndexError (directions study !! 0%nat);
  if decide (first ≠ NOT_SET ∧ directions study ≠ new_directions)
  then raise ValueError
  else put_study study_id (set_directions new_directions study).

Definition get_all_trials (study_id : Z) (states : option (list TrialState))
  : St (list FrozenTrial) :=
  _ ← _check_study_id study_id;
  st ← study_at study_id;
  ret (match states with
       | None => trials st
       | Some sts => filter (fun t => state t ∈ sts) (trials st)
       end).

(** *** Studies *)

Definition set_study_user_attrs (x : gmap string attr_value) (st : StudyInfo)
  : StudyInfo :=
  mkStudyInfo (trials st) (param_distribution st) x
    (study_system_attrs st) (name st) (directions st) (best_trial_id st).
Definition set_study_system_attrs (x : gmap string attr_value) (st : StudyInfo)
  : StudyInfo :=
  mkStudyInfo (trials st) (param_distribution st) (study_user_attrs st)
    x (name st) (directions st) (best_trial_id st).

(** [generated_name] is the value of
    [DEFAULT_STUDY_NAME_PREFIX + str(uuid.uuid4())], used when no name is
    given.  The id counter is advanced before the name is looked at. *)
Definition create_new_study (generated_name : string) (study_name : option string)
    (s : InMemoryStorage) : new_study * InMemoryStorage :=
  let study_id := max_study_id s + 1 in
  let s := mkInMemoryStorage (trial_id_to_study_id_and_number s)
             (study_name_to_id s) (studies s) (max_study_id s + 1)
             (max_trial_id s) in
  let accepted_name :=
    match study_name with
    | Some nm =>
      if decide (is_Some (study_name_to_id s !! nm)) then None else Some nm
    | None => Some generated_name
    end in
  match accepted_name with
  | None => (DuplicatedStudyError, s)
  | Some nm =>
    (NewStudy study_id,
     mkInMemoryStorage (trial_id_to_study_id_and_number s)
       (<[nm := study_id]> (study_name_to_id s))
       (<[study_id := new_study_info nm]> (studies s))
       (max_study_id s) (max_trial_id s))
  end.

(** [for trial in trials: del self._trial_id_to_study_id_and_number[trial._trial_id]] *)
Fixpoint del_trial_ids (ts : list FrozenTrial) : St unit :=
  match ts with
  | [] => ret tt
  | trial :: rest =>
    s ← get;
    if decide (is_Some (trial_id_to_study_id_and_number s !! trial_id trial))
    then
      _ ← put (mkInMemoryStorage
                 (delete (trial_id trial) (trial_id_to_study_id_and_number s))
                 (study_name_to_id s) (studies s) (max_study_id s)
                 (max_trial_id s));
      del_trial_ids rest
    else raise KeyError
  end.

Definition delete_study (study_id : Z) : St unit :=
  _ ← _check_study_id study_id;
  st ← study_at study_id;
  _ ← del_trial_ids (trials st);
  st ← study_at study_id;
  let study_name := name st in
  s ← get;
  if decide (is_Some (study_name_to_id s !! study_name)) then
    _ ← put (mkInMemoryStorage (trial_id_to_study_id_and_number s)
               (delete study_name (study_name_to_id s)) (studies s)
               (max_study_id s) (max_trial_id s));
    s ← get;
    if decide (is_Some (studies s !! study_id))
    then put (set_studies (delete study_id (studies s)) s)
    else raise KeyError
  else raise KeyError.

Definition set_study_user_attr (study_id : Z) (key : string) (v : attr_value)
  : St unit :=
  _ ← _check_study_id study_id;
  st ← study_at study_id;
  put_study study_id (set_study_user_attrs (<[key := v]> (study_user_attrs st)) st).

Definition set_study_system_attr (study_id : Z) (key : string) (v : attr_value)
  : St unit :=
  _ ← _check_study_id study_id;
  st ← study_at study_id;
  put_study study_id
    (set_study_system_attrs (<[key := v]> (study_system_attrs st)) st).

Definition get_study_id_from_name (study_name : string) : St Z :=
  s ← get;
  if decide (is_Some (study_name_to_id s !! study_name))
  then from_option KeyError (study_name_to_id s !! study_name)
  else raise KeyError.

Definition get_study_id_from_trial_id (trial_id : Z) : St Z :=
  _ ← _check_trial_id trial_id;
  '(study_id, _) ← id_entry trial_id;
  ret study_id.

Definition get_study_name_from_id (study_id : Z) : St string :=
  _ ← _check_study_id study_id;
  st ← study_at study_id;
  ret (name st).

Definition get_study_user_attrs (study_id : Z) : St (gmap string attr_value) :=
  _ ← _check_study_id study_id;
  st ← study_at study_id;
  ret (study_user_attrs st).

Definition get_study_system_attrs (study_id : Z) : St (gmap string attr_value) :=
  _ ← _check_study_id study_id;
  st ← study_at study_id;
  ret (study_system_attrs st).

(** *** Trial lookups *)

Definition get_trial_id_from_study_id_trial_number (study_id trial_number : Z)
  : St Z :=
  s ← get;
  match studies s !! study_id with
  | None => raise KeyError
  | Some study =>
    let _trials := trials study in
    if decide (Z.of_nat (length _trials) <= trial_number) then raise KeyError else
    trial ← from_option IndexError (py_index _trials trial_number);
    if decide (number trial = trial_number) then ret (trial_id trial)
    else raise AssertionError
  end.

Definition get_trial_number_from_id (trial_id : Z) : St Z :=
  _ ← _check_trial_id trial_id;
  '(_, trial_number) ← id_entry trial_id;
  ret (Z.of_nat trial_number).

Definition read_trials_from_remote_storage (study_id : Z) : St unit :=
  _check_study_id study_id.

End InMemory.
End InMemory.

(** ** [optuna/storages/_redis.py]

    The server is a record with one field per family of keys.  Values are
    stored unpickled; [get_trial] hands out a private copy, so a trial
    changes in the server only through a [set].  Study summaries
    ([study_id:..:study_summary]) only mirror data kept under other keys and
    are left out. *)

Module Redis.
Section Redis.
Context `{!Externals}.

Record RedisStorage : Type := mkRedisStorage {
  _heartbeat_interval : option Z;
  _grace_period : option Z;
  key_trial : gmap Z FrozenTrial;            (* trial_id:..:frozentrial *)
  key_trial_study_id : gmap Z Z;             (* trial_id:..:study_id *)
  key_study_name : gmap Z string;            (* study_id:..:study_name *)
  key_study_direction : gmap Z (list StudyDirection);
  key_trial_list : gmap Z (list Z);          (* study_id:..:trial_list *)
  key_trial_number : gmap Z Z;               (* study_id:..:trial_number *)
  trial_counter : option Z;
  key_best_trial : gmap Z Z;                 (* study_id:..:best_trial_id *)
  key_study_param_distribution : gmap Z (gmap string distribution);
  key_study_heartbeats : gmap Z (list (Z * Q));
}.

#[local] Abbreviation St := (M RedisStorage).

Definition with_key_trial (x : gmap Z FrozenTrial) (r : RedisStorage) : RedisStorage :=
  mkRedisStorage (_heartbeat_interval r) (_grace_period r) x
    (key_trial_study_id r) (key_study_name r) (key_study_direction r)
    (key_trial_list r) (key_trial_number r) (trial_counter r) (key_best_trial r)
    (key_study_param_distribution r) (key_study_heartbeats r).
Definition with_key_best_trial (x : gmap Z Z) (r : RedisStorage) : RedisStorage :=
  mkRedisStorage (_heartbeat_interval r) (_grace_period r) (key_trial r)
    (key_trial_study_id r) (key_study_name r) (key_study_direction r)
    (key_trial_list r) (key_trial_number r) (trial_counter r) x
    (key_study_param_distribution r) (key_study_heartbeats r).
Definition with_key_study_param_distribution
    (x : gmap Z (gmap string distribution)) (r : RedisStorage) : RedisStorage :=
  mkRedisStorage (_heartbeat_interval r) (_grace_period r) (key_trial r)
    (key_trial_study_id r) (key_study_name r) (key_study_direction r)
    (key_trial_list r) (key_trial_number r) (trial_counter r) (key_best_trial r)
    x (key_study_heartbeats r).
Definition with_key_study_heartbeats (x : gmap Z (list (Z * Q))) (r : RedisStorage)
  : RedisStorage :=
  mkRedisStorage (_heartbeat_interval r) (_grace_period r) (key_trial r)
    (key_trial_study_id r) (key_study_name r) (key_study_direction r)
    (key_trial_list r) (key_trial_number r) (trial_counter r) (key_best_trial r)
    (key_study_param_distribution r) x.

(** Redis hashes: [HSET], [HDEL], [HGETALL] on a field/value list. *)
Fixpoint hset (field : Z) (v : Q) (h : list (Z * Q)) : list (Z * Q) :=
  match h with
  | [] => [(field, v)]
  | (f, w) :: h' =>
    if decide (f = field) then (f, v) :: h' else (f, w) :: hset field v h'
  end.

Definition hdel (field : Z) (h : list (Z * Q)) : list (Z * Q) :=
  filter (fun fv => fv.1 ≠ field) h.

Definition hgetall (study_id : Z) (r : RedisStorage) : list (Z * Q) :=
  default [] (key_study_heartbeats r !! study_id).

Definition _check_study_id (study_id : Z) : St unit :=
  r ← get;
  if decide (is_Some (key_study_name r !! study_id)) then ret tt else raise KeyError.

Definition _check_trial_id (trial_id : Z) : St unit :=
  r ← get;
  if decide (is_Some (key_trial r !! trial_id)) then ret tt else raise KeyError.

Definition get_trial (trial_id : Z) : St FrozenTrial :=
  _ ← _check_trial_id trial_id;
  r ← get;
  from_option AssertionError (key_trial r !! trial_id).

Definition _set_trial (trial_id : Z) (trial : FrozenTrial) : St unit :=
  r ← get; put (with_key_trial (<[trial_id := trial]> (key_trial r)) r).

Definition get_study_id_from_trial_id (trial_id : Z) : St Z :=
  r ← get; from_option KeyError (key_trial_study_id r !! trial_id).

Definition get_study_directions (study_id : Z) : St (list StudyDirection) :=
  r ← get; from_option KeyError (key_study_direction r !! study_id).

Definition _get_study_trials (study_id : Z) : St (list Z) :=
  _ ← _check_study_id study_id;
  r ← get;
  ret (default [] (key_trial_list r !! study_id)).

Fixpoint get_trials_of (trial_ids : list Z) : St (list FrozenTrial) :=
  match trial_ids with
  | [] => ret []
  | i :: rest =>
    t ← get_trial i;
    ts ← get_trials_of rest;
    ret (t :: ts)
  end.

Definition get_all_trials (study_id : Z) (states : option (list TrialState))
  : St (list FrozenTrial) :=
  _ ← _check_study_id study_id;
  trial_ids ← _get_study_trials study_id;
  ts ← get_trials_of trial_ids;
  ret (match states with
       | None => ts
       | Some sts => filter (fun t => state t ∈ sts) ts
       end).

Definition _set_best_trial (study_id trial_id : Z) : St unit :=
  _ ← get_trial trial_id;
  r ← get;
  put (with_key_best_trial (<[study_id := trial_id]> (key_best_trial r)) r).

(** Python's [max(seq, key=...)] and [min(seq, key=...)]: the first element
    stays until a later one is strictly better; comparing a missing value is a
    [TypeError], an empty sequence a [ValueError]. *)
Definition key_of (t : FrozenTrial) : result (option Q) := value t.

Fixpoint extremum_from (better : Q -> Q -> bool) (best : FrozenTrial)
    (rest : list FrozenTrial) : result FrozenTrial :=
  match rest with
  | [] => Ok best
  | t :: rest' =>
    match key_of t, key_of best with
    | Ok (Some k), Ok (Some kb) =>
      if better k kb then extremum_from better t rest'
      else extremum_from better best rest'
    | Raise e, _ => Raise e
    | _, Raise e => Raise e
    | _, _ => Raise TypeError
    end
  end.

Definition py_max (l : list FrozenTrial) : result FrozenTrial :=
  match l with
  | [] => Raise ValueError
  | t :: rest => extremum_from Qgtb t rest
  end.

Definition py_min (l : list FrozenTrial) : result FrozenTrial :=
  match l with
  | [] => Raise ValueError
  | t :: rest => extremum_from Qltb t rest
  end.

(** The scan of [get_best_trial] over all COMPLETE trials of the study (the
    branch taken when no best-trial key exists), up to the choice of the best
    trial. *)
Definition scan_best_trial (study_id : Z) : St FrozenTrial :=
  all_trials ← get_all_trials study_id None;
  let all_trials := filter (fun t => state t = COMPLETE) all_trials in
  if decide (length all_trials = 0%nat) then raise ValueError else
  _direction ← get_study_directions study_id;
  if decide (1 < length _direction)%nat then raise ValueError else
  direction ← from_option IndexError (_direction !! 0%nat);
  lift (if decide (direction = MAXIMIZE)
        then py_max all_trials else py_min all_trials).

Definition get_best_trial (study_id : Z) : St FrozenTrial :=
  r ← get;
  match key_best_trial r !! study_id with
  | None =>
    best_trial ← scan_best_trial study_id;
    _ ← _set_best_trial study_id (number best_trial);
    ret best_trial
  | Some best_id => get_trial best_id
  end.

Definition _update_cache (trial_id : Z) : St unit :=
  trial ← get_trial trial_id;
  if decide (state trial ≠ COMPLETE) then ret tt else
  study_id ← get_study_id_from_trial_id trial_id;
  _direction ← get_study_directions study_id;
  if decide (1 < length _direction)%nat then ret tt else
  direction ← from_option IndexError (_direction !! 0%nat);
  r ← get;
  if decide (key_best_trial r !! study_id = None)
  then _set_best_trial study_id trial_id else
  best_trial ← get_best_trial study_id;
  best_value_or_none ← lift (value best_trial);
  new_value_or_none ← lift (value trial);
  match best_value_or_none, new_value_or_none with
  | Some best_value, Some new_value =>
    if decide (direction = MAXIMIZE) then
      if Qgtb new_value best_value then _set_best_trial study_id trial_id else ret tt
    else
      if Qltb new_value best_value then _set_best_trial study_id trial_id else ret tt
  | _, _ => raise AssertionError
  end.

Definition hdel_heartbeat (study_id trial_id : Z) : St unit :=
  r ← get;
  match key_study_heartbeats r !! study_id with
  | None => ret tt
  | Some h =>
    put (with_key_study_heartbeats
           (<[study_id := hdel trial_id h]> (key_study_heartbeats r)) r)
  end.

Definition set_trial_state (now : datetime) (trial_id : Z) (new_state : TrialState)
  : St bool :=
  _ ← _check_trial_id trial_id;
  trial ← get_trial trial_id;
  _ ← lift (check_trial_is_updatable (state trial));
  if decide (new_state = RUNNING ∧ state trial ≠ WAITING) then ret false else
  let trial := set_state new_state trial in
  let trial := if decide (new_state = RUNNING)
               then set_datetime_start (Some now) trial else trial in
  if is_finished new_state then
    let trial := set_datetime_complete (Some now) trial in
    _ ← _set_trial trial_id trial;
    _ ← _update_cache trial_id;
    study_id ← get_study_id_from_trial_id trial_id;
    _ ← hdel_heartbeat study_id trial_id;
    ret true
  else
    _ ← _set_trial trial_id trial;
    ret true.

Definition _get_study_param_distribution (study_id : Z)
  : St (gmap string distribution) :=
  r ← get; ret (default ∅ (key_study_param_distribution r !! study_id)).

Definition set_trial_param (trial_id : Z) (param_name : string)
    (param_value_internal : Q) (dist : distribution) : St unit :=
  _ ← _check_trial_id trial_id;
  t0 ← get_trial trial_id;
  _ ← lift (check_trial_is_updatable (state t0));
  study_id ← get_study_id_from_trial_id trial_id;
  param_distribution ← _get_study_param_distribution study_id;
  _ ← match param_distribution !! param_name with
      | Some d_old =>
        if check_distribution_compatibility d_old dist
        then ret tt else raise ValueError
      | None => ret tt
      end;
  trial ← get_trial trial_id;
  r ← get;
  _ ← put (with_key_study_param_distribution
             (<[study_id := <[param_name := dist]> param_distribution]>
                (key_study_param_distribution r)) r);
  let trial :=
    set_params (<[param_name := to_external_repr dist param_value_internal]>
                  (params trial)) trial in
  let trial :=
    set_distributions (<[param_name := dist]> (distributions trial)) trial in
  _set_trial trial_id trial.

Definition set_trial_values (trial_id : Z) (vs : list Q) : St unit :=
  _ ← _check_trial_id trial_id;
  trial ← get_trial trial_id;
  _ ← lift (check_trial_is_updatable (state trial));
  _set_trial trial_id (set_values (Some vs) trial).

Definition set_trial_intermediate_value (trial_id : Z) (step : Z)
    (intermediate_value : Q) : St unit :=
  _ ← _check_trial_id trial_id;
  frozen_trial ← get_trial trial_id;
  _ ← lift (check_trial_is_updatable (state frozen_trial));
  _set_trial trial_id
    (set_intermediate_values
       (<[step := intermediate_value]> (intermediate_values frozen_trial))
       frozen_trial).

Definition set_trial_user_attr (trial_id : Z) (key : string) (v : attr_value)
  : St unit :=
  _ ← _check_trial_id trial_id;
  trial ← get_trial trial_id;
  _ ← lift (check_trial_is_updatable (state trial));
  _set_trial trial_id (set_user_attrs (<[key := v]> (user_attrs trial)) trial).

Definition set_trial_system_attr (trial_id : Z) (key : string) (v : attr_value)
  : St unit :=
  _ ← _check_trial_id trial_id;
  trial ← get_trial trial_id;
  _ ← lift (check_trial_is_updatable (state trial));
  _set_trial trial_id (set_system_attrs (<[key := v]> (system_attrs trial)) trial).

(** [redis_time] is the reading of [self._get_redis_time()]. *)
Definition record_heartbeat (redis_time : Q) (trial_id : Z) : St unit :=
  study_id ← get_study_id_from_trial_id trial_id;
  r ← get;
  put (with_key_study_heartbeats
         (<[study_id := hset trial_id redis_time (hgetall study_id r)]>
            (key_study_heartbeats r)) r).

(** The grace period [_get_stale_trial_ids] computes from the two constructor
    arguments. *)
Definition grace_period_of (heartbeat_interval : Z) (grace_period : option Z) : Z :=
  match grace_period with
  | None => 2 * heartbeat_interval
  | Some g => g
  end.

Definition _get_stale_trial_ids (redis_time : Q) (study_id : Z) : St (list Z) :=
  r ← get;
  match _heartbeat_interval r with
  | None => raise AssertionError
  | Some heartbeat_interval =>
    let grace_period := grace_period_of heartbeat_interval (_grace_period r) in
    let current_time := redis_time in
    let heartbeats := hgetall study_id r in
    ret (map fst
           (filter (fun fv => Qgtb (current_time - fv.2) (inject_Z grace_period) = true)
                   heartbeats))
  end.

Fixpoint fail_each (now : datetime) (stale : list Z) : St (list Z) :=
  match stale with
  | [] => ret []
  | trial_id :: rest =>
    ok ← set_trial_state now trial_id FAIL;
    confirmed ← fail_each now rest;
    ret (if (ok : bool) then trial_id :: confirmed else confirmed)
  end.

Definition fail_stale_trials (now : datetime) (redis_time : Q) (study_id : Z)
  : St (list Z) :=
  stale ← _get_stale_trial_ids redis_time study_id;
  fail_each now stale.

Definition set_study_directions (study_id : Z) (new_directions : list StudyDirection)
  : St unit :=
  _ ← _check_study_id study_id;
  r ← get;
  _ ← match key_study_direction r !! study_id with
      | Some current_directions =>
        first ← from_option IndexError (current_directions !! 0%nat);
        if decide (first ≠ NOT_SET ∧ current_directions ≠ new_directions)
        then raise ValueError else ret tt
      | None => ret tt
      end;
  put (mkRedisStorage (_heartbeat_interval r) (_grace_period r) (key_trial r)
         (key_trial_study_id r) (key_study_name r)
         (<[study_id := new_directions]> (key_study_direction r))
         (key_trial_list r) (key_trial_number r) (trial_counter r)
         (key_best_trial r) (key_study_param_distribution r)
         (key_study_heartbeats r)).

(** [INCR] on a missing key counts from 0. *)
Definition create_new_trial (now : datetime) (study_id : Z)
    (template_trial : option FrozenTrial) : St Z :=
  _ ← _check_study_id study_id;
  let trial := match template_trial with
               | None => _create_running_trial now
               | Some t => t
               end in
  r ← get;
  let new_id := default (-1) (trial_counter r) + 1 in
  let trial_number := default 0 (key_trial_number r !! study_id) + 1 in
  let trial := set_trial_id new_id (set_number trial_number trial) in
  _ ← put (mkRedisStorage (_heartbeat_interval r) (_grace_period r)
             (<[new_id := trial]> (key_trial r))
             (<[new_id := study_id]> (key_trial_study_id r))
             (key_study_name r) (key_study_direction r)
             (<[study_id := default [] (key_trial_list r !! study_id) ++ [new_id]]>
                (key_trial_list r))
             (<[study_id := trial_number]> (key_trial_number r))
             (Some new_id) (key_best_trial r)
             (key_study_param_distribution r) (key_study_heartbeats r));
  _ ← (if is_finished (state trial) then _update_cache new_id else ret tt);
  ret new_id.

(** *** Lookups *)

Definition get_study_name_from_id (study_id : Z) : St string :=
  _ ← _check_study_id study_id;
  r ← get;
  from_option KeyError (key_study_name r !! study_id).

Definition get_trial_id_from_study_id_trial_number (study_id trial_number : Z)
  : St Z :=
  trial_ids ← _get_study_trials study_id;
  if decide (Z.of_nat (length trial_ids) <= trial_number) then raise KeyError else
  from_option IndexError (py_index trial_ids trial_number).

Definition get_trial_number_from_id (trial_id : Z) : St Z :=
  t ← get_trial trial_id;
  ret (number t).

Definition read_trials_from_remote_storage (study_id : Z) : St unit :=
  _check_study_id study_id.

Definition get_heartbeat_interval : St (option Z) :=
  r ← get; ret (_heartbeat_interval r).

End Redis.
End Redis.

(** ** [optuna/storages/_cached_storage.py] *)

Module Cached.
Section Cached.
Context `{!Externals}.

Record _TrialUpdate : Type := mkTrialUpdate {
  upd_state : option TrialState;
  upd_values : option (list Q);
  upd_intermediate_values : gmap Z Q;
  upd_user_attrs : gmap string attr_value;
  upd_system_attrs : gmap string attr_value;
  upd_params : gmap string Q;
  upd_distributions : gmap string distribution;
  upd_datetime_complete : option datetime;
  upd_datetime_start : option datetime;
}.

Definition new_TrialUpdate : _TrialUpdate :=
  mkTrialUpdate None None ∅ ∅ ∅ ∅ ∅ None None.

(** Assignments to the attributes of a [_TrialUpdate]. *)
Definition upd_set_state (x : TrialState) (u : _TrialUpdate) : _TrialUpdate :=
  mkTrialUpdate (Some x) (upd_values u) (upd_intermediate_values u)
    (upd_user_attrs u) (upd_system_attrs u) (upd_params u)
    (upd_distributions u) (upd_datetime_complete u) (upd_datetime_start u).
Definition upd_set_values (x : list Q) (u : _TrialUpdate) : _TrialUpdate :=
  mkTrialUpdate (upd_state u) (Some x) (upd_intermediate_values u)
    (upd_user_attrs u) (upd_system_attrs u) (upd_params u)
    (upd_distributions u) (upd_datetime_complete u) (upd_datetime_start u).
Definition upd_set_intermediate_value (step : Z) (x : Q) (u : _TrialUpdate)
  : _TrialUpdate :=
  mkTrialUpdate (upd_state u) (upd_values u)
    (<[step := x]> (upd_intermediate_values u))
    (upd_user_attrs u) (upd_system_attrs u) (upd_params u)
    (upd_distributions u) (upd_datetime_complete u) (upd_datetime_start u).
Definition upd_set_user_attr (key : string) (x : attr_value) (u : _TrialUpdate)
  : _TrialUpdate :=
  mkTrialUpdate (upd_state u) (upd_values u) (upd_intermediate_values u)
    (<[key := x]> (upd_user_attrs u)) (upd_system_attrs u) (upd_params u)
    (upd_distributions u) (upd_datetime_complete u) (upd_datetime_start u).
Definition upd_set_system_attr (key : string) (x : attr_value) (u : _TrialUpdate)
  : _TrialUpdate :=
  mkTrialUpdate (upd_state u) (upd_values u) (upd_intermediate_values u)
    (upd_user_attrs u) (<[key := x]> (upd_system_attrs u)) (upd_params u)
    (upd_distributions u) (upd_datetime_complete u) (upd_datetime_start u).
Definition upd_set_param (param_name : string) (x : Q) (dist : distribution)
    (u : _TrialUpdate) : _TrialUpdate :=
  mkTrialUpdate (upd_state u) (upd_values u) (upd_intermediate_values u)
    (upd_user_attrs u) (upd_system_attrs u)
    (<[param_name := x]> (upd_params u))
    (<[param_name := dist]> (upd_distributions u))
    (upd_datetime_complete u) (upd_datetime_start u).
Definition upd_set_datetime_complete (x : datetime) (u : _TrialUpdate)
  : _TrialUpdate :=
  mkTrialUpdate (upd_state u) (upd_values u) (upd_intermediate_values u)
    (upd_user_attrs u) (upd_system_attrs u) (upd_params u)
    (upd_distributions u) (Some x) (upd_datetime_start u).

(** *** The backend behind the wrapper

    The wrapper is written against [RDBStorage], which is not among the
    sources.  The backend used here is the in-memory storage of
    [_in_memory.py], extended with the four private entry points the wrapper
    calls. *)

Definition or_else {A} (new : option A) (old : option A) : option A :=
  match new with Some x => Some x | None => old end.

(** The record a merged update leaves: every part that is present replaces or
    extends the stored one. *)
Definition apply_update (u : _TrialUpdate) (t : FrozenTrial) : FrozenTrial :=
  mkFrozenTrial
    (number t)
    (default (state t) (upd_state u))
    (or_else (upd_values u) (values t))
    (upd_intermediate_values u ∪ intermediate_values t)
    (map_zip_with (fun v d => to_external_repr d v) (upd_params u)
       (upd_distributions u) ∪ params t)
    (upd_distributions u ∪ distributions t)
    (upd_user_attrs u ∪ user_attrs t)
    (upd_system_attrs u ∪ system_attrs t)
    (or_else (upd_datetime_start u) (datetime_start t))
    (or_else (upd_datetime_complete u) (datetime_complete t))
    (trial_id t).

(** Modelled from the spec: the backend's [_update_trial], which is not among
    the sources.  "a single 'merged update' call accepting any subset of
    {state, values, intermediate values, params+distributions, user attrs,
    system attrs, start time, completion time} to be applied as one unit";
    "atomic 'set trial state' that fails or returns false if the requested
    transition is illegal"; "Any mutation attempted on a trial already in a
    finished state fails with a 'not updatable' error"; a finish "triggers
    Best-Trial Tracker update if COMPLETE". *)
Definition _update_trial (trial_id : Z) (u : _TrialUpdate) : M InMemory.InMemoryStorage bool :=
  trial ← InMemory._get_trial trial_id;
  _ ← lift (check_trial_is_updatable (state trial));
  if decide (upd_state u = Some RUNNING ∧ state trial ≠ WAITING) then ret false else
  let trial := apply_update u trial in
  _ ← InMemory._set_trial trial_id trial;
  if is_finished (state trial) then
    '(study_id, _) ← InMemory.id_entry trial_id;
    _ ← InMemory._update_cache trial_id study_id;
    ret true
  else ret true.

(** Modelled from the spec: the backend's [_create_new_trial], which is not
    among the sources.  "create trial (optionally cloned from a template)",
    returning the record that was created. *)
Definition _create_new_trial (now : datetime) (study_id : Z)
    (template_trial : option FrozenTrial) : M InMemory.InMemoryStorage FrozenTrial :=
  new_id ← InMemory.create_new_trial now study_id template_trial;
  InMemory.get_trial new_id.

(** Modelled from the spec: the backend's [_check_and_set_param_distribution],
    which is not among the sources.  "register-and-check a (study, param)
    distribution atomically (first writer wins; later incompatible writers
    fail)": "if unseen, register and succeed; if seen and compatible, succeed
    as a no-op; if seen and incompatible, fail"; the call "immediately commits
    the parameter value too". *)
Definition _check_and_set_param_distribution (study_id trial_id : Z)
    (param_name : string) (param_value_internal : Q) (dist : distribution)
  : M InMemory.InMemoryStorage unit :=
  trial ← InMemory._get_trial trial_id;
  _ ← lift (check_trial_is_updatable (state trial));
  st ← InMemory.study_at study_id;
  _ ← match InMemory.param_distribution st !! param_name with
      | Some d_old =>
        if check_distribution_compatibility d_old dist
        then ret tt else raise ValueError
      | None =>
        InMemory.put_study study_id
          (InMemory.set_param_distribution
             (<[param_name := dist]> (InMemory.param_distribution st)) st)
      end;
  let trial :=
    set_params (<[param_name := to_external_repr dist param_value_internal]>
                  (params trial)) trial in
  let trial :=
    set_distributions (<[param_name := dist]> (distributions trial)) trial in
  InMemory._set_trial trial_id trial.

(** Modelled from the spec: the backend's [_get_trials], which is not among
    the sources.  "fetch one or all trials of a study (optionally filtered by
    state, optionally excluding a given id set)". *)
Definition _get_trials (study_id : Z) (excluded_trial_ids : gset Z)
  : M InMemory.InMemoryStorage (list FrozenTrial) :=
  _ ← InMemory._check_study_id study_id;
  st ← InMemory.study_at study_id;
  ret (filter (fun t => trial_id t ∉ excluded_trial_ids) (InMemory.trials st)).

(** *** The wrapper *)

Record _StudyInfo : Type := mkStudyInfo {
  trials : gmap Z FrozenTrial;
  owned_or_finished_trial_ids : gset Z;
  updates : gmap Z _TrialUpdate;
  param_distribution : gmap string distribution;
  directions : list StudyDirection;
  name : option string;
}.

Definition new_StudyInfo : _StudyInfo :=
  mkStudyInfo ∅ ∅ ∅ ∅ [NOT_SET] None.

(** The calls the wrapper makes on its backend, in the order they are made. *)
Inductive BackendCall : Type :=
| call_create_new_trial (study_id : Z)
| call_set_trial_state (trial_id : Z) (st : TrialState)
| call_get_trial (trial_id : Z)
| call_set_trial_param (trial_id : Z) (param_name : string)
| call_check_and_set_param_distribution (study_id trial_id : Z) (param_name : string)
| call_update_trial (trial_id : Z) (u : _TrialUpdate)
| call_set_trial_intermediate_value (trial_id step : Z)
| call_get_trials (study_id : Z).

(** [backend_calls] is ghost state: the log of backend calls made so far. *)
Record _CachedStorage : Type := mkCachedStorage {
  _backend : InMemory.InMemoryStorage;
  _studies : gmap Z _StudyInfo;
  _trial_id_to_study_id_and_number : gmap Z (Z * Z);
  backend_calls : list BackendCall;
}.

Definition wrap (backend : InMemory.InMemoryStorage) : _CachedStorage :=
  mkCachedStorage backend ∅ ∅ [].

#[local] Abbreviation St := (M _CachedStorage).

(** Run a backend method and log the call. *)
Definition call {A} (c : BackendCall) (m : M InMemory.InMemoryStorage A) : St A :=
  fun w =>
    let '(r, b) := m (_backend w) in
    (r, mkCachedStorage b (_studies w) (_trial_id_to_study_id_and_number w)
          (backend_calls w ++ [c])).

Definition with_trials (x : gmap Z FrozenTrial) (st : _StudyInfo) : _StudyInfo :=
  mkStudyInfo x (owned_or_finished_trial_ids st) (updates st)
    (param_distribution st) (directions st) (name st).
Definition with_owned (x : gset Z) (st : _StudyInfo) : _StudyInfo :=
  mkStudyInfo (trials st) x (updates st)
    (param_distribution st) (directions st) (name st).
Definition with_updates (x : gmap Z _TrialUpdate) (st : _StudyInfo) : _StudyInfo :=
  mkStudyInfo (trials st) (owned_or_finished_trial_ids st) x
    (param_distribution st) (directions st) (name st).
Definition with_param_distribution (x : gmap string distribution) (st : _StudyInfo)
  : _StudyInfo :=
  mkStudyInfo (trials st) (owned_or_finished_trial_ids st) (updates st)
    x (directions st) (name st).

Definition with_studies (x : gmap Z _StudyInfo) (w : _CachedStorage) : _CachedStorage :=
  mkCachedStorage (_backend w) x (_trial_id_to_study_id_and_number w)
    (backend_calls w).
Definition with_ids (x : gmap Z (Z * Z)) (w : _CachedStorage) : _CachedStorage :=
  mkCachedStorage (_backend w) (_studies w) x (backend_calls w).

(** [self._studies[study_id]] *)
Definition study_at (study_id : Z) : St _StudyInfo :=
  w ← get; from_option KeyError (_studies w !! study_id).

(** In-place mutation of [self._studies[study_id]]. *)
Definition modify_study (study_id : Z) (f : _StudyInfo -> _StudyInfo) : St unit :=
  st ← study_at study_id;
  w ← get;
  put (with_studies (<[study_id := f st]> (_studies w)) w).

(** [self._trial_id_to_study_id_and_number[trial_id]] *)
Definition id_entry (trial_id : Z) : St (Z * Z) :=
  w ← get; from_option KeyError (_trial_id_to_study_id_and_number w !! trial_id).

(** [if study_id not in self._studies: self._studies[study_id] = _StudyInfo()] *)
Definition ensure_study (study_id : Z) : St unit :=
  w ← get;
  match _studies w !! study_id with
  | Some _ => ret tt
  | None => put (with_studies (<[study_id := new_StudyInfo]> (_studies w)) w)
  end.

Definition _get_cached_trial (trial_id : Z) : St (option FrozenTrial) :=
  w ← get;
  match _trial_id_to_study_id_and_number w !! trial_id with
  | None => ret None
  | Some (study_id, number) =>
    study ← study_at study_id;
    if decide (trial_id ∈ owned_or_finished_trial_ids study)
    then t ← from_option KeyError (trials study !! number); ret (Some t)
    else ret None
  end.

(** The cached trial and the pending update are Python objects mutated in
    place; [set_cached] and [set_pending] write the mutated object back to the
    slot it lives in. *)
Definition set_cached (trial_id : Z) (t : FrozenTrial) : St unit :=
  '(study_id, number) ← id_entry trial_id;
  modify_study study_id (fun st => with_trials (<[number := t]> (trials st)) st).

Definition set_pending (trial_id : Z) (u : _TrialUpdate) : St unit :=
  '(study_id, number) ← id_entry trial_id;
  modify_study study_id (fun st => with_updates (<[number := u]> (updates st)) st).

Definition _get_updates (trial_id : Z) : St _TrialUpdate :=
  '(study_id, number) ← id_entry trial_id;
  study ← study_at study_id;
  match updates study !! number with
  | Some u => ret u
  | None =>
    _ ← modify_study study_id
          (fun st => with_updates (<[number := new_TrialUpdate]> (updates st)) st);
    ret new_TrialUpdate
  end.

Definition _check_trial_is_updatable (trial : FrozenTrial) : result unit :=
  if is_finished (state trial) then Raise RuntimeError else Ok tt.

Definition _flush_trial (trial_id : Z) : St bool :=
  w ← get;
  match _trial_id_to_study_id_and_number w !! trial_id with
  | None => ret true
  | Some (study_id, number) =>
    study ← study_at study_id;
    match updates study !! number with
    | None => ret true
    | Some u =>
      _ ← modify_study study_id
            (fun st => with_updates (delete number (updates st)) st);
      call (call_update_trial trial_id u) (_update_trial trial_id u)
    end
  end.

Fixpoint _add_trials_to_cache_loop (study_id : Z) (ts : list FrozenTrial) : St unit :=
  match ts with
  | [] => ret tt
  | trial :: rest =>
    w ← get;
    _ ← put (with_ids (<[trial_id trial := (study_id, number trial)]>
                         (_trial_id_to_study_id_and_number w)) w);
    _ ← modify_study study_id
          (fun st => with_trials (<[number trial := trial]> (trials st)) st);
    _add_trials_to_cache_loop study_id rest
  end.

Definition _add_trials_to_cache (study_id : Z) (ts : list FrozenTrial) : St unit :=
  _ ← study_at study_id;
  _add_trials_to_cache_loop study_id ts.

Definition add_owned (study_id trial_id : Z) : St unit :=
  modify_study study_id
    (fun st => with_owned ({[trial_id]} ∪ owned_or_finished_trial_ids st) st).

Definition create_new_trial (now : datetime) (study_id : Z)
    (template_trial : option FrozenTrial) : St Z :=
  frozen_trial ← call (call_create_new_trial study_id)
                   (_create_new_trial now study_id template_trial);
  let new_id := trial_id frozen_trial in
  _ ← ensure_study study_id;
  _ ← _add_trials_to_cache study_id [frozen_trial];
  _ ← (if decide (state frozen_trial ≠ WAITING)
       then add_owned study_id (trial_id frozen_trial) else ret tt);
  ret new_id.

Definition set_trial_state (now : datetime) (trial_id : Z) (new_state : TrialState)
  : St bool :=
  cached ← _get_cached_trial trial_id;
  match cached with
  | Some cached_trial =>
    if decide (state cached_trial = WAITING) then raise AssertionError else
    _ ← lift (_check_trial_is_updatable cached_trial);
    u ← _get_updates trial_id;
    let cached_trial := set_state new_state cached_trial in
    _ ← set_cached trial_id cached_trial;
    let u := upd_set_state new_state u in
    _ ← set_pending trial_id u;
    _ ← (if is_finished (state cached_trial) then
           _ ← set_pending trial_id (upd_set_datetime_complete now u);
           set_cached trial_id (set_datetime_complete (Some now) cached_trial)
         else ret tt);
    _flush_trial trial_id
  | None =>
    accepted ← call (call_set_trial_state trial_id new_state)
                 (InMemory.set_trial_state now trial_id new_state);
    w ← get;
    _ ← (if decide ((accepted : bool) = true ∧ new_state = RUNNING ∧
                    is_Some (_trial_id_to_study_id_and_number w !! trial_id))
         then
           '(study_id, _) ← id_entry trial_id;
           fetched ← call (call_get_trial trial_id) (InMemory.get_trial trial_id);
           _ ← _add_trials_to_cache study_id [fetched];
           add_owned study_id trial_id
         else ret tt);
    ret accepted
  end.

Definition set_trial_param (trial_id : Z) (param_name : string)
    (param_value_internal : Q) (dist : distribution) : St unit :=
  cached ← _get_cached_trial trial_id;
  match cached with
  | Some cached_trial =>
    _ ← lift (_check_trial_is_updatable cached_trial);
    '(study_id, _) ← id_entry trial_id;
    study ← study_at study_id;
    let cached_dist := param_distribution study !! param_name in
    _ ← match cached_dist with
        | Some d_old =>
          if check_distribution_compatibility d_old dist
          then ret tt else raise ValueError
        | None =>
          _ ← call (call_check_and_set_param_distribution study_id trial_id param_name)
                (_check_and_set_param_distribution study_id trial_id param_name
                   param_value_internal dist);
          modify_study study_id
            (fun st => with_param_distribution
                         (<[param_name := dist]> (param_distribution st)) st)
        end;
    let cached_trial :=
      set_params (<[param_name := to_external_repr dist param_value_internal]>
                    (params cached_trial)) cached_trial in
    let cached_trial :=
      set_distributions (<[param_name := dist]> (distributions cached_trial))
        cached_trial in
    _ ← set_cached trial_id cached_trial;
    match cached_dist with
    | Some _ =>
      u ← _get_updates trial_id;
      _ ← set_pending trial_id
            (upd_set_param param_name param_value_internal dist u);
      _ ← _flush_trial trial_id;
      ret tt
    | None => ret tt
    end
  | None =>
    call (call_set_trial_param trial_id param_name)
      (InMemory.set_trial_param trial_id param_name param_value_internal dist)
  end.

Definition set_trial_values (trial_id : Z) (vs : list Q) : St unit :=
  cached ← _get_cached_trial trial_id;
  match cached with
  | Some cached_trial =>
    _ ← lift (_check_trial_is_updatable cached_trial);
    u ← _get_updates trial_id;
    _ ← set_cached trial_id (set_values (Some vs) cached_trial);
    set_pending trial_id (upd_set_values vs u)
  | None =>
    let u := upd_set_values vs new_TrialUpdate in
    _ ← call (call_update_trial trial_id u) (_update_trial trial_id u);
    ret tt
  end.

Definition set_trial_intermediate_value (trial_id : Z) (step : Z)
    (intermediate_value : Q) : St unit :=
  cached ← _get_cached_trial trial_id;
  match cached with
  | Some cached_trial =>
    _ ← lift (_check_trial_is_updatable cached_trial);
    u ← _get_updates trial_id;
    _ ← set_cached trial_id
          (set_intermediate_values
             (<[step := intermediate_value]> (intermediate_values cached_trial))
             cached_trial);
    _ ← set_pending trial_id
          (upd_set_intermediate_value step intermediate_value u);
    _ ← _flush_trial trial_id;
    ret tt
  | None =>
    call (call_set_trial_intermediate_value trial_id step)
      (InMemory.set_trial_intermediate_value trial_id step intermediate_value)
  end.

Definition set_trial_user_attr (trial_id : Z) (key : string) (v : attr_value)
  : St unit :=
  cached ← _get_cached_trial trial_id;
  match cached with
  | Some cached_trial =>
    _ ← lift (_check_trial_is_updatable cached_trial);
    u ← _get_updates trial_id;
    _ ← set_cached trial_id
          (set_user_attrs (<[key := v]> (user_attrs cached_trial)) cached_trial);
    _ ← set_pending trial_id (upd_set_user_attr key v u);
    _ ← _flush_trial trial_id;
    ret tt
  | None =>
    let u := upd_set_user_attr key v new_TrialUpdate in
    _ ← call (call_update_trial trial_id u) (_update_trial trial_id u);
    ret tt
  end.

Definition set_trial_system_attr (trial_id : Z) (key : string) (v : attr_value)
  : St unit :=
  cached ← _get_cached_trial trial_id;
  match cached with
  | Some cached_trial =>
    _ ← lift (_check_trial_is_updatable cached_trial);
    u ← _get_updates trial_id;
    _ ← set_cached trial_id
          (set_system_attrs (<[key := v]> (system_attrs cached_trial)) cached_trial);
    _ ← set_pending trial_id (upd_set_system_attr key v u);
    _ ← _flush_trial trial_id;
    ret tt
  | None =>
    let u := upd_set_system_attr key v new_TrialUpdate in
    _ ← call (call_update_trial trial_id u) (_update_trial trial_id u);
    ret tt
  end.

Definition get_trial (trial_id : Z) : St FrozenTrial :=
  cached ← _get_cached_trial trial_id;
  match cached with
  | Some trial => ret trial
  | None => call (call_get_trial trial_id) (InMemory.get_trial trial_id)
  end.

Fixpoint add_finished_to_owned (study_id : Z) (ts : list FrozenTrial) : St unit :=
  match ts with
  | [] => ret tt
  | trial :: rest =>
    _ ← (if is_finished (state trial)
         then add_owned study_id (trial_id trial) else ret tt);
    add_finished_to_owned study_id rest
  end.

Definition read_trials_from_remote_storage (study_id : Z) : St unit :=
  _ ← ensure_study study_id;
  study ← study_at study_id;
  fetched ← call (call_get_trials study_id)
              (_get_trials study_id (owned_or_finished_trial_ids study));
  match fetched with
  | [] => ret tt
  | _ :: _ =>
    _ ← _add_trials_to_cache study_id fetched;
    add_finished_to_owned study_id fetched
  end.

End Cached.
End Cached.

(** * Auxiliary definitions for the statements *)

(** Every run of [m] relates the state before to the state after by [R],
    whether it returns or raises. *)
Definition preserves {S A} (R : S -> S -> Prop) (m : M S A) : Prop :=
  ∀ s o s', m s = (o, s') -> R s s'.

Section Auxiliary.
Context `{!Externals}.

(** The trial [t] is stored under [trial_id], at position [n] of study [sid]. *)
Definition im_slot (s : InMemory.InMemoryStorage) (trial_id sid : Z) (n : nat)
    (st : InMemory.StudyInfo) (t : FrozenTrial) : Prop :=
  InMemory.trial_id_to_study_id_and_number s !! trial_id = Some (sid, n) ∧
  InMemory.studies s !! sid = Some st ∧
  InMemory.trials st !! n = Some t.

(** The storage after [self._studies[sid].trials[n] = t']. *)
Definition im_store (s : InMemory.InMemoryStorage) (sid : Z) (n : nat)
    (st : InMemory.StudyInfo) (t' : FrozenTrial) : InMemory.InMemoryStorage :=
  InMemory.set_studies
    (<[sid := InMemory.set_trials (<[n := t']> (InMemory.trials st)) st]>
       (InMemory.studies s)) s.

(** The Redis server after an accepted [set_trial_state(trial_id, FAIL)] on
    the trial [t] of study [sid]. *)
Definition rd_after_fail (now : datetime) (trial_id sid : Z) (t : FrozenTrial)
    (r : Redis.RedisStorage) : Redis.RedisStorage :=
  let r1 :=
    Redis.with_key_trial
      (<[trial_id := set_datetime_complete (Some now) (set_state FAIL t)]>
         (Redis.key_trial r)) r in
  match Redis.key_study_heartbeats r !! sid with
  | None => r1
  | Some h =>
    Redis.with_key_study_heartbeats
      (<[sid := Redis.hdel trial_id h]> (Redis.key_study_heartbeats r)) r1
  end.

(** [r'] differs from [r] at most in the best-trial pointers. *)
Definition rd_same_but_best (r r' : Redis.RedisStorage) : Prop :=
  ∃ x, r' = Redis.with_key_best_trial x r.

(** *** Best-trial tracking *)

(** The comparison both [_update_cache] methods and Python's [max]/[min] make:
    under MAXIMIZE a new value is better when it is greater, otherwise when
    it is smaller. *)
Definition better (d : StudyDirection) (new_value best_value : Q) : bool :=
  if decide (d = MAXIMIZE) then Qgtb new_value best_value
  else Qltb new_value best_value.










(** The record stored under [trial_id], if any. *)
Definition im_lookup (s : InMemory.InMemoryStorage) (trial_id : Z)
  : option FrozenTrial :=
  match InMemory.get_trial trial_id s with
  | (Ok t, _) => Some t
  | (Raise _, _) => None
  end.








(** *** The caching wrapper *)

(** [b'] has the trial ids and the trial records of [b]. *)
Definition im_same_trials (b b' : InMemory.InMemoryStorage) : Prop :=
  InMemory.trial_id_to_study_id_and_number b' =
    InMemory.trial_id_to_study_id_and_number b ∧
  InMemory.max_trial_id b' = InMemory.max_trial_id b ∧
  ∀ sid, InMemory.trials <$> (InMemory.studies b' !! sid) =
         InMemory.trials <$> (InMemory.studies b !! sid).

(** The wrapper answers [trial_id] from its cache: the id is known, owned, and
    its snapshot [t] is at number [n] of the cached study [st]. *)
Definition cached_slot (w : Cached._CachedStorage) (trial_id sid n : Z)
    (st : Cached._StudyInfo) (t : FrozenTrial) : Prop :=
  Cached._trial_id_to_study_id_and_number w !! trial_id = Some (sid, n) ∧
  Cached._studies w !! sid = Some st ∧
  trial_id ∈ Cached.owned_or_finished_trial_ids st ∧
  Cached.trials st !! n = Some t.

(** The wrapper with the cached study [sid] replaced by [st]. *)
Definition w_put_study (w : Cached._CachedStorage) (sid : Z)
    (st : Cached._StudyInfo) : Cached._CachedStorage :=
  Cached.with_studies (<[sid := st]> (Cached._studies w)) w.

(** The pending update of trial number [n], a fresh one when none is
    buffered (what [_get_updates] returns). *)
Definition pending_or_new (st : Cached._StudyInfo) (n : Z) : Cached._TrialUpdate :=
  default Cached.new_TrialUpdate (Cached.updates st !! n).

(** The cached study after a local write: snapshot [t] and pending update
    [u] stored at number [n]. *)
Definition st_buffered (st : Cached._StudyInfo) (n : Z) (t : FrozenTrial)
    (u : Cached._TrialUpdate) : Cached._StudyInfo :=
  Cached.with_updates (<[n := u]> (Cached.updates st))
    (Cached.with_trials (<[n := t]> (Cached.trials st)) st).

(** The cached study after a flush: snapshot [t] stored at number [n], no
    pending update for [n]. *)
Definition st_flushed (st : Cached._StudyInfo) (n : Z) (t : FrozenTrial)
  : Cached._StudyInfo :=
  Cached.with_updates (delete n (Cached.updates st))
    (Cached.with_trials (<[n := t]> (Cached.trials st)) st).

(** The wrapper after a local write followed by a flush: cached study
    replaced, the merged update [u] sent to the backend and logged. *)
Definition w_flushed (w : Cached._CachedStorage) (trial_id sid n : Z)
    (st : Cached._StudyInfo) (t : FrozenTrial) (u : Cached._TrialUpdate)
  : Cached._CachedStorage :=
  Cached.mkCachedStorage
    (snd (Cached._update_trial trial_id u (Cached._backend w)))
    (<[sid := st_flushed st n t]> (Cached._studies w))
    (Cached._trial_id_to_study_id_and_number w)
    (Cached.backend_calls w ++ [Cached.call_update_trial trial_id u]).

(** The outcome of a method that discards the flag a flush returns. *)
Definition discard_flag (r : result bool) : result unit :=
  match r with
  | Ok _ => Ok tt
  | Raise e => Raise e
  end.

(** The write operations on a trial, one constructor per field category. *)
Inductive TrialWrite : Type :=
| WriteState (new_state : TrialState)
| WriteValues (vs : list Q)
| WriteParam (param_name : string) (param_value_internal : Q) (dist : distribution)
| WriteIntermediateValue (step : Z) (intermediate_value : Q)
| WriteUserAttr (key : string) (v : attr_value)
| WriteSystemAttr (key : string) (v : attr_value).

(** A write issued on the in-memory storage, on the Redis storage and on the
    caching wrapper.  The methods other than [set_trial_state] return [None],
    shown as [true]. *)
Definition im_write (now : datetime) (trial_id : Z) (wr : TrialWrite)
  : M InMemory.InMemoryStorage bool :=
  match wr with
  | WriteState st => InMemory.set_trial_state now trial_id st
  | WriteValues vs => _ ← InMemory.set_trial_values trial_id vs; ret true
  | WriteParam nm v d => _ ← InMemory.set_trial_param trial_id nm v d; ret true
  | WriteIntermediateValue step v =>
    _ ← InMemory.set_trial_intermediate_value trial_id step v; ret true
  | WriteUserAttr k v => _ ← InMemory.set_trial_user_attr trial_id k v; ret true
  | WriteSystemAttr k v => _ ← InMemory.set_trial_system_attr trial_id k v; ret true
  end.

Definition rd_write (now : datetime) (trial_id : Z) (wr : TrialWrite)
  : M Redis.RedisStorage bool :=
  match wr with
  | WriteState st => Redis.set_trial_state now trial_id st
  | WriteValues vs => _ ← Redis.set_trial_values trial_id vs; ret true
  | WriteParam nm v d => _ ← Redis.set_trial_param trial_id nm v d; ret true
  | WriteIntermediateValue step v =>
    _ ← Redis.set_trial_intermediate_value trial_id step v; ret true
  | WriteUserAttr k v => _ ← Redis.set_trial_user_attr trial_id k v; ret true
  | WriteSystemAttr k v => _ ← Redis.set_trial_system_attr trial_id k v; ret true
  end.

Definition cached_write (now : datetime) (trial_id : Z) (wr : TrialWrite)
  : M Cached._CachedStorage bool :=
  match wr with
  | WriteState st => Cached.set_trial_state now trial_id st
  | WriteValues vs => _ ← Cached.set_trial_values trial_id vs; ret true
  | WriteParam nm v d => _ ← Cached.set_trial_param trial_id nm v d; ret true
  | WriteIntermediateValue step v =>
    _ ← Cached.set_trial_intermediate_value trial_id step v; ret true
  | WriteUserAttr k v => _ ← Cached.set_trial_user_attr trial_id k v; ret true
  | WriteSystemAttr k v => _ ← Cached.set_trial_system_attr trial_id k v; ret true
  end.

(** *** Flush batching *)

(** The study after [param_distribution[param_name] = dist], and the storage
    holding it. *)
Definition st_registered (st : InMemory.StudyInfo) (param_name : string)
    (dist : distribution) : InMemory.StudyInfo :=
  InMemory.set_param_distribution
    (<[param_name := dist]> (InMemory.param_distribution st)) st.

Definition im_registered (s : InMemory.InMemoryStorage) (sid : Z)
    (st : InMemory.StudyInfo) (param_name : string) (dist : distribution)
  : InMemory.InMemoryStorage :=
  InMemory.set_studies
    (<[sid := st_registered st param_name dist]> (InMemory.studies s)) s.

(** The record after a parameter was written. *)
Definition with_param (param_name : string) (param_value_internal : Q)
    (dist : distribution) (t : FrozenTrial) : FrozenTrial :=
  set_distributions (<[param_name := dist]> (distributions t))
    (set_params (<[param_name := to_external_repr dist param_value_internal]>
                   (params t)) t).

(** A write to a field of the trial: any write but [set_trial_state]. *)
Definition field_write (wr : TrialWrite) : Prop :=
  match wr with
  | WriteState _ => False
  | _ => True
  end.

(** The writes [ws] issued one after the other through [write]; a write that
    raises leaves the state it raised in, and the next one is issued on it. *)
Definition apply_writes {S : Type} (write : TrialWrite -> M S bool)
    (ws : list TrialWrite) (s : S) : S :=
  foldl (fun s wr => snd (write wr s)) s ws.

(** Two distributions pass [check_distribution_compatibility]. *)
Definition compatible (d1 d2 : distribution) : Prop :=
  check_distribution_compatibility d1 d2 = true.

(** The wrapper after a parameter write that missed the cached registry and
    was accepted by the backend: the backend checked, registered and stored
    the parameter; the distribution is cached and the snapshot updated. *)
Definition w_param_committed (w : Cached._CachedStorage) (trial_id sid n : Z)
    (st : Cached._StudyInfo) (t : FrozenTrial) (param_name : string)
    (param_value_internal : Q) (dist : distribution) : Cached._CachedStorage :=
  Cached.mkCachedStorage
    (snd (Cached._check_and_set_param_distribution sid trial_id param_name
            param_value_internal dist (Cached._backend w)))
    (<[sid := Cached.with_trials
                (<[n := with_param param_name param_value_internal dist t]>
                   (Cached.trials st))
                (Cached.with_param_distribution
                   (<[param_name := dist]> (Cached.param_distribution st)) st)]>
       (Cached._studies w))
    (Cached._trial_id_to_study_id_and_number w)
    (Cached.backend_calls w ++
       [Cached.call_check_and_set_param_distribution sid trial_id param_name]).

(** A pending update that holds at most buffered values. *)
Definition values_only (ov : option (list Q)) : Cached._TrialUpdate :=
  Cached.mkTrialUpdate None ov ∅ ∅ ∅ ∅ ∅ None None.

(** The record [t] with the buffered values, if any, written to it. *)
Definition with_buffered_values (ov : option (list Q)) (t : FrozenTrial)
  : FrozenTrial :=
  match ov with
  | Some vs => set_values (Some vs) t
  | None => t
  end.

(** The relation between the wrapper [w] and the storage [d] that received
    the same writes directly.  Trial [trial_id] is owned by the wrapper and
    RUNNING; the snapshot [t_c] is the record stored in [d]; the record [t_b]
    behind the wrapper lacks at most the buffered values [ov]; the parameter
    registries of the two backends and the wrapper's cache of it hold
    compatible distributions for the same names. *)
Record flush_sim_at (trial_id sid : Z) (n : nat)
    (w : Cached._CachedStorage) (d : InMemory.InMemoryStorage)
    (st : Cached._StudyInfo) (st_b st_d : InMemory.StudyInfo)
    (t_c t_b : FrozenTrial) (ov : option (list Q)) : Prop := {
  sim_cached : cached_slot w trial_id sid (Z.of_nat n) st t_c;
  sim_running : state t_c = RUNNING;
  sim_pending : pending_or_new st (Z.of_nat n) = values_only ov;
  sim_backend : im_slot (Cached._backend w) trial_id sid n st_b t_b;
  sim_snapshot : t_c = with_buffered_values ov t_b;
  sim_direct : im_slot d trial_id sid n st_d t_c;
  sim_registry :
    ∀ p, option_Forall2 compatible
           (InMemory.param_distribution st_b !! p)
           (InMemory.param_distribution st_d !! p);
  sim_cache :
    ∀ p dc, Cached.param_distribution st !! p = Some dc ->
            ∃ db, InMemory.param_distribution st_b !! p = Some db ∧
                  compatible dc db;
}.

Definition flush_sim (trial_id sid : Z) (n : nat)
    (w : Cached._CachedStorage) (d : InMemory.InMemoryStorage) : Prop :=
  ∃ st st_b st_d t_c t_b ov, flush_sim_at trial_id sid n w d st st_b st_d t_c t_b ov.

End Auxiliary.

(** A concrete instance for worked examples: a distribution is the name of
    its family, two distributions are compatible when the families are the
    same, the external representation of a parameter is its internal value,
    attribute values are strings. *)
Definition concrete_externals : Externals :=
  {| distribution := string;
     param_external := Q;
     attr_value := string;
     check_distribution_compatibility := String.eqb;
     to_external_repr := fun _ v => v |}.

(** *** Worked-example stores *)

Module Ex.
Section Ex.
#[local] Existing Instance concrete_externals.

(** The in-memory storage after [create_new_study("s")]. *)
Definition im_one_study : InMemory.InMemoryStorage :=
  InMemory.mkInMemoryStorage ∅ {["s" := 0]} {[0 := InMemory.new_study_info "s"]}
    0 (-1).

(** A template for an enqueued trial. *)
Definition waiting_template : FrozenTrial :=
  mkFrozenTrial (-1) WAITING None ∅ ∅ ∅ ∅ ∅ None None (-1).

(** One study holding one WAITING trial, created through the API. *)
Definition im_waiting : InMemory.InMemoryStorage :=
  snd (InMemory.create_new_trial 100 0 (Some waiting_template) im_one_study).

(** One study holding one RUNNING trial, created through the API. *)
Definition im_running : InMemory.InMemoryStorage :=
  snd (InMemory.create_new_trial 100 0 None im_one_study).

(** The Redis server after [create_new_study("s")], for a storage constructed
    with [heartbeat_interval=5] and [grace_period=None]. *)
Definition rd_one_study : Redis.RedisStorage :=
  Redis.mkRedisStorage (Some 5) None ∅ ∅ {[0 := "s"]} {[0 := [NOT_SET]]} ∅
    {[0 := -1]} None ∅ ∅ ∅.

(** One study holding one WAITING trial, created through the API. *)
Definition rd_waiting : Redis.RedisStorage :=
  snd (Redis.create_new_trial 100 0 (Some waiting_template) rd_one_study).

(** One study holding one RUNNING trial, created through the API. *)
Definition rd_running : Redis.RedisStorage :=
  snd (Redis.create_new_trial 100 0 None rd_one_study).

(** The same trial finished as COMPLETE at time 150. *)
Definition im_finished : InMemory.InMemoryStorage :=
  snd (InMemory.set_trial_state 150 0 COMPLETE im_running).
Definition rd_finished : Redis.RedisStorage :=
  snd (Redis.set_trial_state 150 0 COMPLETE rd_running).

(** A wrapper that created a trial and finished it. *)
Definition cached_finished : Cached._CachedStorage :=
  snd ((_ ← Cached.create_new_trial 100 0 None;
        Cached.set_trial_state 150 0 COMPLETE) (Cached.wrap im_one_study)).

(** The record of that trial. *)
Definition finished_record : FrozenTrial :=
  mkFrozenTrial 0 COMPLETE None ∅ ∅ ∅ ∅ ∅ (Some 100) (Some 150) 0.

(** The RUNNING trial records a heartbeat at time 1000 and completes; the
    heartbeat thread of its worker records one more heartbeat at time 1001. *)
Definition rd_late_heartbeat : Redis.RedisStorage :=
  snd ((_ ← Redis.record_heartbeat 1000%Q 0;
        _ ← Redis.set_trial_state 150 0 COMPLETE;
        Redis.record_heartbeat 1001%Q 0) rd_running).

(** Two RUNNING trials in one study; at Redis time 1020 the last heartbeat of
    trial 0 is 11 seconds old, that of trial 1 is 9 seconds old. *)
Definition rd_two_running : Redis.RedisStorage :=
  snd ((_ ← Redis.create_new_trial 100 0 None;
        _ ← Redis.create_new_trial 101 0 None;
        _ ← Redis.record_heartbeat (1020 - 11)%Q 0;
        Redis.record_heartbeat (1020 - 9)%Q 1) rd_one_study).

(** A MINIMIZE study with two RUNNING trials, 0 and 1, created in this
    order. *)
Definition im_two_min : InMemory.InMemoryStorage :=
  snd ((_ ← InMemory.set_study_directions 0 [MINIMIZE];
        _ ← InMemory.create_new_trial 100 0 None;
        InMemory.create_new_trial 101 0 None) im_one_study).



(** The records of the two trials at creation and after the tie. *)
Definition trial0 : FrozenTrial :=
  set_trial_id 0 (set_number 0 (_create_running_trial 100)).
Definition trial1 : FrozenTrial :=
  set_trial_id 1 (set_number 1 (_create_running_trial 101)).

(** A wrapper that created a RUNNING trial, which it owns. *)
Definition cached_running : Cached._CachedStorage :=
  snd (Cached.create_new_trial 100 0 None (Cached.wrap im_one_study)).

(** Its cached study. *)
Definition cached_running_study : Cached._StudyInfo :=
  Cached.mkStudyInfo {[0 := trial0]} {[0]} ∅ ∅ [NOT_SET] None.

(** The study of [im_two_min]. *)
Definition im_two_min_study : InMemory.StudyInfo :=
  InMemory.mkStudyInfo [trial0; trial1] ∅ ∅ ∅ "s" [MINIMIZE] None.

(** The study behind that wrapper, as the backend holds it. *)
Definition im_running_study : InMemory.StudyInfo :=
  InMemory.mkStudyInfo [trial0] ∅ ∅ ∅ "s" [NOT_SET] None.

(** Field writes of every category, one of them buffered and two on the
    same parameter. *)
Definition field_writes : list TrialWrite :=
  [ @WriteValues concrete_externals [1%Q];
    @WriteParam concrete_externals "x" (1#2)%Q "float";
    @WriteIntermediateValue concrete_externals 1 (3#10)%Q;
    @WriteParam concrete_externals "x" (1#4)%Q "int";
    @WriteUserAttr concrete_externals "k" "v";
    @WriteValues concrete_externals [2%Q];
    @WriteSystemAttr concrete_externals "sys" "on" ].

(** An attribute write, used on the stores above. *)
Definition attr_write : TrialWrite := @WriteUserAttr concrete_externals "k" "v".

End Ex.
End Ex.


(** * Auxiliary definitions for further properties of the storages *)

Section StorageInvariants.
Context `{!Externals}.

(** The in-memory storage is well formed: every indexed trial id is at most
    [_max_trial_id] and points at a stored trial carrying that id; every
    stored trial carries its position as number and is indexed under its id;
    every study id is at most [_max_study_id] and is found under the study's
    name; every registered name belongs to a stored study. *)
Record im_wf (s : InMemory.InMemoryStorage) : Prop := {
  wf_id :
    ∀ i sid n, InMemory.trial_id_to_study_id_and_number s !! i = Some (sid, n) ->
               i <= InMemory.max_trial_id s ∧
               ∃ st t, InMemory.studies s !! sid = Some st ∧
                       InMemory.trials st !! n = Some t ∧ trial_id t = i;
  wf_trial :
    ∀ sid st n t, InMemory.studies s !! sid = Some st ->
                  InMemory.trials st !! n = Some t ->
                  number t = Z.of_nat n ∧
                  InMemory.trial_id_to_study_id_and_number s !! trial_id t
                    = Some (sid, n);
  wf_study :
    ∀ sid st, InMemory.studies s !! sid = Some st ->
              sid <= InMemory.max_study_id s ∧
              InMemory.study_name_to_id s !! InMemory.name st = Some sid;
  wf_name :
    ∀ nm sid, InMemory.study_name_to_id s !! nm = Some sid ->
              ∃ st, InMemory.studies s !! sid = Some st ∧ InMemory.name st = nm;
}.

(** Two trial records with the same identity. *)
Definition same_identity (t t' : FrozenTrial) : Prop :=
  trial_id t' = trial_id t ∧ number t' = number t.

(** Two studies with the same name and, position by position, trials of the
    same identity. *)
Definition same_study_shape (st st' : InMemory.StudyInfo) : Prop :=
  InMemory.name st' = InMemory.name st ∧
  Forall2 same_identity (InMemory.trials st) (InMemory.trials st').

(** [s'] has the indexes, the counters and the studies of [s]; the studies
    have the names and the trials they had, each trial with its identity. *)
Definition im_rewrites (s s' : InMemory.InMemoryStorage) : Prop :=
  InMemory.trial_id_to_study_id_and_number s' =
    InMemory.trial_id_to_study_id_and_number s ∧
  InMemory.study_name_to_id s' = InMemory.study_name_to_id s ∧
  InMemory.max_study_id s' = InMemory.max_study_id s ∧
  InMemory.max_trial_id s' = InMemory.max_trial_id s ∧
  ∀ sid, option_Forall2 same_study_shape
           (InMemory.studies s !! sid) (InMemory.studies s' !! sid).

(** The calls that change an in-memory storage. *)
Inductive StorageCall : Type :=
| CreateNewStudy (generated_name : string) (study_name : option string)
| DeleteStudy (study_id : Z)
| SetStudyDirections (study_id : Z) (directions : list StudyDirection)
| SetStudyUserAttr (study_id : Z) (key : string) (v : attr_value)
| SetStudySystemAttr (study_id : Z) (key : string) (v : attr_value)
| CreateNewTrial (now : datetime) (study_id : Z) (template_trial : option FrozenTrial)
| WriteTrial (now : datetime) (trial_id : Z) (wr : TrialWrite).

(** The storage a call leaves, whether it returns or raises. *)
Definition im_call (c : StorageCall) (s : InMemory.InMemoryStorage)
  : InMemory.InMemoryStorage :=
  match c with
  | CreateNewStudy generated_name study_name =>
    snd (InMemory.create_new_study generated_name study_name s)
  | DeleteStudy study_id => snd (InMemory.delete_study study_id s)
  | SetStudyDirections study_id ds => snd (InMemory.set_study_directions study_id ds s)
  | SetStudyUserAttr study_id key v => snd (InMemory.set_study_user_attr study_id key v s)
  | SetStudySystemAttr study_id key v =>
    snd (InMemory.set_study_system_attr study_id key v s)
  | CreateNewTrial now study_id template_trial =>
    snd (InMemory.create_new_trial now study_id template_trial s)
  | WriteTrial now trial_id wr => snd (im_write now trial_id wr s)
  end.

(** The name generated for an unnamed study is not taken (a UUID). *)
Definition generated_name_is_new (c : StorageCall) (s : InMemory.InMemoryStorage)
  : Prop :=
  match c with
  | CreateNewStudy generated_name None =>
    InMemory.study_name_to_id s !! generated_name = None
  | _ => True
  end.

(** The record [create_new_trial] stores for [trial] in a study that holds
    the trials [st], and the storage once it is appended and indexed. *)
Definition im_new_record (s : InMemory.InMemoryStorage) (st : InMemory.StudyInfo)
    (trial : FrozenTrial) : FrozenTrial :=
  set_trial_id (InMemory.max_trial_id s + 1)
    (set_number (Z.of_nat (length (InMemory.trials st))) trial).

Definition im_appended (s : InMemory.InMemoryStorage) (sid : Z)
    (st : InMemory.StudyInfo) (trial : FrozenTrial) : InMemory.InMemoryStorage :=
  InMemory.mkInMemoryStorage
    (<[InMemory.max_trial_id s + 1 := (sid, length (InMemory.trials st))]>
       (InMemory.trial_id_to_study_id_and_number s))
    (InMemory.study_name_to_id s)
    (<[sid := InMemory.set_trials
                (InMemory.trials st ++ [im_new_record s st trial]) st]>
       (InMemory.studies s))
    (InMemory.max_study_id s) (InMemory.max_trial_id s + 1).

(** The trial a call of [create_new_trial] starts from. *)
Definition template_or_running (now : datetime) (template_trial : option FrozenTrial)
  : FrozenTrial :=
  match template_trial with
  | None => _create_running_trial now
  | Some t => t
  end.

(** The index after the ids of [ts] were deleted from it, and the storage
    after [delete_study] removed the study [st]. *)
Definition without_trial_ids (ts : list FrozenTrial) (m : gmap Z (Z * nat))
  : gmap Z (Z * nat) :=
  foldl (fun m t => delete (trial_id t) m) m ts.

Definition im_deleted (s : InMemory.InMemoryStorage) (sid : Z)
    (st : InMemory.StudyInfo) : InMemory.InMemoryStorage :=
  InMemory.mkInMemoryStorage
    (without_trial_ids (InMemory.trials st)
       (InMemory.trial_id_to_study_id_and_number s))
    (delete (InMemory.name st) (InMemory.study_name_to_id s))
    (delete sid (InMemory.studies s))
    (InMemory.max_study_id s) (InMemory.max_trial_id s).

(** The storage after the calls [cs], made one after the other. *)
Definition im_run_calls (cs : list StorageCall) (s : InMemory.InMemoryStorage)
  : InMemory.InMemoryStorage :=
  foldl (fun s c => im_call c s) s cs.

(** Along the calls [cs] every name generated for an unnamed study is new at
    the moment it is generated. *)
Fixpoint generated_names_are_new (cs : list StorageCall)
    (s : InMemory.InMemoryStorage) : Prop :=
  match cs with
  | [] => True
  | c :: cs' => generated_name_is_new c s ∧ generated_names_are_new cs' (im_call c s)
  end.

End StorageInvariants.

Section RedisAux.
Context `{!Externals}.

(** The server after [set_trial_state(j, FAIL)] was accepted for each trial
    [j] of [l] in turn, all of them trials of study [sid]. *)
Definition rd_fail_all (now : datetime) (sid : Z) (l : list Z)
    (r : Redis.RedisStorage) : Redis.RedisStorage :=
  foldl (fun r j =>
           match Redis.key_trial r !! j with
           | Some t => rd_after_fail now j sid t r
           | None => r
           end) r l.

(** The ids [_get_stale_trial_ids] reports at Redis time [T]. *)
Definition rd_stale_ids (T : Q) (sid : Z) (r : Redis.RedisStorage) : list Z :=
  match Redis._heartbeat_interval r with
  | None => []
  | Some heartbeat_interval =>
    map fst
      (filter (fun fv : Z * Q =>
                 Qgtb (T - fv.2)
                   (inject_Z (Redis.grace_period_of heartbeat_interval
                                (Redis._grace_period r))) = true)
              (Redis.hgetall sid r))
  end.

End RedisAux.

Module Ex2.
Section Ex2.
#[local] Existing Instance concrete_externals.

(** A session on a new storage: two studies, three trials, writes to them,
    a rejected creation, and the first study deleted at the end. *)
Definition session : list StorageCall :=
  [ CreateNewStudy "no-name-a" (Some "s");
    CreateNewStudy "no-name-b" None;
    CreateNewStudy "no-name-c" (Some "s");
    SetStudyDirections 0 [MINIMIZE];
    CreateNewTrial 100 0 None;
    CreateNewTrial 101 1 (Some Ex.waiting_template);
    CreateNewTrial 102 0 None;
    WriteTrial 110 1 (WriteState RUNNING);
    WriteTrial 111 0 (WriteValues [1%Q]);
    WriteTrial 112 0 (WriteParam "x" (1#2)%Q "float");
    WriteTrial 113 0 (WriteState COMPLETE);
    SetStudyUserAttr 1 "k" "v";
    DeleteStudy 0 ].

(** The storage after the session but for the deletion. *)
Definition im_two_studies : InMemory.InMemoryStorage :=
  im_run_calls (take 12 session) InMemory.empty_storage.

(** Its study 0 and the trials of that study. *)
Definition im_two_studies_trial_0 : FrozenTrial :=
  mkFrozenTrial 0 COMPLETE (Some [1%Q]) ∅ {["x" := (1#2)%Q]} {["x" := "float"]}
    ∅ ∅ (Some 100) (Some 113) 0.
Definition im_two_studies_trial_2 : FrozenTrial :=
  mkFrozenTrial 1 RUNNING None ∅ ∅ ∅ ∅ ∅ (Some 102) None 2.
Definition im_two_studies_study_0 : InMemory.StudyInfo :=
  InMemory.mkStudyInfo [im_two_studies_trial_0; im_two_studies_trial_2]
    {["x" := "float"]} ∅ ∅ "s" [MINIMIZE] (Some 0).

End Ex2.
End Ex2.
(** * Properties *)

Lemma run_bind {S A B} (m : M S A) (k : A -> M S B) (s : S) :
  (m ≫= k) s = match m s with
               | (Ok a, s') => k a s'
               | (Raise e, s') => (Raise e, s')
               end.
Proof. reflexivity. Qed.

Lemma run_bind_ok {S A B} (m : M S A) (k : A -> M S B) (s s' : S) (a : A) :
  m s = (Ok a, s') -> (m ≫= k) s = k a s'.
Proof. intros Hm. rewrite run_bind, Hm. reflexivity. Qed.

Lemma run_bind_raise {S A B} (m : M S A) (k : A -> M S B) (s s' : S) (e : exn) :
  m s = (Raise e, s') -> (m ≫= k) s = (Raise e, s').
Proof. intros Hm. rewrite run_bind, Hm. reflexivity. Qed.

Ltac munfold :=
  unfold from_option in *;
  unfold mbind, mret, M_bind, M_ret, bind, ret, raise, get, put, lift in *.

(** Evaluate a monadic computation as far as the hypotheses on lookups allow. *)
Ltac mrun :=
  munfold;
  repeat (simpl;
          match goal with
          | H : ?m !! ?k = _ |- context [?m !! ?k] => rewrite H
          end);
  simpl.


(** ** Frame rules for the monad *)

Section Preserves.
Context {S : Type} (R : S -> S -> Prop) `{!PreOrder R}.

Lemma preserves_ret {A} (a : A) : preserves R (ret a : M S A).
Proof. intros s o s' [= _ <-]. reflexivity. Qed.

Lemma preserves_mret {A} (a : A) : preserves R (mret a : M S A).
Proof. apply preserves_ret. Qed.

Lemma preserves_raise {A} (e : exn) : preserves R (raise e : M S A).
Proof. intros s o s' [= _ <-]. reflexivity. Qed.

Lemma preserves_get : preserves R (get : M S S).
Proof. intros s o s' [= _ <-]. reflexivity. Qed.

Lemma preserves_lift {A} (r : result A) : preserves R (lift r : M S A).
Proof. intros s o s' [= _ <-]. reflexivity. Qed.

Lemma preserves_from_option {A} (e : exn) (o : option A) :
  preserves R (from_option e o : M S A).
Proof. destruct o; [apply preserves_ret | apply preserves_raise]. Qed.

Lemma preserves_bind {A B} (m : M S A) (k : A -> M S B) :
  preserves R m -> (∀ a, preserves R (k a)) -> preserves R (m ≫= k).
Proof.
  intros Hm Hk s o s'. rewrite run_bind.
  destruct (m s) as [[a|e] s1] eqn:Hms.
  - intros Hks. transitivity s1; [eapply Hm | eapply Hk]; eauto.
  - intros [= _ <-]. eapply Hm; eauto.
Qed.

Lemma preserves_get_bind {B} (k : S -> M S B) :
  (∀ s, preserves R (k s)) -> preserves R (get ≫= k).
Proof. intros Hk. apply preserves_bind; [apply preserves_get | exact Hk]. Qed.

End Preserves.

(** Decompose a goal [preserves R m] along the structure of [m]. *)
Ltac preserves_step :=
  match goal with
  | |- preserves _ (_ ≫= _) => refine (preserves_bind _ _ _ _ _); [|intros ?]
  | |- preserves _ (ret _) => refine (preserves_ret _ _)
  | |- preserves _ (mret _) => refine (preserves_mret _ _)
  | |- preserves _ (raise _) => refine (preserves_raise _ _)
  | |- preserves _ get => refine (preserves_get _)
  | |- preserves _ (lift _) => refine (preserves_lift _ _)
  | |- preserves _ (from_option _ _) => refine (preserves_from_option _ _ _)
  | |- preserves _ (if ?b then _ else _) => destruct b
  | |- preserves _ (match ?x with _ => _ end) => destruct x
  | |- preserves _ (let '(_, _) := ?x in _) => destruct x
  end.

Ltac preserves_auto := repeat (preserves_step; auto).
(** ** Facts about the in-memory storage *)

Section InMemoryFacts.
Context `{!Externals}.

Lemma im_get_trial_slot s trial_id sid n st t :
  im_slot s trial_id sid n st t ->
  InMemory._get_trial trial_id s = (Ok t, s).
Proof.
  intros (Hid & Hst & Ht).
  unfold InMemory._get_trial, InMemory._check_trial_id, InMemory.id_entry,
    InMemory.study_at.
  mrun. reflexivity.
Qed.

Lemma im_get_trial_inv s trial_id t s' :
  InMemory._get_trial trial_id s = (Ok t, s') ->
  s' = s ∧ ∃ sid n st, im_slot s trial_id sid n st t.
Proof.
  unfold InMemory._get_trial, InMemory._check_trial_id, InMemory.id_entry,
    InMemory.study_at, im_slot.
  destruct (InMemory.trial_id_to_study_id_and_number s !! trial_id)
    as [[sid n]|] eqn:Hid; [|mrun; discriminate].
  destruct (InMemory.studies s !! sid) as [st|] eqn:Hst; [|mrun; discriminate].
  destruct (InMemory.trials st !! n) as [t0|] eqn:Ht; [|mrun; discriminate].
  mrun. intros [= <- <-]. split; [reflexivity|]. exists sid, n, st. auto.
Qed.

Lemma im_get_trial_state s trial_id r s' :
  InMemory._get_trial trial_id s = (r, s') -> s' = s.
Proof.
  unfold InMemory._get_trial, InMemory._check_trial_id, InMemory.id_entry,
    InMemory.study_at.
  destruct (InMemory.trial_id_to_study_id_and_number s !! trial_id)
    as [[sid n]|] eqn:Hid; [|mrun; congruence].
  destruct (InMemory.studies s !! sid) as [st|] eqn:Hst; [|mrun; congruence].
  destruct (InMemory.trials st !! n) as [t0|] eqn:Ht; mrun; congruence.
Qed.

Lemma im_set_trial_slot s trial_id sid n st t t' :
  im_slot s trial_id sid n st t ->
  InMemory._set_trial trial_id t' s = (Ok tt, im_store s sid n st t').
Proof.
  intros (Hid & Hst & Ht).
  unfold InMemory._set_trial, InMemory.id_entry, InMemory.study_at,
    InMemory.put_study.
  mrun.
  destruct (decide (n < length (InMemory.trials st))%nat) as [_|Hn].
  - reflexivity.
  - exfalso. apply Hn. eapply lookup_lt_Some; eauto.
Qed.

Lemma im_store_slot s trial_id sid n st t t' :
  im_slot s trial_id sid n st t ->
  im_slot (im_store s sid n st t') trial_id sid n
    (InMemory.set_trials (<[n := t']> (InMemory.trials st)) st) t'.
Proof.
  intros (Hid & Hst & Ht). unfold im_slot, im_store. simpl.
  split; [assumption|]. split.
  - apply lookup_insert_eq.
  - apply list_lookup_insert_eq. eapply lookup_lt_Some; eauto.
Qed.

Lemma im_id_entry_slot s trial_id sid n st t :
  im_slot s trial_id sid n st t ->
  InMemory.id_entry trial_id s = (Ok (sid, n), s).
Proof. intros (Hid & _). unfold InMemory.id_entry. mrun. reflexivity. Qed.

Lemma check_updatable_unfinished st :
  is_finished st = false -> check_trial_is_updatable st = Ok tt.
Proof. unfold check_trial_is_updatable. intros ->. reflexivity. Qed.

Lemma check_updatable_finished st :
  is_finished st = true -> check_trial_is_updatable st = Raise RuntimeError.
Proof. unfold check_trial_is_updatable. intros ->. reflexivity. Qed.

Lemma im_set_trial_state_claim now s trial_id sid n st t :
  im_slot s trial_id sid n st t ->
  state t = WAITING ->
  InMemory.set_trial_state now trial_id RUNNING s =
  (Ok true,
   im_store s sid n st (set_datetime_start (Some now) (set_state RUNNING t))).
Proof.
  intros Hslot Hw. unfold InMemory.set_trial_state.
  rewrite (run_bind_ok _ _ _ _ _ (im_get_trial_slot _ _ _ _ _ _ Hslot)).
  unfold check_trial_is_updatable. rewrite Hw. simpl.
  munfold. simpl.
  destruct (decide (RUNNING = RUNNING ∧ WAITING ≠ WAITING)) as [[_ Hn]|_];
    [congruence|].
  simpl.
  rewrite (im_set_trial_slot _ _ _ _ _ _ _ Hslot). reflexivity.
Qed.

Lemma im_set_trial_state_false now s trial_id new_state s' :
  InMemory.set_trial_state now trial_id new_state s = (Ok false, s') -> s' = s.
Proof.
  unfold InMemory.set_trial_state. rewrite run_bind.
  destruct (InMemory._get_trial trial_id s) as [[t|e] s1] eqn:Hg;
    [|discriminate].
  apply im_get_trial_state in Hg as ->.
  unfold check_trial_is_updatable.
  destruct (is_finished (state t)); munfold; simpl; [discriminate|].
  destruct (decide (new_state = RUNNING ∧ state t ≠ WAITING)) as [_|_].
  - intros [= <-]. reflexivity.
  - destruct (is_finished new_state); simpl;
      repeat match goal with
             | |- context [let (_, _) := ?m ?s in _] =>
               destruct (m s) as [[?|?] ?]
             | |- context [let '(_, _) := ?p in _] => destruct p
             end; simpl; discriminate.
Qed.

End InMemoryFacts.

(** ** Facts about the Redis storage *)

Section RedisFacts.
Context `{!Externals}.

Lemma rd_get_trial_some r trial_id t :
  Redis.key_trial r !! trial_id = Some t ->
  Redis.get_trial trial_id r = (Ok t, r).
Proof.
  intros Ht. unfold Redis.get_trial, Redis._check_trial_id. mrun. reflexivity.
Qed.

Lemma rd_get_trial_inv r trial_id t r' :
  Redis.get_trial trial_id r = (Ok t, r') ->
  r' = r ∧ Redis.key_trial r !! trial_id = Some t.
Proof.
  unfold Redis.get_trial, Redis._check_trial_id.
  destruct (Redis.key_trial r !! trial_id) as [t0|] eqn:Ht; mrun.
  - intros [= <- <-]. auto.
  - discriminate.
Qed.

Lemma rd_check_trial_id_some r trial_id t :
  Redis.key_trial r !! trial_id = Some t ->
  Redis._check_trial_id trial_id r = (Ok tt, r).
Proof. intros Ht. unfold Redis._check_trial_id. mrun. reflexivity. Qed.

Lemma rd_set_trial_state_claim now r trial_id t :
  Redis.key_trial r !! trial_id = Some t ->
  state t = WAITING ->
  Redis.set_trial_state now trial_id RUNNING r =
  (Ok true,
   Redis.with_key_trial
     (<[trial_id := set_datetime_start (Some now) (set_state RUNNING t)]>
        (Redis.key_trial r)) r).
Proof.
  intros Ht Hw. unfold Redis.set_trial_state.
  rewrite (run_bind_ok _ _ _ _ _ (rd_check_trial_id_some _ _ _ Ht)).
  rewrite (run_bind_ok _ _ _ _ _ (rd_get_trial_some _ _ _ Ht)).
  unfold check_trial_is_updatable. rewrite Hw. simpl.
  destruct (decide (RUNNING = RUNNING ∧ WAITING ≠ WAITING)) as [[_ Hn]|_];
    [congruence|].
  reflexivity.
Qed.

Lemma rd_set_trial_state_false now r trial_id new_state r' :
  Redis.set_trial_state now trial_id new_state r = (Ok false, r') -> r' = r.
Proof.
  unfold Redis.set_trial_state, Redis.get_trial, Redis._check_trial_id.
  destruct (Redis.key_trial r !! trial_id) as [t|] eqn:Ht; mrun;
    [|discriminate].
  unfold check_trial_is_updatable.
  destruct (is_finished (state t)); simpl; [discriminate|].
  destruct (decide (new_state = RUNNING ∧ state t ≠ WAITING)) as [_|_].
  - intros [= <-]. reflexivity.
  - destruct (is_finished new_state); simpl.
    + repeat match goal with
             | |- context [let (_, _) := ?m ?s in _] =>
               destruct (m s) as [[?|?] ?]
             end; discriminate.
    + discriminate.
Qed.

Lemma rd_update_cache_not_complete r trial_id t :
  Redis.key_trial r !! trial_id = Some t ->
  state t ≠ COMPLETE ->
  Redis._update_cache trial_id r = (Ok tt, r).
Proof.
  intros Ht Hnc. unfold Redis._update_cache.
  rewrite (run_bind_ok _ _ _ _ _ (rd_get_trial_some _ _ _ Ht)).
  destruct (decide (state t ≠ COMPLETE)) as [_|Hn]; [reflexivity|].
  exfalso. apply Hn. exact Hnc.
Qed.

Lemma rd_same_but_best_refl r : rd_same_but_best r r.
Proof. exists (Redis.key_best_trial r). destruct r; reflexivity. Qed.

Lemma rd_same_but_best_trans r1 r2 r3 :
  rd_same_but_best r1 r2 -> rd_same_but_best r2 r3 -> rd_same_but_best r1 r3.
Proof. intros [x ->] [y ->]. exists y. reflexivity. Qed.

Lemma rd_get_trial_state r trial_id o r' :
  Redis.get_trial trial_id r = (o, r') -> r' = r.
Proof.
  unfold Redis.get_trial, Redis._check_trial_id.
  destruct (Redis.key_trial r !! trial_id) as [t0|] eqn:Ht; mrun; congruence.
Qed.

#[local] Instance rd_same_but_best_preorder : PreOrder rd_same_but_best.
Proof.
  split; [intros r; apply rd_same_but_best_refl|].
  intros r1 r2 r3. apply rd_same_but_best_trans.
Qed.

Lemma rd_put_best_frame x :
  preserves rd_same_but_best
    (r ← get; put (Redis.with_key_best_trial x r)).
Proof. intros s o s'. munfold. intros [= _ <-]. eexists; reflexivity. Qed.

Lemma rd_get_trial_frame trial_id :
  preserves rd_same_but_best (Redis.get_trial trial_id).
Proof. unfold Redis.get_trial, Redis._check_trial_id. preserves_auto. Qed.

Lemma rd_set_best_trial_frame study_id trial_id :
  preserves rd_same_but_best (Redis._set_best_trial study_id trial_id).
Proof.
  unfold Redis._set_best_trial.
  refine (preserves_bind _ _ _ _ _); [apply rd_get_trial_frame|intros _].
  intros s o s'. munfold. intros [= _ <-]. eexists; reflexivity.
Qed.

Lemma rd_get_trials_of_frame ids :
  preserves rd_same_but_best (Redis.get_trials_of ids).
Proof.
  induction ids as [|i ids IH]; simpl.
  - preserves_auto.
  - preserves_auto. apply rd_get_trial_frame.
Qed.

Lemma rd_get_best_trial_frame study_id :
  preserves rd_same_but_best (Redis.get_best_trial study_id).
Proof.
  unfold Redis.get_best_trial, Redis.scan_best_trial, Redis.get_all_trials,
    Redis._get_study_trials, Redis._check_study_id, Redis.get_study_directions.
  preserves_auto;
    first [apply rd_get_trial_frame | apply rd_get_trials_of_frame
          | apply rd_set_best_trial_frame].
Qed.

Lemma rd_update_cache_frame trial_id :
  preserves rd_same_but_best (Redis._update_cache trial_id).
Proof.
  unfold Redis._update_cache, Redis.get_study_id_from_trial_id,
    Redis.get_study_directions.
  preserves_auto;
    first [apply rd_get_trial_frame | apply rd_get_best_trial_frame
          | apply rd_set_best_trial_frame].
Qed.







End RedisFacts.

(** ** Facts about the caching wrapper *)

Section CachedFacts.
Context `{!Externals}.

Lemma cached_get_cached_trial_state w trial_id r w' :
  Cached._get_cached_trial trial_id w = (r, w') -> w' = w.
Proof.
  unfold Cached._get_cached_trial, Cached.study_at.
  destruct (Cached._trial_id_to_study_id_and_number w !! trial_id)
    as [[sid n]|] eqn:Hid; [|mrun; congruence].
  destruct (Cached._studies w !! sid) as [st|] eqn:Hst; [|mrun; congruence].
  mrun.
  destruct (decide (trial_id ∈ Cached.owned_or_finished_trial_ids st));
    [|congruence].
  destruct (Cached.trials st !! n); simpl; congruence.
Qed.

Lemma cached_get_trial_cases w trial_id t :
  (Cached.get_trial trial_id w).1 = Ok t ->
  Cached._get_cached_trial trial_id w = (Ok (Some t), w) ∨
  (Cached._get_cached_trial trial_id w = (Ok None, w) ∧
   (InMemory.get_trial trial_id (Cached._backend w)).1 = Ok t).
Proof.
  unfold Cached.get_trial. rewrite run_bind.
  destruct (Cached._get_cached_trial trial_id w) as [[[tc|]|e] w1] eqn:Hc;
    pose proof (cached_get_cached_trial_state _ _ _ _ Hc) as ->; simpl.
  - munfold. simpl. intros [= ->]. auto.
  - unfold Cached.call.
    destruct (InMemory.get_trial trial_id (Cached._backend w)) as [o b].
    simpl. intros ->. auto.
  - discriminate.
Qed.

Lemma w_put_study_put w sid st1 st2 :
  w_put_study (w_put_study w sid st1) sid st2 = w_put_study w sid st2.
Proof.
  unfold w_put_study, Cached.with_studies. simpl.
  rewrite insert_insert_eq. reflexivity.
Qed.

Lemma w_put_study_lookup w sid st :
  Cached._studies (w_put_study w sid st) !! sid = Some st.
Proof. unfold w_put_study. simpl. apply lookup_insert_eq. Qed.

Lemma w_put_study_same w sid st :
  Cached._studies w !! sid = Some st -> w_put_study w sid st = w.
Proof.
  intros Hst. unfold w_put_study, Cached.with_studies.
  rewrite insert_id by exact Hst. destruct w; reflexivity.
Qed.

Lemma cached_study_at_run w sid st :
  Cached._studies w !! sid = Some st ->
  Cached.study_at sid w = (Ok st, w).
Proof. intros Hst. unfold Cached.study_at. mrun. reflexivity. Qed.

Lemma cached_id_entry_run w trial_id e :
  Cached._trial_id_to_study_id_and_number w !! trial_id = Some e ->
  Cached.id_entry trial_id w = (Ok e, w).
Proof. intros Hid. unfold Cached.id_entry. mrun. reflexivity. Qed.

Lemma cached_modify_study_run w sid st f :
  Cached._studies w !! sid = Some st ->
  Cached.modify_study sid f w = (Ok tt, w_put_study w sid (f st)).
Proof.
  intros Hst. unfold Cached.modify_study.
  rewrite (run_bind_ok _ _ _ _ _ (cached_study_at_run _ _ _ Hst)).
  reflexivity.
Qed.

Lemma cached_get_cached_trial_slot w trial_id sid n st t :
  cached_slot w trial_id sid n st t ->
  Cached._get_cached_trial trial_id w = (Ok (Some t), w).
Proof.
  intros (Hid & Hst & Hown & Ht). unfold Cached._get_cached_trial.
  unfold mbind at 1, M_bind at 1, bind at 1, get at 1. rewrite Hid.
  rewrite (run_bind_ok _ _ _ _ _ (cached_study_at_run _ _ _ Hst)).
  destruct (decide (trial_id ∈ Cached.owned_or_finished_trial_ids st));
    [|contradiction].
  munfold. rewrite Ht. reflexivity.
Qed.

Lemma cached_get_cached_trial_inv w trial_id t w' :
  Cached._get_cached_trial trial_id w = (Ok (Some t), w') ->
  w' = w ∧ ∃ sid n st, cached_slot w trial_id sid n st t.
Proof.
  intros Hc. pose proof (cached_get_cached_trial_state _ _ _ _ Hc) as ->.
  split; [reflexivity|]. revert Hc.
  unfold Cached._get_cached_trial, Cached.study_at, cached_slot.
  destruct (Cached._trial_id_to_study_id_and_number w !! trial_id)
    as [[sid n]|] eqn:Hid; [|mrun; discriminate].
  destruct (Cached._studies w !! sid) as [st|] eqn:Hst; [|mrun; discriminate].
  mrun.
  destruct (decide (trial_id ∈ Cached.owned_or_finished_trial_ids st));
    [|discriminate].
  destruct (Cached.trials st !! n) as [t0|] eqn:Ht; simpl; [|discriminate].
  intros [= <-]. exists sid, n, st. auto.
Qed.

(** [_get_updates] returns the pending update, creating it when absent. *)
Lemma cached_get_updates_run w trial_id sid n st :
  Cached._trial_id_to_study_id_and_number w !! trial_id = Some (sid, n) ->
  Cached._studies w !! sid = Some st ->
  Cached._get_updates trial_id w =
  (Ok (pending_or_new st n),
   w_put_study w sid
     (Cached.with_updates (<[n := pending_or_new st n]> (Cached.updates st)) st)).
Proof.
  intros Hid Hst. unfold Cached._get_updates, pending_or_new.
  rewrite (run_bind_ok _ _ _ _ _ (cached_id_entry_run _ _ _ Hid)).
  rewrite (run_bind_ok _ _ _ _ _ (cached_study_at_run _ _ _ Hst)).
  destruct (Cached.updates st !! n) as [u|] eqn:Hu; simpl.
  - munfold. f_equal. symmetry.
    rewrite insert_id by exact Hu.
    replace (Cached.with_updates (Cached.updates st) st) with st
      by (destruct st; reflexivity).
    apply w_put_study_same. exact Hst.
  - rewrite (run_bind_ok _ _ _ _ _ (cached_modify_study_run _ _ _ _ Hst)).
    reflexivity.
Qed.

Lemma cached_set_cached_run w trial_id sid n st t :
  Cached._trial_id_to_study_id_and_number w !! trial_id = Some (sid, n) ->
  Cached._studies w !! sid = Some st ->
  Cached.set_cached trial_id t w =
  (Ok tt, w_put_study w sid (Cached.with_trials (<[n := t]> (Cached.trials st)) st)).
Proof.
  intros Hid Hst. unfold Cached.set_cached.
  rewrite (run_bind_ok _ _ _ _ _ (cached_id_entry_run _ _ _ Hid)).
  exact (cached_modify_study_run w sid st _ Hst).
Qed.

Lemma cached_set_pending_run w trial_id sid n st u :
  Cached._trial_id_to_study_id_and_number w !! trial_id = Some (sid, n) ->
  Cached._studies w !! sid = Some st ->
  Cached.set_pending trial_id u w =
  (Ok tt, w_put_study w sid (Cached.with_updates (<[n := u]> (Cached.updates st)) st)).
Proof.
  intros Hid Hst. unfold Cached.set_pending.
  rewrite (run_bind_ok _ _ _ _ _ (cached_id_entry_run _ _ _ Hid)).
  exact (cached_modify_study_run w sid st _ Hst).
Qed.

(** A local write: [_get_updates], then the snapshot and the pending update
    are assigned. *)
Lemma cached_buffer_run w trial_id sid n st t (f : Cached._TrialUpdate -> Cached._TrialUpdate) :
  Cached._trial_id_to_study_id_and_number w !! trial_id = Some (sid, n) ->
  Cached._studies w !! sid = Some st ->
  (u ← Cached._get_updates trial_id;
   _ ← Cached.set_cached trial_id t;
   Cached.set_pending trial_id (f u)) w =
  (Ok tt, w_put_study w sid (st_buffered st n t (f (pending_or_new st n)))).
Proof.
  intros Hid Hst.
  rewrite (run_bind_ok _ _ _ _ _ (cached_get_updates_run _ _ _ _ _ Hid Hst)).
  set (st1 := Cached.with_updates _ st).
  rewrite (run_bind_ok _ _ _ _ _
             (cached_set_cached_run (w_put_study w sid st1) trial_id sid n st1 t
                Hid (w_put_study_lookup _ _ _))).
  set (st2 := Cached.with_trials _ st1).
  rewrite (cached_set_pending_run
             (w_put_study (w_put_study w sid st1) sid st2) trial_id sid n st2 _
             Hid (w_put_study_lookup _ _ _)).
  rewrite !w_put_study_put. subst st2 st1. unfold st_buffered. simpl.
  rewrite insert_insert_eq. reflexivity.
Qed.

Lemma cached_flush_run w trial_id sid n st u :
  Cached._trial_id_to_study_id_and_number w !! trial_id = Some (sid, n) ->
  Cached._studies w !! sid = Some st ->
  Cached.updates st !! n = Some u ->
  Cached._flush_trial trial_id w =
  ((Cached._update_trial trial_id u (Cached._backend w)).1,
   Cached.mkCachedStorage
     (Cached._update_trial trial_id u (Cached._backend w)).2
     (<[sid := Cached.with_updates (delete n (Cached.updates st)) st]>
        (Cached._studies w))
     (Cached._trial_id_to_study_id_and_number w)
     (Cached.backend_calls w ++ [Cached.call_update_trial trial_id u])).
Proof.
  intros Hid Hst Hu. unfold Cached._flush_trial.
  unfold mbind at 1, M_bind at 1, bind at 1, get at 1. rewrite Hid.
  rewrite (run_bind_ok _ _ _ _ _ (cached_study_at_run _ _ _ Hst)).
  rewrite Hu.
  rewrite (run_bind_ok _ _ _ _ _ (cached_modify_study_run _ _ _ _ Hst)).
  unfold Cached.call, w_put_study. simpl.
  destruct (Cached._update_trial trial_id u (Cached._backend w)); reflexivity.
Qed.

Lemma cached_flush_none w trial_id sid n st :
  Cached._trial_id_to_study_id_and_number w !! trial_id = Some (sid, n) ->
  Cached._studies w !! sid = Some st ->
  Cached.updates st !! n = None ->
  Cached._flush_trial trial_id w = (Ok true, w).
Proof.
  intros Hid Hst Hu. unfold Cached._flush_trial.
  unfold mbind at 1, M_bind at 1, bind at 1, get at 1. rewrite Hid.
  rewrite (run_bind_ok _ _ _ _ _ (cached_study_at_run _ _ _ Hst)).
  rewrite Hu. reflexivity.
Qed.

(** A local write followed by a flush, then [k]. *)
Lemma cached_buffer_flush_then w trial_id sid n st t
    (f : Cached._TrialUpdate -> Cached._TrialUpdate)
    {A} (k : bool -> M Cached._CachedStorage A) :
  Cached._trial_id_to_study_id_and_number w !! trial_id = Some (sid, n) ->
  Cached._studies w !! sid = Some st ->
  (u ← Cached._get_updates trial_id;
   _ ← Cached.set_cached trial_id t;
   _ ← Cached.set_pending trial_id (f u);
   b ← Cached._flush_trial trial_id;
   k b) w =
  match (Cached._update_trial trial_id (f (pending_or_new st n))
           (Cached._backend w)).1 with
  | Ok b => k b (w_flushed w trial_id sid n st t (f (pending_or_new st n)))
  | Raise e =>
    (Raise e, w_flushed w trial_id sid n st t (f (pending_or_new st n)))
  end.
Proof.
  intros Hid Hst.
  rewrite (run_bind_ok _ _ _ _ _ (cached_get_updates_run _ _ _ _ _ Hid Hst)).
  set (st1 := Cached.with_updates _ st).
  rewrite (run_bind_ok _ _ _ _ _
             (cached_set_cached_run (w_put_study w sid st1) trial_id sid n st1 t
                Hid (w_put_study_lookup _ _ _))).
  set (st2 := Cached.with_trials _ st1).
  rewrite (run_bind_ok _ _ _ _ _
             (cached_set_pending_run
                (w_put_study (w_put_study w sid st1) sid st2) trial_id sid n st2
                (f (pending_or_new st n)) Hid (w_put_study_lookup _ _ _))).
  rewrite !w_put_study_put.
  set (st3 := Cached.with_updates _ st2).
  rewrite run_bind.
  rewrite (cached_flush_run (w_put_study w sid st3) trial_id sid n st3
             (f (pending_or_new st n)) Hid (w_put_study_lookup _ _ _)).
  - assert (w_flushed w trial_id sid n st t (f (pending_or_new st n)) =
            Cached.mkCachedStorage
              (Cached._update_trial trial_id (f (pending_or_new st n))
                 (Cached._backend (w_put_study w sid st3))).2
              (<[sid := Cached.with_updates (delete n (Cached.updates st3)) st3]>
                 (Cached._studies (w_put_study w sid st3)))
              (Cached._trial_id_to_study_id_and_number (w_put_study w sid st3))
              (Cached.backend_calls (w_put_study w sid st3) ++
                 [Cached.call_update_trial trial_id (f (pending_or_new st n))]))
      as <-.
    { unfold w_flushed, st_flushed, w_put_study. subst st3 st2 st1.
      unfold Cached.with_updates, Cached.with_trials, Cached.with_studies. simpl.
      rewrite insert_insert_eq, !delete_insert_eq. reflexivity. }
    change (Cached._backend (w_put_study w sid st3)) with (Cached._backend w).
    destruct (Cached._update_trial trial_id (f (pending_or_new st n))
                (Cached._backend w)).1; reflexivity.
  - subst st3. simpl. apply lookup_insert_eq.
Qed.

End CachedFacts.

(** ** Facts about scans for the best trial *)

Section ScanFacts.
Context `{!Externals}.

Lemma Qltb_lt x y : Qltb x y = true <-> (x < y)%Q.
Proof.
  unfold Qltb. rewrite negb_true_iff. split.
  - intros Hb. apply Qnot_le_lt. intros Hle.
    apply Qle_bool_iff in Hle. congruence.
  - intros Hlt. destruct (Qle_bool y x) eqn:Hb; [|reflexivity].
    apply Qle_bool_iff in Hb. exfalso. eapply Qlt_not_le; eauto.
Qed.

Lemma Qltb_ge x y : Qltb x y = false <-> (y <= x)%Q.
Proof.
  unfold Qltb. rewrite negb_false_iff. apply Qle_bool_iff.
Qed.

Lemma better_true d x y :
  better d x y = true <-> (if decide (d = MAXIMIZE) then y < x else x < y)%Q.
Proof.
  unfold better, Qgtb. destruct (decide (d = MAXIMIZE)); apply Qltb_lt.
Qed.

Lemma better_false d x y :
  better d x y = false <-> (if decide (d = MAXIMIZE) then x <= y else y <= x)%Q.
Proof.
  unfold better, Qgtb. destruct (decide (d = MAXIMIZE)); apply Qltb_ge.
Qed.

(** [z] beats [y] and [x] does not beat [y]: [x] does not beat [z]. *)
Lemma better_false_trans d x y z :
  better d x y = false -> better d z y = true -> better d x z = false.
Proof.
  rewrite !better_false, better_true.
  destruct (decide (d = MAXIMIZE)); intros; lra.
Qed.



Lemma better_total d x y :
  better d x y = false -> ¬ (x == y)%Q -> better d y x = true.
Proof.
  rewrite better_false, better_true.
  destruct (decide (d = MAXIMIZE)); intros; lra.
Qed.













End ScanFacts.

(** ** The incremental best trial of the Redis storage *)

Section RedisTracking.
Context `{!Externals}.
















End RedisTracking.

(** ** The incremental best trial of the in-memory storage *)

Section InMemoryTracking.
Context `{!Externals}.

Lemma im_lookup_slot s i sid n st t :
  im_slot s i sid n st t -> im_lookup s i = Some t.
Proof.
  intros Hslot. unfold im_lookup, InMemory.get_trial.
  rewrite (im_get_trial_slot _ _ _ _ _ _ Hslot). reflexivity.
Qed.

Lemma im_lookup_inv s i t :
  im_lookup s i = Some t -> ∃ sid n st, im_slot s i sid n st t.
Proof.
  unfold im_lookup, InMemory.get_trial.
  destruct (InMemory._get_trial i s) as [[t'|e] s'] eqn:Hg; [|discriminate].
  intros [= <-]. apply im_get_trial_inv in Hg as (_ & Hslot). exact Hslot.
Qed.




Lemma im_set_trial_values_run s i sid n st t vs :
  im_slot s i sid n st t ->
  is_finished (state t) = false ->
  InMemory.set_trial_values i vs s =
  (Ok tt, im_store s sid n st (set_values (Some vs) t)).
Proof.
  intros Hslot Hnf. unfold InMemory.set_trial_values.
  rewrite (run_bind_ok _ _ _ _ _ (im_get_trial_slot _ _ _ _ _ _ Hslot)).
  unfold check_trial_is_updatable. rewrite Hnf.
  rewrite run_bind. unfold lift at 1. rewrite run_bind. unfold lift at 1.
  apply (im_set_trial_slot _ _ _ _ _ _ _ Hslot).
Qed.













End InMemoryTracking.

(** ** Writes that keep the trial records of the in-memory backend *)

Section InMemorySameTrials.
Context `{!Externals}.

#[local] Instance im_same_trials_preorder : PreOrder im_same_trials.
Proof.
  split.
  - intros b. repeat split; auto.
  - intros b1 b2 b3 (Hi12 & Hm12 & Ht12) (Hi23 & Hm23 & Ht23).
    split; [congruence|]. split; [congruence|].
    intros sid. rewrite Ht23. apply Ht12.
Qed.

Lemma im_put_study_same_trials sid st st' :
  InMemory.trials st' = InMemory.trials st ->
  ∀ b, InMemory.studies b !! sid = Some st ->
       im_same_trials b
         (InMemory.set_studies (<[sid := st']> (InMemory.studies b)) b).
Proof.
  intros Ht b Hst. split; [reflexivity|]. split; [reflexivity|].
  intros sid'. simpl. destruct (decide (sid = sid')) as [<-|Hne].
  - rewrite lookup_insert_eq, Hst. simpl. congruence.
  - rewrite lookup_insert_ne by exact Hne. reflexivity.
Qed.

Lemma im_assign_best_same_trials sid ptr :
  preserves im_same_trials (InMemory.assign_best sid ptr).
Proof.
  intros b o b'. unfold InMemory.assign_best, InMemory.study_at, InMemory.put_study.
  destruct (InMemory.studies b !! sid) as [st|] eqn:Hst; mrun.
  - intros [= _ <-].
    apply (im_put_study_same_trials sid st); [reflexivity|exact Hst].
  - intros [= _ <-]. reflexivity.
Qed.

Lemma im_get_trial_same_trials i :
  preserves im_same_trials (InMemory._get_trial i).
Proof.
  intros b o b' Hg. apply im_get_trial_state in Hg as ->. reflexivity.
Qed.

Lemma im_update_cache_same_trials i sid :
  preserves im_same_trials (InMemory._update_cache i sid).
Proof.
  unfold InMemory._update_cache, InMemory.get_study_directions,
    InMemory._check_study_id, InMemory.study_at.
  preserves_auto;
    first [apply im_get_trial_same_trials | apply im_assign_best_same_trials].
Qed.

End InMemorySameTrials.

(** * The claims *)

Section BackendClaims.
Context `{!Externals}.

Lemma im_set_trial_state_running now s trial_id t :
  InMemory.get_trial trial_id s = (Ok t, s) ->
  state t = RUNNING ->
  InMemory.set_trial_state now trial_id RUNNING s = (Ok false, s).
Proof.
  intros Hg Hr. unfold InMemory.set_trial_state.
  unfold InMemory.get_trial in Hg.
  rewrite (run_bind_ok _ _ _ _ _ Hg).
  unfold check_trial_is_updatable. rewrite Hr. munfold. simpl.
  destruct (decide (RUNNING = RUNNING ∧ RUNNING ≠ WAITING)) as [_|Hn];
    [reflexivity|].
  exfalso. apply Hn. split; congruence.
Qed.

Lemma rd_set_trial_state_running now r trial_id t :
  Redis.get_trial trial_id r = (Ok t, r) ->
  state t = RUNNING ->
  Redis.set_trial_state now trial_id RUNNING r = (Ok false, r).
Proof.
  intros Hg Hr. apply rd_get_trial_inv in Hg as [_ Ht].
  unfold Redis.set_trial_state.
  rewrite (run_bind_ok _ _ _ _ _ (rd_check_trial_id_some _ _ _ Ht)).
  rewrite (run_bind_ok _ _ _ _ _ (rd_get_trial_some _ _ _ Ht)).
  unfold check_trial_is_updatable. rewrite Hr. munfold. simpl.
  destruct (decide (RUNNING = RUNNING ∧ RUNNING ≠ WAITING)) as [_|Hn];
    [reflexivity|].
  exfalso. apply Hn. split; congruence.
Qed.

(** C2.  Claiming a trial succeeds exactly from WAITING.  For an existing,
    non-finished trial, [set_trial_state(trial, RUNNING)] of either backend
    returns [True] and leaves the trial RUNNING with [datetime_start] equal to
    the current time (every other field as before) if and only if the trial
    is WAITING; on a RUNNING trial the call returns [False] and the storage
    is as before. *)
Theorem claim_succeeds_exactly_from_waiting
    (now : datetime) (trial_id : Z)
    (s : InMemory.InMemoryStorage) (r : Redis.RedisStorage)
    (t tr : FrozenTrial) :
  InMemory.get_trial trial_id s = (Ok t, s) ->
  Redis.get_trial trial_id r = (Ok tr, r) ->
  is_finished (state t) = false ->
  is_finished (state tr) = false ->
  let out_m := InMemory.set_trial_state now trial_id RUNNING s in
  let out_r := Redis.set_trial_state now trial_id RUNNING r in
  ((out_m.1 = Ok true ∧
    InMemory.get_trial trial_id out_m.2 =
      (Ok (set_datetime_start (Some now) (set_state RUNNING t)), out_m.2))
   ↔ state t = WAITING) ∧
  (state t = RUNNING -> out_m = (Ok false, s)) ∧
  ((out_r.1 = Ok true ∧
    Redis.get_trial trial_id out_r.2 =
      (Ok (set_datetime_start (Some now) (set_state RUNNING tr)), out_r.2))
   ↔ state tr = WAITING) ∧
  (state tr = RUNNING -> out_r = (Ok false, r)).
Proof.
  intros Hm Hr Hfm Hfr out_m out_r. subst out_m out_r.
  split; [|split; [|split]].
  - destruct (decide (state t = WAITING)) as [Hw|Hnw].
    + split; [auto|]. intros _.
      pose proof Hm as Hm'. unfold InMemory.get_trial in Hm'.
      apply im_get_trial_inv in Hm' as (_ & sid & n & st & Hslot).
      rewrite (im_set_trial_state_claim now _ _ _ _ _ _ Hslot Hw). simpl.
      split; [reflexivity|].
      unfold InMemory.get_trial.
      eapply im_get_trial_slot, im_store_slot; eauto.
    + assert (state t = RUNNING) as Hrun
        by (destruct (state t); simpl in *; congruence).
      rewrite (im_set_trial_state_running now _ _ _ Hm Hrun). simpl.
      split; [intros [? _]; discriminate | congruence].
  - intros Hrun. apply (im_set_trial_state_running now _ _ _ Hm Hrun).
  - destruct (decide (state tr = WAITING)) as [Hw|Hnw].
    + split; [auto|]. intros _.
      pose proof Hr as Hr'. apply rd_get_trial_inv in Hr' as [_ Ht].
      rewrite (rd_set_trial_state_claim now _ _ _ Ht Hw). simpl.
      split; [reflexivity|].
      apply rd_get_trial_some. simpl. apply lookup_insert_eq.
    + assert (state tr = RUNNING) as Hrun
        by (destruct (state tr); simpl in *; congruence).
      rewrite (rd_set_trial_state_running now _ _ _ Hr Hrun). simpl.
      split; [intros [? _]; discriminate | congruence].
  - intros Hrun. apply (rd_set_trial_state_running now _ _ _ Hr Hrun).
Qed.

(** C10.  Rejected state transitions are side-effect free: whenever
    [set_trial_state] of a backend returns [False], the whole storage, and
    with it the stored trial record, is as before the call. *)
Theorem rejected_transition_changes_nothing
    (now : datetime) (trial_id : Z) (new_state : TrialState)
    (s : InMemory.InMemoryStorage) (r : Redis.RedisStorage) :
  ((InMemory.set_trial_state now trial_id new_state s).1 = Ok false ->
   (InMemory.set_trial_state now trial_id new_state s).2 = s) ∧
  ((Redis.set_trial_state now trial_id new_state r).1 = Ok false ->
   (Redis.set_trial_state now trial_id new_state r).2 = r).
Proof.
  split.
  - destruct (InMemory.set_trial_state now trial_id new_state s) as [o s']
      eqn:Hs. simpl. intros ->. eapply im_set_trial_state_false; eauto.
  - destruct (Redis.set_trial_state now trial_id new_state r) as [o r']
      eqn:Hr. simpl. intros ->. eapply rd_set_trial_state_false; eauto.
Qed.

Lemma im_check_trial_id_of_get s trial_id t :
  InMemory._get_trial trial_id s = (Ok t, s) ->
  InMemory._check_trial_id trial_id s = (Ok tt, s).
Proof.
  intros Hg. apply im_get_trial_inv in Hg as (_ & sid & n & st & Hid & _).
  unfold InMemory._check_trial_id. mrun. reflexivity.
Qed.

Lemma im_ops_finished now trial_id s t :
  InMemory.get_trial trial_id s = (Ok t, s) ->
  is_finished (state t) = true ->
  (∀ st, InMemory.set_trial_state now trial_id st s = (Raise RuntimeError, s)) ∧
  (∀ vs, InMemory.set_trial_values trial_id vs s = (Raise RuntimeError, s)) ∧
  (∀ nm v d, InMemory.set_trial_param trial_id nm v d s = (Raise RuntimeError, s)) ∧
  (∀ step v, InMemory.set_trial_intermediate_value trial_id step v s
             = (Raise RuntimeError, s)) ∧
  (∀ k v, InMemory.set_trial_user_attr trial_id k v s = (Raise RuntimeError, s)) ∧
  (∀ k v, InMemory.set_trial_system_attr trial_id k v s = (Raise RuntimeError, s)).
Proof.
  unfold InMemory.get_trial. intros Hg Hfin.
  pose proof (im_check_trial_id_of_get _ _ _ Hg) as Hc.
  repeat split; intros;
    unfold InMemory.set_trial_state, InMemory.set_trial_values,
      InMemory.set_trial_param, InMemory.set_trial_intermediate_value,
      InMemory.set_trial_user_attr, InMemory.set_trial_system_attr;
    repeat rewrite run_bind; rewrite ?Hc; repeat rewrite run_bind; rewrite Hg;
    unfold check_trial_is_updatable; rewrite Hfin; reflexivity.
Qed.

Lemma im_write_finished now trial_id wr s t :
  InMemory.get_trial trial_id s = (Ok t, s) ->
  is_finished (state t) = true ->
  im_write now trial_id wr s = (Raise RuntimeError, s).
Proof.
  intros Hg Hfin.
  destruct (im_ops_finished now _ _ _ Hg Hfin) as (H1 & H2 & H3 & H4 & H5 & H6).
  destruct wr; simpl; rewrite ?run_bind, ?H1, ?H2, ?H3, ?H4, ?H5, ?H6;
    reflexivity.
Qed.

Lemma rd_write_finished now trial_id wr r t :
  Redis.get_trial trial_id r = (Ok t, r) ->
  is_finished (state t) = true ->
  rd_write now trial_id wr r = (Raise RuntimeError, r).
Proof.
  intros Hg Hfin.
  pose proof Hg as Hg'. apply rd_get_trial_inv in Hg' as [_ Ht].
  pose proof (rd_check_trial_id_some _ _ _ Ht) as Hc.
  destruct wr; simpl;
    unfold Redis.set_trial_state, Redis.set_trial_values,
      Redis.set_trial_param, Redis.set_trial_intermediate_value,
      Redis.set_trial_user_attr, Redis.set_trial_system_attr;
    repeat rewrite run_bind; rewrite Hc; repeat rewrite run_bind; rewrite Hg;
    unfold check_trial_is_updatable; rewrite Hfin; reflexivity.
Qed.

Lemma update_trial_finished trial_id u b t :
  InMemory._get_trial trial_id b = (Ok t, b) ->
  is_finished (state t) = true ->
  Cached._update_trial trial_id u b = (Raise RuntimeError, b).
Proof.
  intros Hg Hfin. unfold Cached._update_trial.
  rewrite run_bind, Hg. unfold check_trial_is_updatable. rewrite Hfin.
  reflexivity.
Qed.

Lemma cached_write_finished now trial_id wr w t :
  (Cached.get_trial trial_id w).1 = Ok t ->
  is_finished (state t) = true ->
  (cached_write now trial_id wr w).1 = Raise RuntimeError.
Proof.
  intros Hg Hfin.
  apply cached_get_trial_cases in Hg as [Hc|[Hc Hb]].
  - destruct wr; simpl;
      unfold Cached.set_trial_state, Cached.set_trial_values,
        Cached.set_trial_param, Cached.set_trial_intermediate_value,
        Cached.set_trial_user_attr, Cached.set_trial_system_attr;
      repeat rewrite run_bind; rewrite Hc; simpl;
      unfold Cached._check_trial_is_updatable; rewrite Hfin;
      try reflexivity.
    destruct (decide (state t = WAITING)) as [Hw|_]; [|reflexivity].
    rewrite Hw in Hfin. discriminate.
  - destruct (InMemory.get_trial trial_id (Cached._backend w)) as [o b]
      eqn:Hgb. simpl in Hb. subst o.
    pose proof (im_get_trial_state _ _ _ _ Hgb) as ->.
    destruct (im_ops_finished now _ _ _ Hgb Hfin)
      as (H1 & H2 & H3 & H4 & H5 & H6).
    destruct wr; simpl;
      unfold Cached.set_trial_state, Cached.set_trial_values,
        Cached.set_trial_param, Cached.set_trial_intermediate_value,
        Cached.set_trial_user_attr, Cached.set_trial_system_attr;
      repeat rewrite run_bind; rewrite Hc; simpl; repeat rewrite run_bind;
      unfold Cached.call;
      rewrite ?H1, ?H3, ?H4, ?(update_trial_finished _ _ _ _ Hgb Hfin);
      reflexivity.
Qed.

(** C4.  Every write on a finished trial fails with the not-updatable error
    ([RuntimeError]), whatever the field category: in the in-memory backend
    and in the Redis backend, which are left unchanged, and in the caching
    wrapper, whether the trial is answered from the cache or by the
    backend. *)
Theorem finished_trial_rejects_every_write
    (now : datetime) (trial_id : Z) (wr : TrialWrite)
    (s : InMemory.InMemoryStorage) (r : Redis.RedisStorage)
    (w : Cached._CachedStorage) (ts tr tw : FrozenTrial) :
  InMemory.get_trial trial_id s = (Ok ts, s) ->
  is_finished (state ts) = true ->
  Redis.get_trial trial_id r = (Ok tr, r) ->
  is_finished (state tr) = true ->
  (Cached.get_trial trial_id w).1 = Ok tw ->
  is_finished (state tw) = true ->
  im_write now trial_id wr s = (Raise RuntimeError, s) ∧
  rd_write now trial_id wr r = (Raise RuntimeError, r) ∧
  (cached_write now trial_id wr w).1 = Raise RuntimeError.
Proof.
  intros Hs Hfs Hr Hfr Hw Hfw. split; [|split].
  - eapply im_write_finished; eauto.
  - eapply rd_write_finished; eauto.
  - eapply cached_write_finished; eauto.
Qed.

End BackendClaims.

Section BackendWitnesses.
#[local] Existing Instance concrete_externals.

Lemma claim_succeeds_exactly_from_waiting_witness :
  (InMemory.get_trial 0 Ex.im_waiting =
     (Ok (set_trial_id 0 (set_number 0 Ex.waiting_template)), Ex.im_waiting) ∧
   Redis.get_trial 0 Ex.rd_waiting =
     (Ok (set_trial_id 0 (set_number 0 Ex.waiting_template)), Ex.rd_waiting)) ∧
  (((InMemory.set_trial_state 200 0 RUNNING Ex.im_waiting).1 = Ok true ∧
    InMemory.get_trial 0 (InMemory.set_trial_state 200 0 RUNNING Ex.im_waiting).2 =
      (Ok (set_datetime_start (Some 200)
             (set_state RUNNING (set_trial_id 0 (set_number 0 Ex.waiting_template)))),
       (InMemory.set_trial_state 200 0 RUNNING Ex.im_waiting).2))
   ↔ WAITING = WAITING) ∧
  (((Redis.set_trial_state 200 0 RUNNING Ex.rd_waiting).1 = Ok true ∧
    Redis.get_trial 0 (Redis.set_trial_state 200 0 RUNNING Ex.rd_waiting).2 =
      (Ok (set_datetime_start (Some 200)
             (set_state RUNNING (set_trial_id 0 (set_number 0 Ex.waiting_template)))),
       (Redis.set_trial_state 200 0 RUNNING Ex.rd_waiting).2))
   ↔ WAITING = WAITING).
Proof.
  split; [split; reflexivity|].
  pose proof (claim_succeeds_exactly_from_waiting 200 0 Ex.im_waiting
                Ex.rd_waiting
                (set_trial_id 0 (set_number 0 Ex.waiting_template))
                (set_trial_id 0 (set_number 0 Ex.waiting_template))
                eq_refl eq_refl eq_refl eq_refl) as (Hm & _ & Hr & _).
  exact (conj Hm Hr).
Defined.

Lemma rejected_transition_changes_nothing_witness :
  (InMemory.set_trial_state 200 0 RUNNING Ex.im_running).1 = Ok false ∧
  (InMemory.set_trial_state 200 0 RUNNING Ex.im_running).2 = Ex.im_running ∧
  (Redis.set_trial_state 200 0 RUNNING Ex.rd_running).1 = Ok false ∧
  (Redis.set_trial_state 200 0 RUNNING Ex.rd_running).2 = Ex.rd_running.
Proof.
  pose proof (rejected_transition_changes_nothing 200 0 RUNNING Ex.im_running
                Ex.rd_running) as [Hm Hr].
  assert ((InMemory.set_trial_state 200 0 RUNNING Ex.im_running).1 = Ok false)
    as H1 by (vm_compute; reflexivity).
  assert ((Redis.set_trial_state 200 0 RUNNING Ex.rd_running).1 = Ok false)
    as H2 by (vm_compute; reflexivity).
  exact (conj H1 (conj (Hm H1) (conj H2 (Hr H2)))).
Defined.

Lemma finished_trial_rejects_every_write_witness :
  (InMemory.get_trial 0 Ex.im_finished = (Ok Ex.finished_record, Ex.im_finished) ∧
   Redis.get_trial 0 Ex.rd_finished = (Ok Ex.finished_record, Ex.rd_finished) ∧
   (Cached.get_trial 0 Ex.cached_finished).1 = Ok Ex.finished_record ∧
   is_finished (state Ex.finished_record) = true) ∧
  im_write 200 0 Ex.attr_write Ex.im_finished
    = (Raise RuntimeError, Ex.im_finished) ∧
  rd_write 200 0 Ex.attr_write Ex.rd_finished
    = (Raise RuntimeError, Ex.rd_finished) ∧
  (cached_write 200 0 Ex.attr_write Ex.cached_finished).1
    = Raise RuntimeError.
Proof.
  split; [repeat split; vm_compute; reflexivity|].
  apply (finished_trial_rejects_every_write 200 0 Ex.attr_write
           Ex.im_finished Ex.rd_finished Ex.cached_finished
           Ex.finished_record Ex.finished_record Ex.finished_record);
    vm_compute; reflexivity.
Defined.

End BackendWitnesses.

(** ** Heartbeats (Redis) *)

Section HeartbeatClaims.
Context `{!Externals}.

Lemma stale_at_11 (T : Q) : Qgtb (T - (T - 11)) (inject_Z 10) = true.
Proof. apply Qltb_lt. unfold inject_Z. lra. Qed.

Lemma fresh_at_9 (T : Q) : Qgtb (T - (T - 9)) (inject_Z 10) = false.
Proof. apply Qltb_ge. unfold inject_Z. lra. Qed.

Lemma rd_set_trial_state_fail now r trial_id sid t :
  Redis.key_trial r !! trial_id = Some t ->
  is_finished (state t) = false ->
  Redis.key_trial_study_id r !! trial_id = Some sid ->
  Redis.set_trial_state now trial_id FAIL r =
  (Ok true, rd_after_fail now trial_id sid t r).
Proof.
  intros Ht Hnf Hsid. unfold Redis.set_trial_state.
  rewrite (run_bind_ok _ _ _ _ _ (rd_check_trial_id_some _ _ _ Ht)).
  rewrite (run_bind_ok _ _ _ _ _ (rd_get_trial_some _ _ _ Ht)).
  unfold check_trial_is_updatable. rewrite Hnf. simpl.
  destruct (decide (FAIL = RUNNING ∧ state t ≠ WAITING)) as [[? _]|_];
    [discriminate|].
  destruct (decide (FAIL = RUNNING)) as [?|_]; [discriminate|].
  unfold Redis._set_trial at 1. munfold. simpl.
  rewrite (rd_update_cache_not_complete _ trial_id
             (set_datetime_complete (Some now) (set_state FAIL t)));
    [|simpl; apply lookup_insert_eq|simpl; discriminate].
  unfold Redis.get_study_id_from_trial_id, Redis.hdel_heartbeat, rd_after_fail.
  munfold. simpl. rewrite Hsid. simpl.
  destruct (Redis.key_study_heartbeats r !! sid); reflexivity.
Qed.

Lemma rd_after_fail_hgetall now trial_id sid t r :
  Redis.hgetall sid (rd_after_fail now trial_id sid t r) =
  Redis.hdel trial_id (Redis.hgetall sid r).
Proof.
  unfold rd_after_fail, Redis.hgetall.
  destruct (Redis.key_study_heartbeats r !! sid) as [h|] eqn:Hh; simpl.
  - rewrite lookup_insert_eq. reflexivity.
  - rewrite Hh. reflexivity.
Qed.

Lemma rd_after_fail_key_trial now trial_id sid t r :
  Redis.key_trial (rd_after_fail now trial_id sid t r) =
  <[trial_id := set_datetime_complete (Some now) (set_state FAIL t)]>
    (Redis.key_trial r).
Proof.
  unfold rd_after_fail.
  destruct (Redis.key_study_heartbeats r !! sid); reflexivity.
Qed.

Lemma stale_ids_11_and_9 (T : Q) (a b : Z) (h : list (Z * Q)) :
  h = [(a, (T - 11)%Q); (b, (T - 9)%Q)] ∨ h = [(b, (T - 9)%Q); (a, (T - 11)%Q)] ->
  map fst
    (filter (fun fv : Z * Q => Qgtb (T - fv.2) (inject_Z 10) = true) h) = [a].
Proof.
  pose proof (stale_at_11 T) as Hs. pose proof (fresh_at_9 T) as Hf.
  intros [-> | ->].
  - rewrite filter_cons_True by exact Hs.
    rewrite filter_cons_False by (simpl; congruence).
    reflexivity.
  - rewrite filter_cons_False by (simpl; congruence).
    rewrite filter_cons_True by exact Hs.
    reflexivity.
Qed.

(** C7.  Staleness threshold arithmetic.  With [heartbeat_interval=5] and
    [grace_period=None] the grace period is 10.  At current time [T], with a
    RUNNING trial [a] whose last heartbeat is at [T-11] and a RUNNING trial
    [b] whose last heartbeat is at [T-9], [fail_stale_trials] returns exactly
    [[a]]: [a] is now FAIL with its completion time set and its heartbeat
    removed, the record of [b] and its heartbeat are untouched. *)
Theorem stale_threshold_11_and_9
    (now : datetime) (T : Q) (sid a b : Z) (ta tb : FrozenTrial)
    (r : Redis.RedisStorage) :
  Redis._heartbeat_interval r = Some 5 ->
  Redis._grace_period r = None ->
  a ≠ b ->
  Redis.key_trial r !! a = Some ta -> state ta = RUNNING ->
  Redis.key_trial_study_id r !! a = Some sid ->
  Redis.key_trial r !! b = Some tb -> state tb = RUNNING ->
  Redis.hgetall sid r = [(a, (T - 11)%Q); (b, (T - 9)%Q)] ∨
  Redis.hgetall sid r = [(b, (T - 9)%Q); (a, (T - 11)%Q)] ->
  Redis.grace_period_of 5 None = 10 ∧
  Redis.fail_stale_trials now T sid r = (Ok [a], rd_after_fail now a sid ta r) ∧
  Redis.key_trial (rd_after_fail now a sid ta r) !! a =
    Some (set_datetime_complete (Some now) (set_state FAIL ta)) ∧
  Redis.key_trial (rd_after_fail now a sid ta r) !! b = Some tb ∧
  Redis.hgetall sid (rd_after_fail now a sid ta r) = [(b, (T - 9)%Q)].
Proof.
  intros Hint Hgr Hab Hta Hra Hsid Htb Hrb Hh.
  split; [reflexivity|]. split; [|split; [|split]].
  - unfold Redis.fail_stale_trials, Redis._get_stale_trial_ids.
    munfold. rewrite Hint, Hgr. simpl.
    change (2 * 5) with 10.
    rewrite (stale_ids_11_and_9 T a b _ Hh).
    assert (is_finished (state ta) = false) as Hnf by (rewrite Hra; reflexivity).
    cbn [Redis.fail_each].
    rewrite (run_bind_ok _ _ _ _ _
               (rd_set_trial_state_fail now r a sid ta Hta Hnf Hsid)).
    reflexivity.
  - rewrite rd_after_fail_key_trial. apply lookup_insert_eq.
  - rewrite rd_after_fail_key_trial. rewrite lookup_insert_ne by exact Hab.
    exact Htb.
  - rewrite rd_after_fail_hgetall. unfold Redis.hdel.
    destruct Hh as [-> | ->].
    + rewrite filter_cons_False by (simpl; intros Hn; apply Hn; reflexivity).
      rewrite filter_cons_True by (simpl; congruence). reflexivity.
    + rewrite filter_cons_True by (simpl; congruence).
      rewrite filter_cons_False by (simpl; intros Hn; apply Hn; reflexivity).
      reflexivity.
Qed.

Lemma rd_hdel_absent trial_id (h : list (Z * Q)) :
  trial_id ∉ map fst (Redis.hdel trial_id h).
Proof.
  unfold Redis.hdel. intros Hin.
  apply list_elem_of_fmap in Hin as ([f v] & Hf & Hin).
  apply list_elem_of_filter in Hin as [Hne _]. simpl in *. congruence.
Qed.

(** Right after an accepted transition into a finished state the heartbeat of
    the trial is gone, also when one was recorded just before. *)
Lemma rd_finish_clears_heartbeat now r trial_id sid new_state r' :
  Redis.set_trial_state now trial_id new_state r = (Ok true, r') ->
  is_finished new_state = true ->
  Redis.key_trial_study_id r !! trial_id = Some sid ->
  trial_id ∉ map fst (Redis.hgetall sid r').
Proof.
  intros Hset Hfin Hsid. revert Hset.
  unfold Redis.set_trial_state. repeat rewrite run_bind.
  destruct (Redis._check_trial_id trial_id r) as [[[]|e] r0] eqn:Hc;
    [|discriminate].
  assert (r0 = r) as ->.
  { revert Hc. unfold Redis._check_trial_id. munfold.
    destruct (decide _); intros [= ]; congruence. }
  rewrite run_bind.
  destruct (Redis.get_trial trial_id r) as [[t|e] r0] eqn:Hg; [|discriminate].
  apply rd_get_trial_inv in Hg as [-> Ht].
  unfold check_trial_is_updatable.
  destruct (is_finished (state t)); [discriminate|]. rewrite run_bind.
  unfold lift at 1.
  destruct (decide (new_state = RUNNING ∧ state t ≠ WAITING)); [discriminate|].
  rewrite Hfin. rewrite run_bind. unfold Redis._set_trial at 1.
  unfold mbind at 1, M_bind at 1, bind at 1, get at 1, put at 1.
  rewrite run_bind.
  destruct (Redis._update_cache trial_id _) as [[[]|e] r1] eqn:Hu; [|discriminate].
  apply rd_update_cache_frame in Hu as [x ->].
  unfold Redis.get_study_id_from_trial_id, Redis.hdel_heartbeat, Redis.hgetall.
  munfold. simpl. rewrite Hsid. simpl.
  destruct (Redis.key_study_heartbeats r !! sid) as [h|] eqn:Hh.
  - intros [= <-]. simpl. rewrite lookup_insert_eq. simpl.
    apply rd_hdel_absent.
  - intros [= <-]. simpl. rewrite Hh. simpl. apply not_elem_of_nil.
Qed.

(** A finished trial at the head of the stale list makes the reclamation
    loop raise: [set_trial_state] does not return [False] there. *)
Lemma rd_fail_each_finished_head now r trial_id t rest :
  Redis.key_trial r !! trial_id = Some t ->
  is_finished (state t) = true ->
  Redis.fail_each now (trial_id :: rest) r = (Raise RuntimeError, r).
Proof.
  intros Ht Hfin. cbn [Redis.fail_each]. rewrite run_bind.
  pose proof (rd_write_finished now trial_id (WriteState FAIL) r t
                (rd_get_trial_some _ _ _ Ht) Hfin) as Hw.
  simpl in Hw. rewrite Hw. reflexivity.
Qed.

End HeartbeatClaims.

Section HeartbeatExamples.
#[local] Existing Instance concrete_externals.

Lemma stale_threshold_11_and_9_witness :
  (Redis._heartbeat_interval Ex.rd_two_running = Some 5 ∧
   Redis._grace_period Ex.rd_two_running = None ∧
   Redis.hgetall 0 Ex.rd_two_running = [(0, (1020 - 11)%Q); (1, (1020 - 9)%Q)]) ∧
  Redis.grace_period_of 5 None = 10 ∧
  Redis.fail_stale_trials 300 1020%Q 0 Ex.rd_two_running =
    (Ok [0], rd_after_fail 300 0 0 (set_trial_id 0 (set_number 0 (_create_running_trial 100)))
               Ex.rd_two_running) ∧
  Redis.key_trial
    (rd_after_fail 300 0 0 (set_trial_id 0 (set_number 0 (_create_running_trial 100)))
       Ex.rd_two_running) !! 0 =
    Some (set_datetime_complete (Some 300)
            (set_state FAIL (set_trial_id 0 (set_number 0 (_create_running_trial 100))))) ∧
  Redis.key_trial
    (rd_after_fail 300 0 0 (set_trial_id 0 (set_number 0 (_create_running_trial 100)))
       Ex.rd_two_running) !! 1 =
    Some (set_trial_id 1 (set_number 1 (_create_running_trial 101))) ∧
  Redis.hgetall 0
    (rd_after_fail 300 0 0 (set_trial_id 0 (set_number 0 (_create_running_trial 100)))
       Ex.rd_two_running) = [(1, (1020 - 9)%Q)].
Proof.
  split; [repeat split; vm_compute; reflexivity|].
  apply (stale_threshold_11_and_9 300 1020%Q 0 0 1
           (set_trial_id 0 (set_number 0 (_create_running_trial 100)))
           (set_trial_id 1 (set_number 1 (_create_running_trial 101)))
           Ex.rd_two_running);
    try (vm_compute; reflexivity); try discriminate.
  left. vm_compute. reflexivity.
Defined.

(** C8.  The code at the failing input: a RUNNING trial records a heartbeat,
    is finished as COMPLETE (which removes the heartbeat), and one more
    [record_heartbeat] arrives afterwards.  The trial is finished, yet the
    heartbeat map of its study holds an entry for it, and the next staleness
    scan returns it. *)
Theorem late_heartbeat_lingers_after_finish :
  (Redis.get_trial 0 Ex.rd_late_heartbeat).1 = Ok Ex.finished_record ∧
  Redis.hgetall 0
    (snd ((_ ← Redis.record_heartbeat 1000%Q 0;
           Redis.set_trial_state 150 0 COMPLETE) Ex.rd_running)) = [] ∧
  Redis.hgetall 0 Ex.rd_late_heartbeat = [(0, 1001%Q)] ∧
  (Redis._get_stale_trial_ids 1020%Q 0 Ex.rd_late_heartbeat).1 = Ok [0].
Proof. repeat split; vm_compute; reflexivity. Qed.

(** C6.  The code at the failing inputs.  (1) The stale list holds a trial
    that is already finished (the store of C8): [fail_stale_trials] raises
    the not-updatable error instead of skipping the trial.  (2) The trial was
    RUNNING when the stale list [[0]] was computed and finished normally
    before the attempt: the reclamation loop raises as well. *)
Theorem fail_stale_trials_raises_on_finished_trial :
  (Redis.fail_stale_trials 300 1020%Q 0 Ex.rd_late_heartbeat).1
    = Raise RuntimeError ∧
  (Redis.fail_each 300 [0] Ex.rd_finished).1 = Raise RuntimeError.
Proof. split; vm_compute; reflexivity. Qed.

End HeartbeatExamples.

(** ** The best-trial tracker *)

Section BestTrialClaims.
Context `{!Externals}.


End BestTrialClaims.

Section BestTrialExamples.
#[local] Existing Instance concrete_externals.






End BestTrialExamples.

(** ** The caching wrapper: what a write sends to the backend *)

Section WrapperWrites.
Context `{!Externals}.

Lemma cached_set_trial_values_owned w trial_id sid n st t vs :
  cached_slot w trial_id sid n st t ->
  is_finished (state t) = false ->
  Cached.set_trial_values trial_id vs w =
  (Ok tt,
   w_put_study w sid
     (st_buffered st n (set_values (Some vs) t)
        (Cached.upd_set_values vs (pending_or_new st n)))).
Proof.
  intros Hslot Hnf. pose proof Hslot as (Hid & Hst & _ & _).
  unfold Cached.set_trial_values.
  rewrite (run_bind_ok _ _ _ _ _ (cached_get_cached_trial_slot _ _ _ _ _ _ Hslot)).
  unfold Cached._check_trial_is_updatable. rewrite Hnf.
  rewrite run_bind. unfold lift at 1.
  exact (cached_buffer_run w trial_id sid n st (set_values (Some vs) t)
           (Cached.upd_set_values vs) Hid Hst).
Qed.

Lemma cached_set_trial_intermediate_value_owned w trial_id sid n st t step iv :
  cached_slot w trial_id sid n st t ->
  is_finished (state t) = false ->
  Cached.set_trial_intermediate_value trial_id step iv w =
  (discard_flag
     (Cached._update_trial trial_id
        (Cached.upd_set_intermediate_value step iv (pending_or_new st n))
        (Cached._backend w)).1,
   w_flushed w trial_id sid n st
     (set_intermediate_values (<[step := iv]> (intermediate_values t)) t)
     (Cached.upd_set_intermediate_value step iv (pending_or_new st n))).
Proof.
  intros Hslot Hnf. pose proof Hslot as (Hid & Hst & _ & _).
  unfold Cached.set_trial_intermediate_value.
  rewrite (run_bind_ok _ _ _ _ _ (cached_get_cached_trial_slot _ _ _ _ _ _ Hslot)).
  unfold Cached._check_trial_is_updatable. rewrite Hnf.
  rewrite run_bind. unfold lift at 1.
  rewrite (cached_buffer_flush_then w trial_id sid n st _
             (Cached.upd_set_intermediate_value step iv) (fun _ => ret tt) Hid Hst).
  destruct (Cached._update_trial _ _ _).1; reflexivity.
Qed.

Lemma cached_set_trial_user_attr_owned w trial_id sid n st t key av :
  cached_slot w trial_id sid n st t ->
  is_finished (state t) = false ->
  Cached.set_trial_user_attr trial_id key av w =
  (discard_flag
     (Cached._update_trial trial_id
        (Cached.upd_set_user_attr key av (pending_or_new st n))
        (Cached._backend w)).1,
   w_flushed w trial_id sid n st
     (set_user_attrs (<[key := av]> (user_attrs t)) t)
     (Cached.upd_set_user_attr key av (pending_or_new st n))).
Proof.
  intros Hslot Hnf. pose proof Hslot as (Hid & Hst & _ & _).
  unfold Cached.set_trial_user_attr.
  rewrite (run_bind_ok _ _ _ _ _ (cached_get_cached_trial_slot _ _ _ _ _ _ Hslot)).
  unfold Cached._check_trial_is_updatable. rewrite Hnf.
  rewrite run_bind. unfold lift at 1.
  rewrite (cached_buffer_flush_then w trial_id sid n st _
             (Cached.upd_set_user_attr key av) (fun _ => ret tt) Hid Hst).
  destruct (Cached._update_trial _ _ _).1; reflexivity.
Qed.

Lemma cached_set_trial_system_attr_owned w trial_id sid n st t key av :
  cached_slot w trial_id sid n st t ->
  is_finished (state t) = false ->
  Cached.set_trial_system_attr trial_id key av w =
  (discard_flag
     (Cached._update_trial trial_id
        (Cached.upd_set_system_attr key av (pending_or_new st n))
        (Cached._backend w)).1,
   w_flushed w trial_id sid n st
     (set_system_attrs (<[key := av]> (system_attrs t)) t)
     (Cached.upd_set_system_attr key av (pending_or_new st n))).
Proof.
  intros Hslot Hnf. pose proof Hslot as (Hid & Hst & _ & _).
  unfold Cached.set_trial_system_attr.
  rewrite (run_bind_ok _ _ _ _ _ (cached_get_cached_trial_slot _ _ _ _ _ _ Hslot)).
  unfold Cached._check_trial_is_updatable. rewrite Hnf.
  rewrite run_bind. unfold lift at 1.
  rewrite (cached_buffer_flush_then w trial_id sid n st _
             (Cached.upd_set_system_attr key av) (fun _ => ret tt) Hid Hst).
  destruct (Cached._update_trial _ _ _).1; reflexivity.
Qed.

(** C5, as amended.  On an owned, non-finished trial of the caching wrapper:
    a value write is applied to the snapshot and put in the pending update,
    and makes no backend call (backend and call log unchanged); a write of an
    intermediate value or of a user or system attribute is applied to the
    snapshot, put in the pending update, and flushed at once: exactly one
    backend call is made, the merged update carrying the whole pending
    update, and no update stays pending for the trial. *)
Theorem value_write_is_buffered_other_writes_flush
    (w : Cached._CachedStorage) (trial_id sid n : Z) (st : Cached._StudyInfo)
    (t : FrozenTrial) (vs : list Q) (step : Z) (iv : Q) (key : string)
    (av : attr_value) :
  cached_slot w trial_id sid n st t ->
  is_finished (state t) = false ->
  (let out := Cached.set_trial_values trial_id vs w in
   out = (Ok tt,
          w_put_study w sid
            (st_buffered st n (set_values (Some vs) t)
               (Cached.upd_set_values vs (pending_or_new st n)))) ∧
   Cached._backend out.2 = Cached._backend w ∧
   Cached.backend_calls out.2 = Cached.backend_calls w) ∧
  (let u := Cached.upd_set_intermediate_value step iv (pending_or_new st n) in
   let out := Cached.set_trial_intermediate_value trial_id step iv w in
   out = (discard_flag (Cached._update_trial trial_id u (Cached._backend w)).1,
          w_flushed w trial_id sid n st
            (set_intermediate_values (<[step := iv]> (intermediate_values t)) t) u) ∧
   Cached.backend_calls out.2 =
     Cached.backend_calls w ++ [Cached.call_update_trial trial_id u] ∧
   (Cached._studies out.2 !! sid ≫= fun st' => Cached.updates st' !! n) = None) ∧
  (let u := Cached.upd_set_user_attr key av (pending_or_new st n) in
   let out := Cached.set_trial_user_attr trial_id key av w in
   out = (discard_flag (Cached._update_trial trial_id u (Cached._backend w)).1,
          w_flushed w trial_id sid n st
            (set_user_attrs (<[key := av]> (user_attrs t)) t) u) ∧
   Cached.backend_calls out.2 =
     Cached.backend_calls w ++ [Cached.call_update_trial trial_id u] ∧
   (Cached._studies out.2 !! sid ≫= fun st' => Cached.updates st' !! n) = None) ∧
  (let u := Cached.upd_set_system_attr key av (pending_or_new st n) in
   let out := Cached.set_trial_system_attr trial_id key av w in
   out = (discard_flag (Cached._update_trial trial_id u (Cached._backend w)).1,
          w_flushed w trial_id sid n st
            (set_system_attrs (<[key := av]> (system_attrs t)) t) u) ∧
   Cached.backend_calls out.2 =
     Cached.backend_calls w ++ [Cached.call_update_trial trial_id u] ∧
   (Cached._studies out.2 !! sid ≫= fun st' => Cached.updates st' !! n) = None).
Proof.
  intros Hslot Hnf.
  split; [|split; [|split]]; cbv zeta.
  - rewrite (cached_set_trial_values_owned _ _ _ _ _ _ vs Hslot Hnf).
    split; [reflexivity|]. split; reflexivity.
  - rewrite (cached_set_trial_intermediate_value_owned _ _ _ _ _ _ step iv Hslot Hnf).
    split; [reflexivity|]. split; [reflexivity|].
    simpl. rewrite lookup_insert_eq. simpl. apply lookup_delete_eq.
  - rewrite (cached_set_trial_user_attr_owned _ _ _ _ _ _ key av Hslot Hnf).
    split; [reflexivity|]. split; [reflexivity|].
    simpl. rewrite lookup_insert_eq. simpl. apply lookup_delete_eq.
  - rewrite (cached_set_trial_system_attr_owned _ _ _ _ _ _ key av Hslot Hnf).
    split; [reflexivity|]. split; [reflexivity|].
    simpl. rewrite lookup_insert_eq. simpl. apply lookup_delete_eq.
Qed.

End WrapperWrites.

Section WrapperWritesExamples.
#[local] Existing Instance concrete_externals.

Lemma cached_running_slot :
  cached_slot Ex.cached_running 0 0 0 Ex.cached_running_study Ex.trial0.
Proof.
  split; [vm_compute; reflexivity|]. split; [vm_compute; reflexivity|].
  split; [|vm_compute; reflexivity].
  unfold Ex.cached_running_study. simpl. apply elem_of_singleton. reflexivity.
Defined.

(** C5 fails as stated: the attribute write of the wrapper on an owned RUNNING
    trial calls the backend.  The call log grows by one [_update_trial] and
    the record stored in the backend changes. *)
Lemma attribute_write_calls_backend :
  Cached._get_cached_trial 0 Ex.cached_running = (Ok (Some Ex.trial0), Ex.cached_running) ∧
  state Ex.trial0 = RUNNING ∧
  Cached.backend_calls
    (Cached.set_trial_user_attr 0 "k" "v" Ex.cached_running).2 =
  Cached.backend_calls Ex.cached_running ++
    [Cached.call_update_trial 0
       (Cached.upd_set_user_attr "k" "v" Cached.new_TrialUpdate)] ∧
  (InMemory.get_trial 0
     (Cached._backend (Cached.set_trial_user_attr 0 "k" "v" Ex.cached_running).2)).1 =
  Ok (set_user_attrs {["k" := "v"]} Ex.trial0) ∧
  (InMemory.get_trial 0 (Cached._backend Ex.cached_running)).1 = Ok Ex.trial0 ∧
  Cached.backend_calls
    (Cached.set_trial_user_attr 0 "k" "v" Ex.cached_running).2 ≠
  Cached.backend_calls Ex.cached_running.
Proof.
  repeat split; try (vm_compute; reflexivity).
  vm_compute. discriminate.
Qed.

Lemma value_write_is_buffered_other_writes_flush_witness :
  (cached_slot Ex.cached_running 0 0 0 Ex.cached_running_study Ex.trial0 ∧
   is_finished (state Ex.trial0) = false) ∧
  Cached.backend_calls (Cached.set_trial_values 0 [1%Q] Ex.cached_running).2 =
    Cached.backend_calls Ex.cached_running ∧
  Cached.backend_calls (Cached.set_trial_user_attr 0 "k" "v" Ex.cached_running).2 =
    Cached.backend_calls Ex.cached_running ++
      [Cached.call_update_trial 0
         (Cached.upd_set_user_attr "k" "v"
            (pending_or_new Ex.cached_running_study 0))].
Proof.
  split; [split; [exact cached_running_slot|reflexivity]|].
  destruct (value_write_is_buffered_other_writes_flush Ex.cached_running 0 0 0
              Ex.cached_running_study Ex.trial0 [1%Q] 7 (1#2)%Q "k" "v"
              cached_running_slot eq_refl)
    as ((_ & _ & Hv) & _ & (_ & Hu & _) & _).
  exact (conj Hv Hu).
Defined.

End WrapperWritesExamples.

(** ** Ownership and WAITING trials in the caching wrapper *)

Section OwnershipExamples.
#[local] Existing Instance concrete_externals.

(** C9 at a failing input.  The wrapper created trial 0 in state RUNNING and
    owns it.  [set_trial_state(0, WAITING)] is accepted: the cached branch
    assigns the requested state to the snapshot without looking at it.  From
    then on the owned snapshot of trial 0 is in state WAITING, [get_trial(0)]
    answers with that WAITING record from the cache, leaving the wrapper and
    its log of backend calls as they were, and the next [set_trial_state] on
    the trial stops at the assertion [cached_trial.state != WAITING]. *)
Theorem owned_trial_cached_as_waiting :
  Cached._get_cached_trial 0 Ex.cached_running =
    (Ok (Some Ex.trial0), Ex.cached_running) ∧
  state Ex.trial0 = RUNNING ∧
  (Cached.set_trial_state 200 0 WAITING Ex.cached_running).1 = Ok true ∧
  Cached._get_cached_trial 0
    (Cached.set_trial_state 200 0 WAITING Ex.cached_running).2 =
    (Ok (Some (set_state WAITING Ex.trial0)),
     (Cached.set_trial_state 200 0 WAITING Ex.cached_running).2) ∧
  Cached.get_trial 0 (Cached.set_trial_state 200 0 WAITING Ex.cached_running).2 =
    (Ok (set_state WAITING Ex.trial0),
     (Cached.set_trial_state 200 0 WAITING Ex.cached_running).2) ∧
  state (set_state WAITING Ex.trial0) = WAITING ∧
  (Cached.set_trial_state 300 0 COMPLETE
     (Cached.set_trial_state 200 0 WAITING Ex.cached_running).2).1 =
    Raise AssertionError.
Proof.
  repeat split; vm_compute; reflexivity.
Qed.

End OwnershipExamples.

(** ** Flush batching against direct writes *)

Section FlushBatchingFacts.
Context `{!Externals}.

Lemma apply_update_values_only ov t :
  Cached.apply_update (values_only ov) t = with_buffered_values ov t.
Proof.
  unfold Cached.apply_update, values_only. simpl.
  rewrite map_zip_with_empty, !(left_id_L ∅ (∪)).
  destruct ov, t; reflexivity.
Qed.

Lemma apply_update_intermediate_value ov step iv t :
  Cached.apply_update
    (Cached.upd_set_intermediate_value step iv (values_only ov)) t =
  set_intermediate_values
    (<[step := iv]> (intermediate_values (with_buffered_values ov t)))
    (with_buffered_values ov t).
Proof.
  unfold Cached.apply_update, values_only. simpl.
  rewrite map_zip_with_empty, !(left_id_L ∅ (∪)).
  rewrite <- insert_union_l, (left_id_L ∅ (∪)).
  destruct ov, t; reflexivity.
Qed.

Lemma apply_update_user_attr ov key av t :
  Cached.apply_update (Cached.upd_set_user_attr key av (values_only ov)) t =
  set_user_attrs (<[key := av]> (user_attrs (with_buffered_values ov t)))
    (with_buffered_values ov t).
Proof.
  unfold Cached.apply_update, values_only. simpl.
  rewrite map_zip_with_empty, !(left_id_L ∅ (∪)).
  rewrite <- insert_union_l, (left_id_L ∅ (∪)).
  destruct ov, t; reflexivity.
Qed.

Lemma apply_update_system_attr ov key av t :
  Cached.apply_update (Cached.upd_set_system_attr key av (values_only ov)) t =
  set_system_attrs (<[key := av]> (system_attrs (with_buffered_values ov t)))
    (with_buffered_values ov t).
Proof.
  unfold Cached.apply_update, values_only. simpl.
  rewrite map_zip_with_empty, !(left_id_L ∅ (∪)).
  rewrite <- insert_union_l, (left_id_L ∅ (∪)).
  destruct ov, t; reflexivity.
Qed.

Lemma apply_update_param ov p v dist t :
  Cached.apply_update (Cached.upd_set_param p v dist (values_only ov)) t =
  with_param p v dist (with_buffered_values ov t).
Proof.
  unfold Cached.apply_update, values_only, with_param. simpl.
  rewrite <- map_insert_zip_with, map_zip_with_empty, !(left_id_L ∅ (∪)).
  rewrite <- !insert_union_l, !(left_id_L ∅ (∪)).
  destruct ov, t; reflexivity.
Qed.

Lemma apply_update_finish ov now fin t :
  Cached.apply_update
    (Cached.upd_set_datetime_complete now
       (Cached.upd_set_state fin (values_only ov))) t =
  set_datetime_complete (Some now) (set_state fin (with_buffered_values ov t)).
Proof.
  unfold Cached.apply_update, values_only. simpl.
  rewrite map_zip_with_empty, !(left_id_L ∅ (∪)).
  destruct ov, t; reflexivity.
Qed.

Lemma with_buffered_values_state ov t : state (with_buffered_values ov t) = state t.
Proof. destruct ov; reflexivity. Qed.

Lemma im_same_trials_get_trial b b' i :
  im_same_trials b b' ->
  (InMemory.get_trial i b').1 = (InMemory.get_trial i b).1.
Proof.
  intros (Hi & _ & Ht).
  unfold InMemory.get_trial, InMemory._get_trial, InMemory._check_trial_id,
    InMemory.id_entry, InMemory.study_at.
  destruct (InMemory.trial_id_to_study_id_and_number b !! i) as [[sid n]|] eqn:Hid.
  - assert (Hid' : InMemory.trial_id_to_study_id_and_number b' !! i = Some (sid, n))
      by (rewrite Hi; exact Hid).
    specialize (Ht sid).
    destruct (InMemory.studies b' !! sid) as [st'|] eqn:Hst',
             (InMemory.studies b !! sid) as [st|] eqn:Hst; simpl in Ht;
      try discriminate.
    + injection Ht as Ht. mrun. rewrite Ht.
      destruct (InMemory.trials st !! n); reflexivity.
    + mrun. reflexivity.
  - assert (Hid' : InMemory.trial_id_to_study_id_and_number b' !! i = None)
      by (rewrite Hi; exact Hid).
    mrun. reflexivity.
Qed.

Lemma im_store_get_trial b i sid n st t t' :
  im_slot b i sid n st t ->
  (InMemory.get_trial i (im_store b sid n st t')).1 = Ok t'.
Proof.
  intros Hslot. unfold InMemory.get_trial.
  rewrite (im_get_trial_slot _ _ _ _ _ _ (im_store_slot _ _ _ _ _ _ t' Hslot)).
  reflexivity.
Qed.

(** The merged update on an unfinished trial, without a state part. *)
Lemma update_trial_run b i sid n st t u :
  im_slot b i sid n st t ->
  is_finished (state t) = false ->
  Cached.upd_state u = None ->
  Cached._update_trial i u b =
  (Ok true, im_store b sid n st (Cached.apply_update u t)).
Proof.
  intros Hslot Hnf Hu. unfold Cached._update_trial.
  rewrite (run_bind_ok _ _ _ _ _ (im_get_trial_slot _ _ _ _ _ _ Hslot)).
  unfold check_trial_is_updatable. rewrite Hnf.
  rewrite run_bind. unfold lift at 1.
  destruct (decide (Cached.upd_state u = Some RUNNING ∧ state t ≠ WAITING))
    as [[Hr _]|_]; [congruence|].
  rewrite (run_bind_ok _ _ _ _ _ (im_set_trial_slot _ _ _ _ _ _ _ Hslot)).
  replace (state (Cached.apply_update u t)) with (state t)
    by (unfold Cached.apply_update; simpl; rewrite Hu; reflexivity).
  rewrite Hnf. reflexivity.
Qed.

Lemma finished_not_running fin : is_finished fin = true -> fin ≠ RUNNING.
Proof. intros Hf ->. discriminate. Qed.

(** The merged update that finishes the trial: the record is stored, then
    the best-trial pointer is looked after. *)
Lemma update_trial_finish b i sid n st t u fin :
  im_slot b i sid n st t ->
  is_finished (state t) = false ->
  Cached.upd_state u = Some fin ->
  is_finished fin = true ->
  im_same_trials (im_store b sid n st (Cached.apply_update u t))
    (Cached._update_trial i u b).2.
Proof.
  intros Hslot Hnf Hu Hfin. unfold Cached._update_trial.
  rewrite (run_bind_ok _ _ _ _ _ (im_get_trial_slot _ _ _ _ _ _ Hslot)).
  unfold check_trial_is_updatable. rewrite Hnf.
  rewrite run_bind. unfold lift at 1.
  destruct (decide (Cached.upd_state u = Some RUNNING ∧ state t ≠ WAITING))
    as [[Hr _]|_].
  { rewrite Hu in Hr. injection Hr as ->. discriminate. }
  rewrite (run_bind_ok _ _ _ _ _ (im_set_trial_slot _ _ _ _ _ _ _ Hslot)).
  replace (state (Cached.apply_update u t)) with fin
    by (unfold Cached.apply_update; simpl; rewrite Hu; reflexivity).
  rewrite Hfin.
  pose proof (im_store_slot _ _ _ _ _ _ (Cached.apply_update u t) Hslot) as Hs'.
  rewrite (run_bind_ok _ _ _ _ _ (im_id_entry_slot _ _ _ _ _ _ Hs')).
  rewrite run_bind.
  destruct (InMemory._update_cache i sid _) as [[[]|e] b'] eqn:Hc; simpl;
    exact (im_update_cache_same_trials _ _ _ _ _ Hc).
Qed.

(** [set_trial_state] to a finished state, on the storage itself. *)
Lemma im_finish_same_trials now d i sid n st t fin :
  im_slot d i sid n st t ->
  is_finished (state t) = false ->
  is_finished fin = true ->
  im_same_trials
    (im_store d sid n st (set_datetime_complete (Some now) (set_state fin t)))
    (InMemory.set_trial_state now i fin d).2.
Proof.
  intros Hslot Hnf Hfin. unfold InMemory.set_trial_state.
  rewrite (run_bind_ok _ _ _ _ _ (im_get_trial_slot _ _ _ _ _ _ Hslot)).
  unfold check_trial_is_updatable. rewrite Hnf.
  rewrite run_bind. unfold lift at 1. rewrite run_bind. unfold lift at 1.
  pose proof (finished_not_running _ Hfin) as Hnr.
  destruct (decide (fin = RUNNING ∧ state t ≠ WAITING)) as [[Hr _]|_];
    [contradiction|].
  destruct (decide (fin = RUNNING)) as [Hr|_]; [contradiction|].
  rewrite Hfin.
  rewrite (run_bind_ok _ _ _ _ _ (im_set_trial_slot _ _ _ _ _ _ _ Hslot)).
  pose proof (im_store_slot _ _ _ _ _ _
                (set_datetime_complete (Some now) (set_state fin t)) Hslot) as Hs'.
  rewrite (run_bind_ok _ _ _ _ _ (im_id_entry_slot _ _ _ _ _ _ Hs')).
  rewrite run_bind.
  destruct (InMemory._update_cache i sid _) as [[[]|e] b'] eqn:Hc; simpl;
    exact (im_update_cache_same_trials _ _ _ _ _ Hc).
Qed.

(** *** The field writes on the storage itself *)

Lemma im_set_trial_intermediate_value_run s i sid n st t step iv :
  im_slot s i sid n st t ->
  is_finished (state t) = false ->
  InMemory.set_trial_intermediate_value i step iv s =
  (Ok tt, im_store s sid n st
            (set_intermediate_values (<[step := iv]> (intermediate_values t)) t)).
Proof.
  intros Hslot Hnf. unfold InMemory.set_trial_intermediate_value.
  rewrite (run_bind_ok _ _ _ _ _ (im_get_trial_slot _ _ _ _ _ _ Hslot)).
  unfold check_trial_is_updatable. rewrite Hnf.
  rewrite run_bind. unfold lift at 1.
  apply (im_set_trial_slot _ _ _ _ _ _ _ Hslot).
Qed.

Lemma im_check_trial_id_slot s i sid n st t :
  im_slot s i sid n st t -> InMemory._check_trial_id i s = (Ok tt, s).
Proof.
  intros (Hid & _). unfold InMemory._check_trial_id. mrun. reflexivity.
Qed.

Lemma im_set_trial_user_attr_run s i sid n st t key av :
  im_slot s i sid n st t ->
  is_finished (state t) = false ->
  InMemory.set_trial_user_attr i key av s =
  (Ok tt, im_store s sid n st (set_user_attrs (<[key := av]> (user_attrs t)) t)).
Proof.
  intros Hslot Hnf. unfold InMemory.set_trial_user_attr.
  rewrite (run_bind_ok _ _ _ _ _ (im_check_trial_id_slot _ _ _ _ _ _ Hslot)).
  rewrite (run_bind_ok _ _ _ _ _ (im_get_trial_slot _ _ _ _ _ _ Hslot)).
  unfold check_trial_is_updatable. rewrite Hnf.
  rewrite run_bind. unfold lift at 1. rewrite run_bind. unfold lift at 1.
  apply (im_set_trial_slot _ _ _ _ _ _ _ Hslot).
Qed.

Lemma im_set_trial_system_attr_run s i sid n st t key av :
  im_slot s i sid n st t ->
  is_finished (state t) = false ->
  InMemory.set_trial_system_attr i key av s =
  (Ok tt, im_store s sid n st
            (set_system_attrs (<[key := av]> (system_attrs t)) t)).
Proof.
  intros Hslot Hnf. unfold InMemory.set_trial_system_attr.
  rewrite (run_bind_ok _ _ _ _ _ (im_get_trial_slot _ _ _ _ _ _ Hslot)).
  unfold check_trial_is_updatable. rewrite Hnf.
  rewrite run_bind. unfold lift at 1. rewrite run_bind. unfold lift at 1.
  apply (im_set_trial_slot _ _ _ _ _ _ _ Hslot).
Qed.

Lemma im_registered_slot s i sid n st t p dist :
  im_slot s i sid n st t ->
  im_slot (im_registered s sid st p dist) i sid n (st_registered st p dist) t.
Proof.
  intros (Hid & Hst & Ht). unfold im_slot, im_registered. simpl.
  split; [exact Hid|]. split; [apply lookup_insert_eq|exact Ht].
Qed.

Lemma im_study_at_run s sid st :
  InMemory.studies s !! sid = Some st -> InMemory.study_at sid s = (Ok st, s).
Proof. intros Hst. unfold InMemory.study_at. mrun. reflexivity. Qed.

Lemma im_put_study_run s sid st :
  InMemory.put_study sid st s =
  (Ok tt, InMemory.set_studies (<[sid := st]> (InMemory.studies s)) s).
Proof. reflexivity. Qed.

(** [set_trial_param] on the storage: the registry is checked, then
    overwritten, then the record is stored. *)
Lemma im_set_trial_param_run s i sid n st t p v dist :
  im_slot s i sid n st t ->
  is_finished (state t) = false ->
  InMemory.set_trial_param i p v dist s =
  if match InMemory.param_distribution st !! p with
     | Some d_old => check_distribution_compatibility d_old dist
     | None => true
     end
  then (Ok tt, im_store (im_registered s sid st p dist) sid n
                 (st_registered st p dist) (with_param p v dist t))
  else (Raise ValueError, s).
Proof.
  intros Hslot Hnf. pose proof Hslot as (Hid & Hst & Ht).
  unfold InMemory.set_trial_param.
  rewrite (run_bind_ok _ _ _ _ _ (im_get_trial_slot _ _ _ _ _ _ Hslot)).
  unfold check_trial_is_updatable. rewrite Hnf.
  rewrite run_bind. unfold lift at 1.
  rewrite (run_bind_ok _ _ _ _ _ (im_id_entry_slot _ _ _ _ _ _ Hslot)).
  rewrite (run_bind_ok _ _ _ _ _ (im_study_at_run _ _ _ Hst)).
  assert (Hgo :
    (_ ← InMemory.put_study sid
           (InMemory.set_param_distribution
              (<[p := dist]> (InMemory.param_distribution st)) st);
     InMemory._set_trial i
       (set_distributions (<[p := dist]> (distributions
          (set_params (<[p := to_external_repr dist v]> (params t)) t)))
          (set_params (<[p := to_external_repr dist v]> (params t)) t))) s =
    (Ok tt, im_store (im_registered s sid st p dist) sid n
              (st_registered st p dist) (with_param p v dist t))).
  { rewrite (run_bind_ok _ _ _ _ _ (im_put_study_run _ _ _)).
    apply (im_set_trial_slot _ _ _ _ _ _ _ (im_registered_slot _ _ _ _ _ _ p dist Hslot)). }
  destruct (InMemory.param_distribution st !! p) as [d_old|].
  - destruct (check_distribution_compatibility d_old dist).
    + rewrite run_bind. unfold ret at 1. exact Hgo.
    + reflexivity.
  - rewrite run_bind. unfold ret at 1. exact Hgo.
Qed.

(** The backend's check-and-set: the registry is checked or extended, then
    the record is stored. *)
Lemma check_and_set_param_distribution_run s i sid n st t p v dist :
  im_slot s i sid n st t ->
  is_finished (state t) = false ->
  Cached._check_and_set_param_distribution sid i p v dist s =
  match InMemory.param_distribution st !! p with
  | Some d_old =>
    if check_distribution_compatibility d_old dist
    then (Ok tt, im_store s sid n st (with_param p v dist t))
    else (Raise ValueError, s)
  | None =>
    (Ok tt, im_store (im_registered s sid st p dist) sid n
              (st_registered st p dist) (with_param p v dist t))
  end.
Proof.
  intros Hslot Hnf. pose proof Hslot as (Hid & Hst & Ht).
  unfold Cached._check_and_set_param_distribution.
  rewrite (run_bind_ok _ _ _ _ _ (im_get_trial_slot _ _ _ _ _ _ Hslot)).
  unfold check_trial_is_updatable. rewrite Hnf.
  rewrite run_bind. unfold lift at 1.
  rewrite (run_bind_ok _ _ _ _ _ (im_study_at_run _ _ _ Hst)).
  destruct (InMemory.param_distribution st !! p) as [d_old|].
  - destruct (check_distribution_compatibility d_old dist).
    + rewrite run_bind. unfold ret at 1.
      apply (im_set_trial_slot _ _ _ _ _ _ _ Hslot).
    + reflexivity.
  - rewrite (run_bind_ok _ _ _ _ _ (im_put_study_run _ _ _)).
    apply (im_set_trial_slot _ _ _ _ _ _ _ (im_registered_slot _ _ _ _ _ _ p dist Hslot)).
Qed.

(** *** The wrapper on an owned, unfinished trial *)

Lemma w_flushed_eq w i sid n st st' t u :
  Cached.trials st' = <[n := t]> (Cached.trials st) ->
  delete n (Cached.updates st') = delete n (Cached.updates st) ->
  Cached.owned_or_finished_trial_ids st' = Cached.owned_or_finished_trial_ids st ->
  Cached.param_distribution st' = Cached.param_distribution st ->
  Cached.directions st' = Cached.directions st ->
  Cached.name st' = Cached.name st ->
  Cached.mkCachedStorage
    (Cached._update_trial i u (Cached._backend w)).2
    (<[sid := Cached.with_updates (delete n (Cached.updates st')) st']>
       (Cached._studies (w_put_study w sid st')))
    (Cached._trial_id_to_study_id_and_number w)
    (Cached.backend_calls w ++ [Cached.call_update_trial i u]) =
  w_flushed w i sid n st t u.
Proof.
  intros Ht Hu Ho Hp Hd Hn.
  unfold w_flushed, st_flushed, w_put_study, Cached.with_updates,
    Cached.with_trials, Cached.with_studies. simpl.
  rewrite insert_insert_eq, Ht, Hu, Ho, Hp, Hd, Hn. reflexivity.
Qed.

Lemma cached_set_trial_param_hit w i sid n st t p v dist dc :
  cached_slot w i sid n st t ->
  is_finished (state t) = false ->
  Cached.param_distribution st !! p = Some dc ->
  Cached.set_trial_param i p v dist w =
  if check_distribution_compatibility dc dist
  then (discard_flag
          (Cached._update_trial i
             (Cached.upd_set_param p v dist (pending_or_new st n))
             (Cached._backend w)).1,
        w_flushed w i sid n st (with_param p v dist t)
          (Cached.upd_set_param p v dist (pending_or_new st n)))
  else (Raise ValueError, w).
Proof.
  intros Hslot Hnf Hpd. pose proof Hslot as (Hid & Hst & _ & _).
  unfold Cached.set_trial_param.
  rewrite (run_bind_ok _ _ _ _ _ (cached_get_cached_trial_slot _ _ _ _ _ _ Hslot)).
  unfold Cached._check_trial_is_updatable. rewrite Hnf.
  rewrite run_bind. unfold lift at 1.
  rewrite (run_bind_ok _ _ _ _ _ (cached_id_entry_run _ _ _ Hid)).
  rewrite (run_bind_ok _ _ _ _ _ (cached_study_at_run _ _ _ Hst)).
  rewrite Hpd.
  destruct (check_distribution_compatibility dc dist); [|reflexivity].
  rewrite run_bind. unfold ret at 1.
  rewrite (run_bind_ok _ _ _ _ _
             (cached_set_cached_run w i sid n st _ Hid Hst)).
  set (st1 := Cached.with_trials _ st).
  rewrite (run_bind_ok _ _ _ _ _
             (cached_get_updates_run (w_put_study w sid st1) i sid n st1
                Hid (w_put_study_lookup _ _ _))).
  set (st2 := Cached.with_updates _ st1).
  rewrite (run_bind_ok _ _ _ _ _
             (cached_set_pending_run
                (w_put_study (w_put_study w sid st1) sid st2) i sid n st2
                (Cached.upd_set_param p v dist (pending_or_new st1 n))
                Hid (w_put_study_lookup _ _ _))).
  rewrite !w_put_study_put.
  set (st3 := Cached.with_updates _ st2).
  rewrite run_bind.
  rewrite (cached_flush_run (w_put_study w sid st3) i sid n st3
             (Cached.upd_set_param p v dist (pending_or_new st1 n))
             Hid (w_put_study_lookup _ _ _))
    by (subst st3; simpl; apply lookup_insert_eq).
  change (pending_or_new st1 n) with (pending_or_new st n).
  change (Cached._backend (w_put_study w sid st3)) with (Cached._backend w).
  change (Cached._trial_id_to_study_id_and_number (w_put_study w sid st3))
    with (Cached._trial_id_to_study_id_and_number w).
  change (Cached.backend_calls (w_put_study w sid st3))
    with (Cached.backend_calls w).
  rewrite (w_flushed_eq w i sid n st st3 (with_param p v dist t));
    [|reflexivity
     |subst st3 st2 st1; simpl; rewrite !delete_insert_eq; reflexivity
     |reflexivity..].
  destruct (Cached._update_trial _ _ _).1; reflexivity.
Qed.

Lemma cached_set_trial_param_miss w i sid n st t p v dist :
  cached_slot w i sid n st t ->
  is_finished (state t) = false ->
  Cached.param_distribution st !! p = None ->
  Cached.set_trial_param i p v dist w =
  match (Cached._check_and_set_param_distribution sid i p v dist
           (Cached._backend w)).1 with
  | Ok _ => (Ok tt, w_param_committed w i sid n st t p v dist)
  | Raise e =>
    (Raise e,
     Cached.mkCachedStorage
       (Cached._check_and_set_param_distribution sid i p v dist
          (Cached._backend w)).2
       (Cached._studies w) (Cached._trial_id_to_study_id_and_number w)
       (Cached.backend_calls w ++
          [Cached.call_check_and_set_param_distribution sid i p]))
  end.
Proof.
  intros Hslot Hnf Hpd. pose proof Hslot as (Hid & Hst & _ & _).
  unfold Cached.set_trial_param.
  rewrite (run_bind_ok _ _ _ _ _ (cached_get_cached_trial_slot _ _ _ _ _ _ Hslot)).
  unfold Cached._check_trial_is_updatable. rewrite Hnf.
  rewrite run_bind. unfold lift at 1.
  rewrite (run_bind_ok _ _ _ _ _ (cached_id_entry_run _ _ _ Hid)).
  rewrite (run_bind_ok _ _ _ _ _ (cached_study_at_run _ _ _ Hst)).
  rewrite Hpd.
  rewrite run_bind. rewrite run_bind. unfold Cached.call at 1.
  unfold w_param_committed.
  destruct (Cached._check_and_set_param_distribution sid i p v dist
              (Cached._backend w)) as [[[]|e] b'] eqn:Hc; simpl; [|reflexivity].
  set (w1 := Cached.mkCachedStorage b' _ _ _).
  assert (Hst1 : Cached._studies w1 !! sid = Some st) by exact Hst.
  assert (Hid1 : Cached._trial_id_to_study_id_and_number w1 !! i = Some (sid, n))
    by exact Hid.
  rewrite (cached_modify_study_run w1 sid st _ Hst1).
  set (st1 := Cached.with_param_distribution _ st).
  rewrite (run_bind_ok _ _ _ _ _
             (cached_set_cached_run (w_put_study w1 sid st1) i sid n st1 _
                Hid1 (w_put_study_lookup _ _ _))).
  rewrite w_put_study_put. reflexivity.
Qed.

(** The finishing [set_trial_state] of the wrapper sends one merged update
    with the pending parts, the state and the completion time. *)
Lemma cached_finish_run now w i sid n st t fin :
  cached_slot w i sid n st t ->
  state t ≠ WAITING ->
  is_finished (state t) = false ->
  is_finished fin = true ->
  Cached.set_trial_state now i fin w =
  ((Cached._update_trial i
      (Cached.upd_set_datetime_complete now
         (Cached.upd_set_state fin (pending_or_new st n)))
      (Cached._backend w)).1,
   w_flushed w i sid n st
     (set_datetime_complete (Some now) (set_state fin t))
     (Cached.upd_set_datetime_complete now
        (Cached.upd_set_state fin (pending_or_new st n)))).
Proof.
  intros Hslot Hnw Hnf Hfin. pose proof Hslot as (Hid & Hst & _ & _).
  unfold Cached.set_trial_state.
  rewrite (run_bind_ok _ _ _ _ _ (cached_get_cached_trial_slot _ _ _ _ _ _ Hslot)).
  destruct (decide (state t = WAITING)) as [Hw|_]; [contradiction|].
  unfold Cached._check_trial_is_updatable. rewrite Hnf.
  rewrite run_bind. unfold lift at 1.
  rewrite (run_bind_ok _ _ _ _ _ (cached_get_updates_run _ _ _ _ _ Hid Hst)).
  set (u := pending_or_new st n).
  set (st1 := Cached.with_updates _ st).
  rewrite (run_bind_ok _ _ _ _ _
             (cached_set_cached_run (w_put_study w sid st1) i sid n st1
                (set_state fin t) Hid (w_put_study_lookup _ _ _))).
  set (st2 := Cached.with_trials _ st1).
  rewrite (run_bind_ok _ _ _ _ _
             (cached_set_pending_run
                (w_put_study (w_put_study w sid st1) sid st2) i sid n st2
                (Cached.upd_set_state fin u) Hid (w_put_study_lookup _ _ _))).
  rewrite !w_put_study_put.
  set (st3 := Cached.with_updates _ st2).
  change (state (set_state fin t)) with fin. rewrite Hfin.
  set (st4 := Cached.with_updates
                (<[n := Cached.upd_set_datetime_complete now
                          (Cached.upd_set_state fin u)]> (Cached.updates st3)) st3).
  set (st5 := Cached.with_trials
                (<[n := set_datetime_complete (Some now) (set_state fin t)]>
                   (Cached.trials st4)) st4).
  assert (Hin :
    (_ ← Cached.set_pending i
           (Cached.upd_set_datetime_complete now (Cached.upd_set_state fin u));
     Cached.set_cached i (set_datetime_complete (Some now) (set_state fin t)))
      (w_put_study w sid st3) = (Ok tt, w_put_study w sid st5)).
  { rewrite (run_bind_ok _ _ _ _ _
               (cached_set_pending_run (w_put_study w sid st3) i sid n st3
                  (Cached.upd_set_datetime_complete now (Cached.upd_set_state fin u))
                  Hid (w_put_study_lookup _ _ _))).
    cbv beta. rewrite w_put_study_put.
    erewrite cached_set_cached_run; [|exact Hid|apply w_put_study_lookup].
    rewrite w_put_study_put. reflexivity. }
  rewrite (run_bind_ok _ _ _ _ _ Hin).
  rewrite (cached_flush_run (w_put_study w sid st5) i sid n st5
             (Cached.upd_set_datetime_complete now (Cached.upd_set_state fin u))
             Hid (w_put_study_lookup _ _ _))
    by (subst st5 st4; simpl; apply lookup_insert_eq).
  change (Cached._backend (w_put_study w sid st5)) with (Cached._backend w).
  change (Cached._trial_id_to_study_id_and_number (w_put_study w sid st5))
    with (Cached._trial_id_to_study_id_and_number w).
  change (Cached.backend_calls (w_put_study w sid st5))
    with (Cached.backend_calls w).
  rewrite (w_flushed_eq w i sid n st st5
             (set_datetime_complete (Some now) (set_state fin t)));
    [reflexivity
    |subst st5 st4 st3 st2 st1; simpl; apply insert_insert_eq
    |subst st5 st4 st3 st2 st1; simpl; rewrite !delete_insert_eq; reflexivity
    |reflexivity..].
Qed.

End FlushBatchingFacts.

Section FlushBatching.
Context `{!Externals}.
Context {compatible_equiv : Equivalence compatible}.

Lemma compatible_check d1 d2 dist :
  compatible d1 d2 ->
  check_distribution_compatibility d1 dist =
  check_distribution_compatibility d2 dist.
Proof.
  intros H12.
  destruct (check_distribution_compatibility d1 dist) eqn:H1,
           (check_distribution_compatibility d2 dist) eqn:H2; try reflexivity.
  - assert (compatible d2 dist) as H2'
      by (transitivity d1; [symmetry; exact H12|exact H1]).
    unfold compatible in H2'. congruence.
  - assert (compatible d1 dist) as H1'
      by (transitivity d2; [exact H12|exact H2]).
    unfold compatible in H1'. congruence.
Qed.

Lemma run_then_ret_snd {S A B} (m : M S A) (b : B) (s : S) :
  ((_ ← m; ret b) s).2 = (m s).2.
Proof. rewrite run_bind. destruct (m s) as [[a|e] s']; reflexivity. Qed.

Lemma flush_sim_running i sid n w d st st_b st_d t_c t_b ov :
  flush_sim_at i sid n w d st st_b st_d t_c t_b ov ->
  is_finished (state t_c) = false ∧ is_finished (state t_b) = false.
Proof.
  intros Hsim. pose proof (sim_running _ _ _ _ _ _ _ _ _ _ _ Hsim) as Hr.
  pose proof (sim_snapshot _ _ _ _ _ _ _ _ _ _ _ Hsim) as Hs.
  rewrite Hs, with_buffered_values_state in Hr. rewrite Hs, with_buffered_values_state, Hr.
  split; reflexivity.
Qed.

(** The slot of the owned trial after its cached study was replaced. *)
Lemma cached_slot_put w i sid n st t st' t' :
  cached_slot w i sid n st t ->
  Cached.owned_or_finished_trial_ids st' = Cached.owned_or_finished_trial_ids st ->
  Cached.trials st' !! n = Some t' ->
  ∀ b calls,
    cached_slot
      (Cached.mkCachedStorage b (<[sid := st']> (Cached._studies w))
         (Cached._trial_id_to_study_id_and_number w) calls) i sid n st' t'.
Proof.
  intros (Hid & Hst & Hown & Ht) Ho Ht' b calls. unfold cached_slot. simpl.
  split; [exact Hid|]. split; [apply lookup_insert_eq|].
  split; [rewrite Ho; exact Hown|exact Ht'].
Qed.

Lemma flush_sim_values i sid n w d vs :
  flush_sim i sid n w d ->
  flush_sim i sid n (Cached.set_trial_values i vs w).2
    (InMemory.set_trial_values i vs d).2.
Proof.
  intros (st & st_b & st_d & t_c & t_b & ov & Hsim).
  destruct (flush_sim_running _ _ _ _ _ _ _ _ _ _ _ Hsim) as [Hnc Hnb].
  destruct Hsim as [Hslot Hrun Hpend Hback Hsnap Hdir Hreg Hcache].
  rewrite (cached_set_trial_values_owned _ _ _ _ _ _ vs Hslot Hnc).
  rewrite (im_set_trial_values_run _ _ _ _ _ _ vs Hdir Hnc).
  simpl. rewrite Hpend.
  eexists _, st_b, _, (set_values (Some vs) t_c), t_b, (Some vs).
  split.
  - apply (cached_slot_put _ _ _ _ _ _ _ _ Hslot); [reflexivity|].
    simpl. apply lookup_insert_eq.
  - exact Hrun.
  - unfold pending_or_new. simpl. rewrite lookup_insert_eq. reflexivity.
  - exact Hback.
  - rewrite Hsnap. destruct ov; reflexivity.
  - apply (im_store_slot _ _ _ _ _ _ _ Hdir).
  - exact Hreg.
  - exact Hcache.
Qed.

(** A write that is flushed: behind the wrapper and in the storage written
    to directly the same record is stored, nothing stays pending. *)
Lemma flush_sim_flushed_at i sid n w d st st_b st_d t_c t_b ov u' t' d' st_d' :
  flush_sim_at i sid n w d st st_b st_d t_c t_b ov ->
  Cached.upd_state u' = None ->
  Cached.apply_update u' t_b = t' ->
  state t' = RUNNING ->
  im_slot d' i sid n st_d' t' ->
  (∀ q, option_Forall2 compatible
          (InMemory.param_distribution st_b !! q)
          (InMemory.param_distribution st_d' !! q)) ->
  flush_sim i sid n (w_flushed w i sid (Z.of_nat n) st t' u') d'.
Proof.
  intros Hsim Hu Happ Hrun' Hdir' Hreg'.
  destruct (flush_sim_running _ _ _ _ _ _ _ _ _ _ _ Hsim) as [Hnc Hnb].
  destruct Hsim as [Hslot Hrun Hpend Hback Hsnap Hdir Hreg Hcache].
  unfold w_flushed.
  rewrite (update_trial_run _ _ _ _ _ _ u' Hback Hnb Hu), Happ. simpl.
  eexists _, _, st_d', t', t', None.
  split.
  - apply (cached_slot_put _ _ _ _ _ _ _ _ Hslot); [reflexivity|].
    simpl. apply lookup_insert_eq.
  - exact Hrun'.
  - unfold pending_or_new. simpl. rewrite lookup_delete_eq. reflexivity.
  - apply (im_store_slot _ _ _ _ _ _ _ Hback).
  - reflexivity.
  - exact Hdir'.
  - exact Hreg'.
  - exact Hcache.
Qed.

Lemma flush_sim_flushed i sid n w d st st_b st_d t_c t_b ov u' t' :
  flush_sim_at i sid n w d st st_b st_d t_c t_b ov ->
  Cached.upd_state u' = None ->
  Cached.apply_update u' t_b = t' ->
  state t' = RUNNING ->
  flush_sim i sid n (w_flushed w i sid (Z.of_nat n) st t' u')
    (im_store d sid n st_d t').
Proof.
  intros Hsim Hu Happ Hrun'.
  eapply (flush_sim_flushed_at _ _ _ _ _ _ _ _ _ _ _ _ _ _ _ Hsim Hu Happ Hrun').
  - apply (im_store_slot _ _ _ _ _ _ _ (sim_direct _ _ _ _ _ _ _ _ _ _ _ Hsim)).
  - exact (sim_registry _ _ _ _ _ _ _ _ _ _ _ Hsim).
Qed.

Lemma flush_sim_intermediate_value i sid n w d step iv :
  flush_sim i sid n w d ->
  flush_sim i sid n (Cached.set_trial_intermediate_value i step iv w).2
    (InMemory.set_trial_intermediate_value i step iv d).2.
Proof.
  intros (st & st_b & st_d & t_c & t_b & ov & Hsim).
  destruct (flush_sim_running _ _ _ _ _ _ _ _ _ _ _ Hsim) as [Hnc Hnb].
  pose proof Hsim as [Hslot Hrun Hpend Hback Hsnap Hdir Hreg Hcache].
  rewrite (cached_set_trial_intermediate_value_owned _ _ _ _ _ _ step iv Hslot Hnc).
  rewrite (im_set_trial_intermediate_value_run _ _ _ _ _ _ step iv Hdir Hnc).
  simpl. rewrite Hpend.
  apply (flush_sim_flushed _ _ _ _ _ _ _ _ _ _ _ _ _ Hsim); [reflexivity| |exact Hrun].
  rewrite apply_update_intermediate_value, <- Hsnap. reflexivity.
Qed.

Lemma flush_sim_user_attr i sid n w d key av :
  flush_sim i sid n w d ->
  flush_sim i sid n (Cached.set_trial_user_attr i key av w).2
    (InMemory.set_trial_user_attr i key av d).2.
Proof.
  intros (st & st_b & st_d & t_c & t_b & ov & Hsim).
  destruct (flush_sim_running _ _ _ _ _ _ _ _ _ _ _ Hsim) as [Hnc Hnb].
  pose proof Hsim as [Hslot Hrun Hpend Hback Hsnap Hdir Hreg Hcache].
  rewrite (cached_set_trial_user_attr_owned _ _ _ _ _ _ key av Hslot Hnc).
  rewrite (im_set_trial_user_attr_run _ _ _ _ _ _ key av Hdir Hnc).
  simpl. rewrite Hpend.
  apply (flush_sim_flushed _ _ _ _ _ _ _ _ _ _ _ _ _ Hsim); [reflexivity| |exact Hrun].
  rewrite apply_update_user_attr, <- Hsnap. reflexivity.
Qed.

Lemma flush_sim_system_attr i sid n w d key av :
  flush_sim i sid n w d ->
  flush_sim i sid n (Cached.set_trial_system_attr i key av w).2
    (InMemory.set_trial_system_attr i key av d).2.
Proof.
  intros (st & st_b & st_d & t_c & t_b & ov & Hsim).
  destruct (flush_sim_running _ _ _ _ _ _ _ _ _ _ _ Hsim) as [Hnc Hnb].
  pose proof Hsim as [Hslot Hrun Hpend Hback Hsnap Hdir Hreg Hcache].
  rewrite (cached_set_trial_system_attr_owned _ _ _ _ _ _ key av Hslot Hnc).
  rewrite (im_set_trial_system_attr_run _ _ _ _ _ _ key av Hdir Hnc).
  simpl. rewrite Hpend.
  apply (flush_sim_flushed _ _ _ _ _ _ _ _ _ _ _ _ _ Hsim); [reflexivity| |exact Hrun].
  rewrite apply_update_system_attr, <- Hsnap. reflexivity.
Qed.

Lemma registry_some (reg_b reg_d : gmap string distribution) p db :
  (∀ q, option_Forall2 compatible (reg_b !! q) (reg_d !! q)) ->
  reg_b !! p = Some db ->
  ∃ dd, reg_d !! p = Some dd ∧ compatible db dd.
Proof.
  intros Hreg Hp. specialize (Hreg p). rewrite Hp in Hreg.
  inversion Hreg as [? dd Hc|]. exists dd. auto.
Qed.

Lemma registry_none (reg_b reg_d : gmap string distribution) p :
  (∀ q, option_Forall2 compatible (reg_b !! q) (reg_d !! q)) ->
  reg_b !! p = None ->
  reg_d !! p = None.
Proof.
  intros Hreg Hp. specialize (Hreg p). rewrite Hp in Hreg.
  inversion Hreg. reflexivity.
Qed.

Lemma registry_insert_r (reg_b reg_d : gmap string distribution) p db dist :
  (∀ q, option_Forall2 compatible (reg_b !! q) (reg_d !! q)) ->
  reg_b !! p = Some db ->
  compatible db dist ->
  ∀ q, option_Forall2 compatible (reg_b !! q) (<[p := dist]> reg_d !! q).
Proof.
  intros Hreg Hp Hc q. destruct (decide (p = q)) as [<-|Hne].
  - rewrite lookup_insert_eq, Hp. constructor. exact Hc.
  - rewrite lookup_insert_ne by exact Hne. apply Hreg.
Qed.

Lemma registry_insert_both (reg_b reg_d : gmap string distribution) p dist :
  (∀ q, option_Forall2 compatible (reg_b !! q) (reg_d !! q)) ->
  ∀ q, option_Forall2 compatible (<[p := dist]> reg_b !! q)
         (<[p := dist]> reg_d !! q).
Proof.
  intros Hreg q. destruct (decide (p = q)) as [<-|Hne].
  - rewrite !lookup_insert_eq. constructor. reflexivity.
  - rewrite !lookup_insert_ne by exact Hne. apply Hreg.
Qed.

Lemma flush_sim_param i sid n w d p v dist :
  flush_sim i sid n w d ->
  flush_sim i sid n (Cached.set_trial_param i p v dist w).2
    (InMemory.set_trial_param i p v dist d).2.
Proof.
  intros (st & st_b & st_d & t_c & t_b & ov & Hsim).
  destruct (flush_sim_running _ _ _ _ _ _ _ _ _ _ _ Hsim) as [Hnc Hnb].
  pose proof Hsim as [Hslot Hrun Hpend Hback Hsnap Hdir Hreg Hcache].
  rewrite (im_set_trial_param_run _ _ _ _ _ _ p v dist Hdir Hnc).
  destruct (Cached.param_distribution st !! p) as [dc|] eqn:Hpc.
  - (* the distribution is cached *)
    destruct (Hcache p dc Hpc) as (db & Hdb & Hcdb).
    destruct (registry_some _ _ _ _ Hreg Hdb) as (dd & Hdd & Hbd).
    rewrite Hdd.
    rewrite (cached_set_trial_param_hit _ _ _ _ _ _ p v dist dc Hslot Hnc Hpc).
    assert (Hdc : compatible dd dc)
      by (transitivity db; symmetry; assumption).
    rewrite (compatible_check dd dc dist Hdc).
    destruct (check_distribution_compatibility dc dist) eqn:Hc.
    + simpl. rewrite Hpend.
      eapply (flush_sim_flushed_at _ _ _ _ _ _ _ _ _ _ _ _ _ _ _ Hsim).
      * reflexivity.
      * rewrite apply_update_param, <- Hsnap. reflexivity.
      * exact Hrun.
      * eapply im_store_slot, im_registered_slot; exact Hdir.
      * simpl. apply (registry_insert_r _ _ _ db); [exact Hreg|exact Hdb|].
        transitivity dc; [symmetry; exact Hcdb|exact Hc].
    + simpl. exists st, st_b, st_d, t_c, t_b, ov. exact Hsim.
  - (* the distribution is not cached: the backend checks and registers *)
    rewrite (cached_set_trial_param_miss _ _ _ _ _ _ p v dist Hslot Hnc Hpc).
    unfold w_param_committed.
    rewrite (check_and_set_param_distribution_run _ _ _ _ _ _ p v dist Hback Hnb).
    destruct (InMemory.param_distribution st_b !! p) as [db|] eqn:Hdb.
    + destruct (registry_some _ _ _ _ Hreg Hdb) as (dd & Hdd & Hbd).
      rewrite Hdd.
      rewrite <- (compatible_check db dd dist Hbd).
      destruct (check_distribution_compatibility db dist) eqn:Hc; simpl.
      * eexists _, _, _, (with_param p v dist t_c), (with_param p v dist t_b), ov.
        split.
        -- apply (cached_slot_put _ _ _ _ _ _ _ _ Hslot); [reflexivity|].
           simpl. apply lookup_insert_eq.
        -- exact Hrun.
        -- exact Hpend.
        -- apply (im_store_slot _ _ _ _ _ _ _ Hback).
        -- rewrite Hsnap. destruct ov; reflexivity.
        -- eapply im_store_slot, im_registered_slot; exact Hdir.
        -- simpl. apply (registry_insert_r _ _ _ db); [exact Hreg|exact Hdb|exact Hc].
        -- simpl. intros q dq. destruct (decide (p = q)) as [<-|Hne].
           ++ rewrite lookup_insert_eq. intros [= <-]. exists db.
              split; [exact Hdb|symmetry; exact Hc].
           ++ rewrite lookup_insert_ne by exact Hne. apply Hcache.
      * exists st, st_b, st_d, t_c, t_b, ov.
        split; assumption.
    + rewrite (registry_none _ _ _ Hreg Hdb). simpl.
      eexists _, _, _, (with_param p v dist t_c), (with_param p v dist t_b), ov.
      split.
      * apply (cached_slot_put _ _ _ _ _ _ _ _ Hslot); [reflexivity|].
        simpl. apply lookup_insert_eq.
      * exact Hrun.
      * exact Hpend.
      * eapply im_store_slot, im_registered_slot; exact Hback.
      * rewrite Hsnap. destruct ov; reflexivity.
      * eapply im_store_slot, im_registered_slot; exact Hdir.
      * simpl. apply registry_insert_both. exact Hreg.
      * simpl. intros q dq. destruct (decide (p = q)) as [<-|Hne].
        -- rewrite lookup_insert_eq. intros [= <-]. exists dist.
           split; [apply lookup_insert_eq|reflexivity].
        -- rewrite !lookup_insert_ne by exact Hne. apply Hcache.
Qed.

Lemma flush_sim_step now i sid n w d wr :
  field_write wr ->
  flush_sim i sid n w d ->
  flush_sim i sid n (cached_write now i wr w).2 (im_write now i wr d).2.
Proof.
  intros Hfw Hsim. destruct wr; simpl in Hfw; [contradiction|..];
    unfold cached_write, im_write; rewrite !run_then_ret_snd.
  - apply flush_sim_values. exact Hsim.
  - apply flush_sim_param. exact Hsim.
  - apply flush_sim_intermediate_value. exact Hsim.
  - apply flush_sim_user_attr. exact Hsim.
  - apply flush_sim_system_attr. exact Hsim.
Qed.

Lemma flush_sim_writes now i sid n ws :
  Forall field_write ws ->
  ∀ w d, flush_sim i sid n w d ->
         flush_sim i sid n (apply_writes (cached_write now i) ws w)
           (apply_writes (im_write now i) ws d).
Proof.
  induction 1 as [|wr ws Hwr _ IH]; intros w d Hsim; [exact Hsim|].
  unfold apply_writes. simpl. apply IH. apply flush_sim_step; assumption.
Qed.

Lemma flush_sim_init w i sid n st st_b t :
  cached_slot w i sid (Z.of_nat n) st t ->
  state t = RUNNING ->
  Cached.updates st !! Z.of_nat n = None ->
  im_slot (Cached._backend w) i sid n st_b t ->
  (∀ p dc, Cached.param_distribution st !! p = Some dc ->
           ∃ db, InMemory.param_distribution st_b !! p = Some db ∧
                 compatible dc db) ->
  flush_sim i sid n w (Cached._backend w).
Proof.
  intros Hslot Hrun Hupd Hback Hcache.
  exists st, st_b, st_b, t, t, None. split; try assumption.
  - unfold pending_or_new. rewrite Hupd. reflexivity.
  - reflexivity.
  - intros p. destruct (InMemory.param_distribution st_b !! p);
      constructor. reflexivity.
Qed.

Lemma flush_sim_finish now i sid n w d fin :
  flush_sim i sid n w d ->
  is_finished fin = true ->
  ∃ r,
    (InMemory.get_trial i
       (Cached._backend (Cached.set_trial_state now i fin w).2)).1 = Ok r ∧
    (InMemory.get_trial i (InMemory.set_trial_state now i fin d).2).1 = Ok r ∧
    state r = fin.
Proof.
  intros (st & st_b & st_d & t_c & t_b & ov & Hsim) Hfin.
  destruct (flush_sim_running _ _ _ _ _ _ _ _ _ _ _ Hsim) as [Hnc Hnb].
  destruct Hsim as [Hslot Hrun Hpend Hback Hsnap Hdir Hreg Hcache].
  exists (set_datetime_complete (Some now) (set_state fin t_c)).
  split; [|split; [|reflexivity]].
  - rewrite (cached_finish_run now _ _ _ _ _ _ fin Hslot); [|congruence|exact Hnc|exact Hfin].
    rewrite Hpend. simpl.
    rewrite (im_same_trials_get_trial _ _ i
               (update_trial_finish _ _ _ _ _ _
                  (Cached.upd_set_datetime_complete now
                     (Cached.upd_set_state fin (values_only ov)))
                  fin Hback Hnb eq_refl Hfin)).
    rewrite (im_store_get_trial _ _ _ _ _ _ _ Hback).
    rewrite apply_update_finish, <- Hsnap. reflexivity.
  - rewrite (im_same_trials_get_trial _ _ i
               (im_finish_same_trials now _ _ _ _ _ _ fin Hdir Hnc Hfin)).
    apply (im_store_get_trial _ _ _ _ _ _ _ Hdir).
Qed.

(** C1.  An owned RUNNING trial whose snapshot is the record stored in the
    backend, with nothing pending, receives any sequence of field writes
    (values, parameters, intermediate values, user and system attributes)
    through the caching wrapper and is then finished.  The record the backend
    holds for the trial afterwards is the record it holds when the same writes
    and the same finishing [set_trial_state] are issued on the backend itself,
    without the wrapper. *)
Theorem flush_batching_is_transparent now w i sid n st st_b t ws fin :
  cached_slot w i sid (Z.of_nat n) st t ->
  state t = RUNNING ->
  Cached.updates st !! Z.of_nat n = None ->
  im_slot (Cached._backend w) i sid n st_b t ->
  (∀ p dc, Cached.param_distribution st !! p = Some dc ->
           ∃ db, InMemory.param_distribution st_b !! p = Some db ∧
                 compatible dc db) ->
  Forall field_write ws ->
  is_finished fin = true ->
  ∃ r,
    (InMemory.get_trial i
       (Cached._backend
          (Cached.set_trial_state now i fin
             (apply_writes (cached_write now i) ws w)).2)).1 = Ok r ∧
    (InMemory.get_trial i
       (InMemory.set_trial_state now i fin
          (apply_writes (im_write now i) ws (Cached._backend w))).2).1 = Ok r ∧
    state r = fin.
Proof.
  intros Hslot Hrun Hupd Hback Hcache Hws Hfin.
  apply (flush_sim_finish now i sid n); [|exact Hfin].
  apply flush_sim_writes; [exact Hws|].
  exact (flush_sim_init _ _ _ _ _ _ _ Hslot Hrun Hupd Hback Hcache).
Qed.

End FlushBatching.

Section FlushBatchingExamples.
#[local] Existing Instance concrete_externals.

Lemma concrete_compatible_equivalence :
  Equivalence (@compatible concrete_externals).
Proof.
  unfold compatible. simpl. split.
  - intros a. apply String.eqb_refl.
  - intros a b Hab. apply String.eqb_eq in Hab as ->. apply String.eqb_refl.
  - intros a b c Hab Hbc. apply String.eqb_eq in Hab as ->. exact Hbc.
Qed.

Lemma flush_batching_is_transparent_witness :
  (cached_slot Ex.cached_running 0 0 (Z.of_nat 0) Ex.cached_running_study Ex.trial0 ∧
   state Ex.trial0 = RUNNING ∧
   Cached.updates Ex.cached_running_study !! Z.of_nat 0 = None ∧
   im_slot (Cached._backend Ex.cached_running) 0 0 0 Ex.im_running_study Ex.trial0 ∧
   Forall field_write Ex.field_writes ∧
   is_finished COMPLETE = true) ∧
  ∃ r,
    (InMemory.get_trial 0
       (Cached._backend
          (Cached.set_trial_state 200 0 COMPLETE
             (apply_writes (cached_write 200 0) Ex.field_writes
                Ex.cached_running)).2)).1 = Ok r ∧
    (InMemory.get_trial 0
       (InMemory.set_trial_state 200 0 COMPLETE
          (apply_writes (im_write 200 0) Ex.field_writes
             (Cached._backend Ex.cached_running))).2).1 = Ok r ∧
    state r = COMPLETE.
Proof.
  assert (Hback : im_slot (Cached._backend Ex.cached_running) 0 0 0
                    Ex.im_running_study Ex.trial0).
  { split; [vm_compute; reflexivity|]. split; vm_compute; reflexivity. }
  assert (Hws : Forall field_write Ex.field_writes).
  { unfold Ex.field_writes. repeat constructor. }
  split.
  - split; [exact cached_running_slot|]. split; [reflexivity|].
    split; [reflexivity|]. split; [exact Hback|]. split; [exact Hws|reflexivity].
  - apply (@flush_batching_is_transparent concrete_externals
             concrete_compatible_equivalence 200 Ex.cached_running 0 0 0%nat
             Ex.cached_running_study Ex.im_running_study Ex.trial0
             Ex.field_writes COMPLETE).
    + exact cached_running_slot.
    + reflexivity.
    + reflexivity.
    + exact Hback.
    + intros p dc Hp. unfold Ex.cached_running_study in Hp. simpl in Hp.
      rewrite lookup_empty in Hp. discriminate.
    + exact Hws.
    + reflexivity.
Defined.

(** The wrapper and the direct writes of the example leave this record. *)
Lemma flush_batching_example_record :
  (InMemory.get_trial 0
     (Cached._backend
        (Cached.set_trial_state 200 0 COMPLETE
           (apply_writes (cached_write 200 0) Ex.field_writes
              Ex.cached_running)).2)).1 =
  (InMemory.get_trial 0
     (InMemory.set_trial_state 200 0 COMPLETE
        (apply_writes (im_write 200 0) Ex.field_writes
           (Cached._backend Ex.cached_running))).2).1 ∧
  (state <$>
   (match (InMemory.get_trial 0
             (InMemory.set_trial_state 200 0 COMPLETE
                (apply_writes (im_write 200 0) Ex.field_writes
                   (Cached._backend Ex.cached_running))).2).1 with
    | Ok r => Some r
    | Raise _ => None
    end)) = Some COMPLETE.
Proof. split; vm_compute; reflexivity. Qed.

End FlushBatchingExamples.

(** * Further properties of the in-memory storage *)

Section InMemoryStudies.
Context `{!Externals}.

Lemma im_check_study_id_run s sid st :
  InMemory.studies s !! sid = Some st ->
  InMemory._check_study_id sid s = (Ok tt, s).
Proof. intros Hst. unfold InMemory._check_study_id. mrun. reflexivity. Qed.

Lemma im_check_study_id_missing s sid :
  InMemory.studies s !! sid = None ->
  InMemory._check_study_id sid s = (Raise KeyError, s).
Proof. intros Hst. unfold InMemory._check_study_id. mrun. reflexivity. Qed.

(** A study created under a name that is not taken gets the next study id,
    is found under its name and its id, starts with the direction [NOT_SET]
    and without trials; the studies and names that existed are as before.
    Without a name the generated one is used. *)
Theorem im_create_new_study_round_trip s generated_name study_name :
  match study_name with
  | Some nm => InMemory.study_name_to_id s !! nm = None
  | None => True
  end ->
  (∀ sid, is_Some (InMemory.studies s !! sid) -> sid <= InMemory.max_study_id s) ->
  let nm := default generated_name study_name in
  let new_id := InMemory.max_study_id s + 1 in
  let out := InMemory.create_new_study generated_name study_name s in
  out.1 = NewStudy new_id ∧
  InMemory.get_study_id_from_name nm out.2 = (Ok new_id, out.2) ∧
  InMemory.get_study_name_from_id new_id out.2 = (Ok nm, out.2) ∧
  InMemory.get_study_directions new_id out.2 = (Ok [NOT_SET], out.2) ∧
  InMemory.get_all_trials new_id None out.2 = (Ok [], out.2) ∧
  (∀ sid st, InMemory.studies s !! sid = Some st ->
             InMemory.studies out.2 !! sid = Some st) ∧
  (∀ nm' sid, nm' ≠ nm -> InMemory.study_name_to_id s !! nm' = Some sid ->
              InMemory.get_study_id_from_name nm' out.2 = (Ok sid, out.2)).
Proof.
  intros Hnew Hmax nm new_id out.
  assert (Hout : out = (NewStudy new_id,
                        InMemory.mkInMemoryStorage
                          (InMemory.trial_id_to_study_id_and_number s)
                          (<[nm := new_id]> (InMemory.study_name_to_id s))
                          (<[new_id := InMemory.new_study_info nm]> (InMemory.studies s))
                          (InMemory.max_study_id s + 1) (InMemory.max_trial_id s))).
  { subst out nm new_id. unfold InMemory.create_new_study. simpl.
    destruct study_name as [n0|]; simpl; [|reflexivity].
    destruct (decide (is_Some (InMemory.study_name_to_id s !! n0))) as [Hs|_];
      [|reflexivity].
    rewrite Hnew in Hs. destruct Hs; discriminate. }
  rewrite Hout. simpl.
  assert (Hst : ∀ x, InMemory.studies
                 (InMemory.mkInMemoryStorage
                    (InMemory.trial_id_to_study_id_and_number s)
                    (<[nm := new_id]> (InMemory.study_name_to_id s))
                    (<[new_id := InMemory.new_study_info nm]> (InMemory.studies s))
                    x (InMemory.max_trial_id s)) !! new_id =
               Some (InMemory.new_study_info nm)) by (intros; apply lookup_insert_eq).
  split; [reflexivity|]. split.
  { unfold InMemory.get_study_id_from_name. munfold. simpl.
    rewrite lookup_insert_eq.
    destruct (decide (is_Some (Some new_id))) as [_|Hn]; [reflexivity|].
    exfalso. apply Hn. eauto. }
  split.
  { unfold InMemory.get_study_name_from_id.
    rewrite (run_bind_ok _ _ _ _ _ (im_check_study_id_run _ _ _ (Hst _))).
    unfold InMemory.study_at. mrun. rewrite lookup_insert_eq. reflexivity. }
  split.
  { unfold InMemory.get_study_directions.
    rewrite (run_bind_ok _ _ _ _ _ (im_check_study_id_run _ _ _ (Hst _))).
    unfold InMemory.study_at. mrun. rewrite lookup_insert_eq. reflexivity. }
  split.
  { unfold InMemory.get_all_trials.
    rewrite (run_bind_ok _ _ _ _ _ (im_check_study_id_run _ _ _ (Hst _))).
    unfold InMemory.study_at. mrun. rewrite lookup_insert_eq. reflexivity. }
  split.
  { intros sid st Hsid. rewrite lookup_insert_ne; [exact Hsid|].
    intros <-. assert (new_id <= InMemory.max_study_id s) by (apply Hmax; eauto).
    subst new_id. lia. }
  intros nm' sid Hne Hsid.
  unfold InMemory.get_study_id_from_name. munfold. simpl.
  rewrite lookup_insert_ne by congruence. rewrite Hsid.
  destruct (decide (is_Some (Some sid))) as [_|Hn]; [reflexivity|].
  exfalso. apply Hn. eauto.
Qed.

(** A creation rejected for a duplicate name changes nothing but the study
    id counter, which it has advanced: the id it would have given is never
    used, the next study gets the one after it. *)
Theorem im_duplicate_study_name_consumes_an_id s generated_name nm sid0 nm2 :
  InMemory.study_name_to_id s !! nm = Some sid0 ->
  InMemory.study_name_to_id s !! nm2 = None ->
  let out := InMemory.create_new_study generated_name (Some nm) s in
  out.1 = DuplicatedStudyError ∧
  InMemory.studies out.2 = InMemory.studies s ∧
  InMemory.study_name_to_id out.2 = InMemory.study_name_to_id s ∧
  InMemory.trial_id_to_study_id_and_number out.2 =
    InMemory.trial_id_to_study_id_and_number s ∧
  InMemory.max_study_id out.2 = InMemory.max_study_id s + 1 ∧
  (InMemory.create_new_study generated_name (Some nm2) s).1 =
    NewStudy (InMemory.max_study_id s + 1) ∧
  (InMemory.create_new_study generated_name (Some nm2) out.2).1 =
    NewStudy (InMemory.max_study_id s + 2).
Proof.
  intros Hnm Hnm2 out. subst out. unfold InMemory.create_new_study. simpl.
  rewrite Hnm, Hnm2.
  destruct (decide (is_Some (Some sid0))) as [_|Hn]; [|exfalso; apply Hn; eauto].
  destruct (decide (is_Some (@None Z))) as [[? Hs]|_]; [discriminate|].
  simpl. rewrite Hnm2.
  destruct (decide (is_Some (@None Z))) as [[? Hs]|_]; [discriminate|].
  simpl. repeat split; try reflexivity. f_equal. lia.
Qed.

Lemma im_set_directions_same st :
  InMemory.set_directions (InMemory.directions st) st = st.
Proof. destruct st; reflexivity. Qed.

Lemma im_set_studies_same s sid st :
  InMemory.studies s !! sid = Some st ->
  InMemory.set_studies (<[sid := st]> (InMemory.studies s)) s = s.
Proof.
  intros Hst. unfold InMemory.set_studies. rewrite insert_id by exact Hst.
  destruct s; reflexivity.
Qed.

(** Once the directions of a study start with something else than [NOT_SET]
    they are fixed: asking for the same directions again is accepted and
    changes nothing, asking for any other directions raises [ValueError] and
    changes nothing. *)
Theorem im_study_directions_are_set_once s sid st d0 rest ds :
  InMemory.studies s !! sid = Some st ->
  InMemory.directions st = d0 :: rest ->
  d0 ≠ NOT_SET ->
  InMemory.set_study_directions sid (d0 :: rest) s = (Ok tt, s) ∧
  (ds ≠ d0 :: rest ->
   InMemory.set_study_directions sid ds s = (Raise ValueError, s)).
Proof.
  intros Hst Hd Hd0. unfold InMemory.set_study_directions.
  rewrite !(run_bind_ok _ _ _ _ _ (im_check_study_id_run _ _ _ Hst)).
  unfold InMemory.study_at. mrun. rewrite Hd. simpl. split.
  - destruct (decide (d0 ≠ NOT_SET ∧ d0 :: rest ≠ d0 :: rest)) as [[_ Hn]|_];
      [congruence|].
    unfold InMemory.put_study. munfold. f_equal.
    rewrite <- Hd, im_set_directions_same. apply im_set_studies_same. exact Hst.
  - intros Hne.
    destruct (decide (d0 ≠ NOT_SET ∧ d0 :: rest ≠ ds)) as [_|Hn]; [reflexivity|].
    exfalso. apply Hn. split; congruence.
Qed.

(** While the directions of a study start with [NOT_SET], any directions are
    accepted and read back by [get_study_directions].  The empty list is
    accepted too, and after it every [set_study_directions] on the study
    raises [IndexError]. *)
Theorem im_first_study_directions s sid st rest ds :
  InMemory.studies s !! sid = Some st ->
  InMemory.directions st = NOT_SET :: rest ->
  let out := InMemory.set_study_directions sid ds s in
  out.1 = Ok tt ∧
  InMemory.get_study_directions sid out.2 = (Ok ds, out.2) ∧
  (ds = [] ->
   ∀ ds', InMemory.set_study_directions sid ds' out.2 = (Raise IndexError, out.2)).
Proof.
  intros Hst Hd out.
  assert (Hout : out = (Ok tt, InMemory.set_studies
                          (<[sid := InMemory.set_directions ds st]>
                             (InMemory.studies s)) s)).
  { subst out. unfold InMemory.set_study_directions.
    rewrite (run_bind_ok _ _ _ _ _ (im_check_study_id_run _ _ _ Hst)).
    unfold InMemory.study_at. mrun. rewrite Hd. simpl.
    destruct (decide (NOT_SET ≠ NOT_SET ∧ NOT_SET :: rest ≠ ds)) as [[Hn _]|_];
      [congruence|reflexivity]. }
  rewrite Hout. simpl.
  set (s' := InMemory.set_studies _ s).
  assert (Hst' : InMemory.studies s' !! sid = Some (InMemory.set_directions ds st))
    by apply lookup_insert_eq.
  split; [reflexivity|]. split.
  - unfold InMemory.get_study_directions.
    rewrite (run_bind_ok _ _ _ _ _ (im_check_study_id_run _ _ _ Hst')).
    rewrite (run_bind_ok _ _ _ _ _ (im_study_at_run _ _ _ Hst')).
    reflexivity.
  - intros -> ds'. unfold InMemory.set_study_directions.
    rewrite (run_bind_ok _ _ _ _ _ (im_check_study_id_run _ _ _ Hst')).
    rewrite (run_bind_ok _ _ _ _ _ (im_study_at_run _ _ _ Hst')).
    reflexivity.
Qed.

(** A study attribute that was set is read back under its key; the other
    keys, the attributes of the other kind and the trials of the study are
    as before. *)
Theorem im_study_attr_round_trip s sid st key v :
  InMemory.studies s !! sid = Some st ->
  let out_u := InMemory.set_study_user_attr sid key v s in
  let out_s := InMemory.set_study_system_attr sid key v s in
  out_u.1 = Ok tt ∧
  InMemory.get_study_user_attrs sid out_u.2 =
    (Ok (<[key := v]> (InMemory.study_user_attrs st)), out_u.2) ∧
  InMemory.get_study_system_attrs sid out_u.2 =
    (Ok (InMemory.study_system_attrs st), out_u.2) ∧
  InMemory.get_all_trials sid None out_u.2 = (Ok (InMemory.trials st), out_u.2) ∧
  out_s.1 = Ok tt ∧
  InMemory.get_study_system_attrs sid out_s.2 =
    (Ok (<[key := v]> (InMemory.study_system_attrs st)), out_s.2) ∧
  InMemory.get_study_user_attrs sid out_s.2 =
    (Ok (InMemory.study_user_attrs st), out_s.2) ∧
  InMemory.get_all_trials sid None out_s.2 = (Ok (InMemory.trials st), out_s.2).
Proof.
  intros Hst out_u out_s. subst out_u out_s.
  unfold InMemory.set_study_user_attr, InMemory.set_study_system_attr.
  rewrite !(run_bind_ok _ _ _ _ _ (im_check_study_id_run _ _ _ Hst)).
  rewrite !(run_bind_ok _ _ _ _ _ (im_study_at_run _ _ _ Hst)).
  rewrite !im_put_study_run. simpl.
  repeat split;
    unfold InMemory.get_study_user_attrs, InMemory.get_study_system_attrs,
      InMemory.get_all_trials;
    (erewrite run_bind_ok;
     [|eapply im_check_study_id_run; apply lookup_insert_eq]);
    (erewrite run_bind_ok;
     [|eapply im_study_at_run; apply lookup_insert_eq]);
    reflexivity.
Qed.

(** Every method that takes a study id raises [KeyError] on an id that is
    not stored, and leaves the storage as it was. *)
Theorem im_missing_study_is_a_key_error s sid :
  InMemory.studies s !! sid = None ->
  (∀ ds, InMemory.set_study_directions sid ds s = (Raise KeyError, s)) ∧
  (∀ key v, InMemory.set_study_user_attr sid key v s = (Raise KeyError, s)) ∧
  (∀ key v, InMemory.set_study_system_attr sid key v s = (Raise KeyError, s)) ∧
  InMemory.get_study_name_from_id sid s = (Raise KeyError, s) ∧
  InMemory.get_study_directions sid s = (Raise KeyError, s) ∧
  InMemory.get_study_user_attrs sid s = (Raise KeyError, s) ∧
  InMemory.get_study_system_attrs sid s = (Raise KeyError, s) ∧
  (∀ now template, InMemory.create_new_trial now sid template s = (Raise KeyError, s)) ∧
  (∀ n, InMemory.get_trial_id_from_study_id_trial_number sid n s = (Raise KeyError, s)) ∧
  InMemory.get_best_trial sid s = (Raise KeyError, s) ∧
  (∀ states, InMemory.get_all_trials sid states s = (Raise KeyError, s)) ∧
  InMemory.read_trials_from_remote_storage sid s = (Raise KeyError, s) ∧
  InMemory.delete_study sid s = (Raise KeyError, s).
Proof.
  intros Hst. pose proof (im_check_study_id_missing _ _ Hst) as Hc.
  repeat split; intros;
    unfold InMemory.set_study_directions, InMemory.set_study_user_attr,
      InMemory.set_study_system_attr, InMemory.get_study_name_from_id,
      InMemory.get_study_directions, InMemory.get_study_user_attrs,
      InMemory.get_study_system_attrs, InMemory.create_new_trial,
      InMemory.get_best_trial, InMemory.get_all_trials,
      InMemory.read_trials_from_remote_storage, InMemory.delete_study;
    rewrite ?(run_bind_raise _ _ _ _ _ Hc); try reflexivity; try exact Hc.
  unfold InMemory.get_trial_id_from_study_id_trial_number. mrun. reflexivity.
Qed.

End InMemoryStudies.

Section InMemoryStudiesExamples.
#[local] Existing Instance concrete_externals.

Lemma im_create_new_study_round_trip_witness :
  InMemory.study_name_to_id Ex.im_one_study !! "t" = None ∧
  (InMemory.create_new_study "no-name-0" (Some "t") Ex.im_one_study).1 = NewStudy 1 ∧
  InMemory.get_study_id_from_name "t"
    (InMemory.create_new_study "no-name-0" (Some "t") Ex.im_one_study).2 =
    (Ok 1, (InMemory.create_new_study "no-name-0" (Some "t") Ex.im_one_study).2).
Proof.
  assert (Hmax : ∀ sid, is_Some (InMemory.studies Ex.im_one_study !! sid) ->
                        sid <= InMemory.max_study_id Ex.im_one_study).
  { intros sid [st Hst]. unfold Ex.im_one_study in *. simpl in *.
    destruct (decide (sid = 0)) as [->|Hne]; [lia|].
    rewrite lookup_singleton_ne in Hst by congruence. discriminate. }
  split; [reflexivity|].
  destruct (im_create_new_study_round_trip Ex.im_one_study "no-name-0" (Some "t")
              eq_refl Hmax) as (H1 & H2 & _).
  split; [exact H1|exact H2].
Defined.

Lemma im_duplicate_study_name_consumes_an_id_witness :
  (InMemory.study_name_to_id Ex.im_one_study !! "s" = Some 0 ∧
   InMemory.study_name_to_id Ex.im_one_study !! "t" = None) ∧
  (InMemory.create_new_study "no-name-0" (Some "s") Ex.im_one_study).1 =
    DuplicatedStudyError ∧
  (InMemory.create_new_study "no-name-0" (Some "t")
     (InMemory.create_new_study "no-name-0" (Some "s") Ex.im_one_study).2).1 =
    NewStudy 2.
Proof.
  split; [split; reflexivity|].
  destruct (im_duplicate_study_name_consumes_an_id Ex.im_one_study "no-name-0"
              "s" 0 "t" eq_refl eq_refl) as (H1 & _ & _ & _ & _ & _ & H2).
  split; [exact H1|exact H2].
Defined.

Lemma im_study_directions_are_set_once_witness :
  (InMemory.studies Ex.im_two_min !! 0 = Some Ex.im_two_min_study ∧
   InMemory.directions Ex.im_two_min_study = [MINIMIZE] ∧ MINIMIZE ≠ NOT_SET ∧
   [MAXIMIZE] ≠ [MINIMIZE]) ∧
  InMemory.set_study_directions 0 [MINIMIZE] Ex.im_two_min = (Ok tt, Ex.im_two_min) ∧
  InMemory.set_study_directions 0 [MAXIMIZE] Ex.im_two_min =
    (Raise ValueError, Ex.im_two_min).
Proof.
  assert (H0 : InMemory.studies Ex.im_two_min !! 0 = Some Ex.im_two_min_study)
    by (vm_compute; reflexivity).
  assert (Hne : MINIMIZE ≠ NOT_SET) by discriminate.
  assert (Hds : [MAXIMIZE] ≠ [MINIMIZE]) by discriminate.
  split; [exact (conj H0 (conj eq_refl (conj Hne Hds)))|].
  destruct (im_study_directions_are_set_once Ex.im_two_min 0 Ex.im_two_min_study
              MINIMIZE [] [MAXIMIZE] H0 eq_refl Hne) as [H1 H2].
  split; [exact H1|exact (H2 Hds)].
Defined.

Lemma im_first_study_directions_witness :
  (InMemory.studies Ex.im_one_study !! 0 = Some (InMemory.new_study_info "s") ∧
   InMemory.directions (InMemory.new_study_info "s") = [NOT_SET]) ∧
  (InMemory.set_study_directions 0 [] Ex.im_one_study).1 = Ok tt ∧
  InMemory.set_study_directions 0 [MINIMIZE]
    (InMemory.set_study_directions 0 [] Ex.im_one_study).2 =
    (Raise IndexError, (InMemory.set_study_directions 0 [] Ex.im_one_study).2).
Proof.
  assert (H0 : InMemory.studies Ex.im_one_study !! 0 =
               Some (InMemory.new_study_info "s")) by reflexivity.
  split; [split; [exact H0|reflexivity]|].
  destruct (im_first_study_directions Ex.im_one_study 0 _ [] [] H0 eq_refl)
    as (H1 & _ & H3).
  split; [exact H1|exact (H3 eq_refl [MINIMIZE])].
Defined.

Lemma im_study_attr_round_trip_witness :
  InMemory.studies Ex.im_one_study !! 0 = Some (InMemory.new_study_info "s") ∧
  InMemory.get_study_user_attrs 0
    (InMemory.set_study_user_attr 0 "k" "v" Ex.im_one_study).2 =
    (Ok {["k" := "v"]}, (InMemory.set_study_user_attr 0 "k" "v" Ex.im_one_study).2).
Proof.
  assert (H0 : InMemory.studies Ex.im_one_study !! 0 =
               Some (InMemory.new_study_info "s")) by reflexivity.
  split; [exact H0|].
  destruct (im_study_attr_round_trip Ex.im_one_study 0 _ "k" "v" H0)
    as (_ & H2 & _).
  exact H2.
Defined.

Lemma im_missing_study_is_a_key_error_witness :
  InMemory.studies Ex.im_one_study !! 7 = None ∧
  InMemory.delete_study 7 Ex.im_one_study = (Raise KeyError, Ex.im_one_study) ∧
  InMemory.get_trial_id_from_study_id_trial_number 7 0 Ex.im_one_study =
    (Raise KeyError, Ex.im_one_study).
Proof.
  assert (H7 : InMemory.studies Ex.im_one_study !! 7 = None) by reflexivity.
  split; [exact H7|].
  destruct (im_missing_study_is_a_key_error Ex.im_one_study 7 H7)
    as (_ & _ & _ & _ & _ & _ & _ & _ & H9 & _ & _ & _ & H13).
  split; [exact H13|exact (H9 0)].
Defined.

End InMemoryStudiesExamples.

(** * The index of the in-memory storage stays consistent *)

Section InMemoryWf.
Context `{!Externals}.

Lemma same_identity_refl t : same_identity t t.
Proof. split; reflexivity. Qed.

Lemma same_identity_trans t1 t2 t3 :
  same_identity t1 t2 -> same_identity t2 t3 -> same_identity t1 t3.
Proof. intros [H1 H2] [H3 H4]. split; congruence. Qed.

Lemma same_study_shape_refl st : same_study_shape st st.
Proof.
  split; [reflexivity|]. apply Forall2_same_length_lookup_2; [reflexivity|].
  intros i x y Hx Hy. rewrite Hx in Hy. injection Hy as <-.
  apply same_identity_refl.
Qed.

Lemma same_study_shape_trans st1 st2 st3 :
  same_study_shape st1 st2 -> same_study_shape st2 st3 -> same_study_shape st1 st3.
Proof.
  intros [Hn1 Ht1] [Hn2 Ht2]. split; [congruence|].
  eapply Forall2_trans; [|exact Ht1|exact Ht2].
  intros x y z. apply same_identity_trans.
Qed.

#[local] Instance im_rewrites_preorder : PreOrder im_rewrites.
Proof.
  split.
  - intros s. repeat split; try reflexivity.
    intros sid. destruct (InMemory.studies s !! sid); constructor.
    apply same_study_shape_refl.
  - intros s1 s2 s3 (Hi1 & Hn1 & Hs1 & Ht1 & Hst1) (Hi2 & Hn2 & Hs2 & Ht2 & Hst2).
    repeat split; try congruence.
    intros sid. specialize (Hst1 sid). specialize (Hst2 sid).
    destruct Hst1 as [st1 st2 H12|]; inversion Hst2 as [? st3 H23|]; subst;
      constructor.
    eapply same_study_shape_trans; eauto.
Qed.

(** A rewritten storage is well formed when the storage it comes from is. *)
Lemma im_rewrites_wf s s' : im_wf s -> im_rewrites s s' -> im_wf s'.
Proof.
  intros [Hid Htr Hsty Hnm] (Hi & Hn & Hms & Hmt & Hst). split.
  - intros i sid n Hlook. rewrite Hi in Hlook.
    destruct (Hid i sid n Hlook) as (Hle & st & t & Hsid & Ht & Hti).
    split; [lia|]. specialize (Hst sid). rewrite Hsid in Hst.
    inversion Hst as [? st' [_ Hsh] Heq1 Heq2|]; subst.
    destruct (Forall2_lookup_l _ _ _ _ _ Hsh Ht) as (t' & Ht' & Hid' & _).
    exists st', t'. repeat split; congruence.
  - intros sid st' n t' Hsid' Ht'. rewrite Hi.
    specialize (Hst sid). rewrite Hsid' in Hst.
    inversion Hst as [st ? [_ Hsh] Heq1 Heq2|]; subst. symmetry in Heq1.
    destruct (Forall2_lookup_r _ _ _ _ _ Hsh Ht') as (t & Ht & Hid' & Hnum').
    destruct (Htr sid st n t Heq1 Ht) as [Hnum Hlook].
    rewrite Hid', Hnum'. auto.
  - intros sid st' Hsid'. rewrite Hn, Hms.
    specialize (Hst sid). rewrite Hsid' in Hst.
    inversion Hst as [st ? [Hname _] Heq1 Heq2|]; subst. symmetry in Heq1.
    rewrite Hname. apply Hsty. exact Heq1.
  - intros nm sid Hlook. rewrite Hn in Hlook.
    destruct (Hnm nm sid Hlook) as (st & Hsid & Hname).
    specialize (Hst sid). rewrite Hsid in Hst.
    inversion Hst as [? st' [Hname' _] Heq1 Heq2|]; subst.
    exists st'. split; congruence.
Qed.

(** Replacing a study by one of the same shape. *)
Lemma im_put_study_rewrites s sid st st' :
  InMemory.studies s !! sid = Some st ->
  same_study_shape st st' ->
  im_rewrites s (InMemory.set_studies (<[sid := st']> (InMemory.studies s)) s).
Proof.
  intros Hst Hsh. repeat split; try reflexivity.
  intros sid'. simpl. destruct (decide (sid = sid')) as [<-|Hne].
  - rewrite lookup_insert_eq, Hst. constructor. exact Hsh.
  - rewrite lookup_insert_ne by exact Hne.
    destruct (InMemory.studies s !! sid'); constructor.
    apply same_study_shape_refl.
Qed.

Lemma im_store_rewrites s i sid n st t t' :
  im_slot s i sid n st t ->
  same_identity t t' ->
  im_rewrites s (im_store s sid n st t').
Proof.
  intros (Hid & Hst & Ht) Hsame. apply (im_put_study_rewrites _ _ st); [exact Hst|].
  split; [reflexivity|]. simpl.
  apply Forall2_same_length_lookup_2; [rewrite length_insert; reflexivity|].
  intros m x y Hx Hy. destruct (decide (n = m)) as [<-|Hne].
  - rewrite list_lookup_insert_eq in Hy by (eapply lookup_lt_Some; eauto).
    rewrite Ht in Hx. injection Hx as <-. injection Hy as <-. exact Hsame.
  - rewrite list_lookup_insert_ne in Hy by exact Hne.
    rewrite Hx in Hy. injection Hy as <-. apply same_identity_refl.
Qed.

Lemma im_registered_rewrites s sid st p dist :
  InMemory.studies s !! sid = Some st ->
  im_rewrites s (im_registered s sid st p dist).
Proof.
  intros Hst. apply (im_put_study_rewrites _ _ st); [exact Hst|].
  destruct (same_study_shape_refl st) as [_ Hsh]. split; [reflexivity|exact Hsh].
Qed.

Lemma im_assign_best_rewrites sid ptr :
  preserves im_rewrites (InMemory.assign_best sid ptr).
Proof.
  intros s o s'. unfold InMemory.assign_best, InMemory.study_at, InMemory.put_study.
  destruct (InMemory.studies s !! sid) as [st|] eqn:Hst; mrun.
  - intros [= _ <-]. apply (im_put_study_rewrites _ _ st); [exact Hst|].
    destruct (same_study_shape_refl st) as [_ Hsh]. split; [reflexivity|exact Hsh].
  - intros [= _ <-]. reflexivity.
Qed.

Lemma im_get_trial_rewrites i : preserves im_rewrites (InMemory._get_trial i).
Proof.
  intros s o s' Hg. apply im_get_trial_state in Hg as ->. reflexivity.
Qed.

Lemma im_check_trial_id_rewrites i :
  preserves im_rewrites (InMemory._check_trial_id i).
Proof. unfold InMemory._check_trial_id. preserves_auto. Qed.

Lemma im_id_entry_rewrites i : preserves im_rewrites (InMemory.id_entry i).
Proof. unfold InMemory.id_entry. preserves_auto. Qed.

Lemma im_update_cache_rewrites i sid :
  preserves im_rewrites (InMemory._update_cache i sid).
Proof.
  unfold InMemory._update_cache, InMemory.get_study_directions,
    InMemory._check_study_id, InMemory.study_at.
  preserves_auto;
    first [apply im_get_trial_rewrites | apply im_assign_best_rewrites].
Qed.

(** A method of the shape "read the trial, then go on with it". *)
Lemma im_get_modify_rewrites {A} i (k : FrozenTrial -> M InMemory.InMemoryStorage A) :
  (∀ s sid n st t, im_slot s i sid n st t ->
                   ∀ o s', k t s = (o, s') -> im_rewrites s s') ->
  preserves im_rewrites (InMemory._get_trial i ≫= k).
Proof.
  intros Hk s o s'. rewrite run_bind.
  destruct (InMemory._get_trial i s) as [[t|e] s1] eqn:Hg.
  - apply im_get_trial_inv in Hg as (-> & sid & n & st & Hslot).
    apply (Hk _ _ _ _ _ Hslot).
  - apply im_get_trial_state in Hg as ->. intros [= _ <-]. reflexivity.
Qed.

Lemma im_set_trial_rewrites s i sid n st t t' o s' :
  im_slot s i sid n st t ->
  same_identity t t' ->
  InMemory._set_trial i t' s = (o, s') ->
  im_rewrites s s'.
Proof.
  intros Hslot Hsame. rewrite (im_set_trial_slot _ _ _ _ _ _ t' Hslot).
  intros [= _ <-]. apply (im_store_rewrites _ _ _ _ _ _ _ Hslot Hsame).
Qed.

Lemma im_set_trial_values_rewrites i vs :
  preserves im_rewrites (InMemory.set_trial_values i vs).
Proof.
  apply im_get_modify_rewrites. intros s sid n st t Hslot o s'.
  unfold check_trial_is_updatable.
  destruct (is_finished (state t)); munfold; simpl.
  - intros [= _ <-]. reflexivity.
  - apply (im_set_trial_rewrites _ _ _ _ _ _ _ _ _ Hslot). split; reflexivity.
Qed.

Lemma im_set_trial_intermediate_value_rewrites i step iv :
  preserves im_rewrites (InMemory.set_trial_intermediate_value i step iv).
Proof.
  apply im_get_modify_rewrites. intros s sid n st t Hslot o s'.
  unfold check_trial_is_updatable.
  destruct (is_finished (state t)); munfold; simpl.
  - intros [= _ <-]. reflexivity.
  - apply (im_set_trial_rewrites _ _ _ _ _ _ _ _ _ Hslot). split; reflexivity.
Qed.

Lemma im_set_trial_system_attr_rewrites i key v :
  preserves im_rewrites (InMemory.set_trial_system_attr i key v).
Proof.
  apply im_get_modify_rewrites. intros s sid n st t Hslot o s'.
  unfold check_trial_is_updatable.
  destruct (is_finished (state t)); munfold; simpl.
  - intros [= _ <-]. reflexivity.
  - apply (im_set_trial_rewrites _ _ _ _ _ _ _ _ _ Hslot). split; reflexivity.
Qed.

Lemma im_set_trial_user_attr_rewrites i key v :
  preserves im_rewrites (InMemory.set_trial_user_attr i key v).
Proof.
  unfold InMemory.set_trial_user_attr.
  refine (preserves_bind _ _ _ (im_check_trial_id_rewrites i) _). intros [].
  apply im_get_modify_rewrites. intros s sid n st t Hslot o s'.
  unfold check_trial_is_updatable.
  destruct (is_finished (state t)); munfold; simpl.
  - intros [= _ <-]. reflexivity.
  - apply (im_set_trial_rewrites _ _ _ _ _ _ _ _ _ Hslot). split; reflexivity.
Qed.

Lemma im_set_trial_param_rewrites i p v dist :
  preserves im_rewrites (InMemory.set_trial_param i p v dist).
Proof.
  intros s o s'.
  destruct (InMemory._get_trial i s) as [[t|e] s1] eqn:Hg.
  - pose proof Hg as Hg'.
    apply im_get_trial_inv in Hg' as (-> & sid & n & st & Hslot).
    destruct (is_finished (state t)) eqn:Hf.
    + destruct (im_ops_finished 0 i s t Hg Hf) as (_ & _ & Hp & _).
      rewrite Hp. intros [= _ <-]. reflexivity.
    + rewrite (im_set_trial_param_run _ _ _ _ _ _ p v dist Hslot Hf).
      destruct (match InMemory.param_distribution st !! p with
                | Some d_old => check_distribution_compatibility d_old dist
                | None => true
                end).
      * intros [= _ <-]. pose proof Hslot as (_ & Hst & _).
        transitivity (im_registered s sid st p dist);
          [apply im_registered_rewrites; exact Hst|].
        apply (im_store_rewrites _ i _ _ _ t);
          [apply im_registered_slot; exact Hslot|split; reflexivity].
      * intros [= _ <-]. reflexivity.
  - unfold InMemory.set_trial_param. rewrite (run_bind_raise _ _ _ _ _ Hg).
    apply im_get_trial_state in Hg as ->. intros [= _ <-]. reflexivity.
Qed.

Lemma im_set_trial_state_rewrites now i new_state :
  preserves im_rewrites (InMemory.set_trial_state now i new_state).
Proof.
  apply im_get_modify_rewrites. intros s sid n st t Hslot o s'.
  unfold check_trial_is_updatable.
  destruct (is_finished (state t)).
  { munfold. simpl. intros [= _ <-]. reflexivity. }
  rewrite run_bind. unfold lift at 1. rewrite run_bind. unfold lift at 1.
  destruct (decide (new_state = RUNNING ∧ state t ≠ WAITING)) as [_|_].
  { intros [= _ <-]. reflexivity. }
  destruct (is_finished new_state).
  - erewrite run_bind_ok; [|apply (im_set_trial_slot _ _ _ _ _ _ _ Hslot)].
    erewrite run_bind_ok;
      [|eapply im_id_entry_slot, im_store_slot; exact Hslot].
    cbv beta iota. rewrite run_bind.
    set (t' := set_datetime_complete _ _).
    assert (Hsame : same_identity t t')
      by (subst t'; destruct (decide (new_state = RUNNING)); split; reflexivity).
    intros Hrun.
    transitivity (im_store s sid n st t');
      [apply (im_store_rewrites _ _ _ _ _ _ _ Hslot Hsame)|].
    destruct (InMemory._update_cache i sid _) as [[[]|e] s1] eqn:Hc;
      injection Hrun as _ <-; exact (im_update_cache_rewrites _ _ _ _ _ Hc).
  - erewrite run_bind_ok; [|apply (im_set_trial_slot _ _ _ _ _ _ _ Hslot)].
    intros [= _ <-].
    apply (im_store_rewrites _ _ _ _ _ _ _ Hslot).
    destruct (decide (new_state = RUNNING)); split; reflexivity.
Qed.

(** A write to a trial keeps the indexes, the counters, the names of the
    studies and the identity of every stored trial. *)
Lemma im_write_rewrites now i wr : preserves im_rewrites (im_write now i wr).
Proof.
  destruct wr; unfold im_write;
    [apply im_set_trial_state_rewrites|..];
    (refine (preserves_bind _ _ _ _ _); [|intros ?; apply preserves_ret; typeclasses eauto]).
  - apply im_set_trial_values_rewrites.
  - apply im_set_trial_param_rewrites.
  - apply im_set_trial_intermediate_value_rewrites.
  - apply im_set_trial_user_attr_rewrites.
  - apply im_set_trial_system_attr_rewrites.
Qed.

Lemma im_study_update_rewrites sid (f : InMemory.StudyInfo -> InMemory.StudyInfo) :
  (∀ st, InMemory.name (f st) = InMemory.name st) ->
  (∀ st, InMemory.trials (f st) = InMemory.trials st) ->
  preserves im_rewrites
    (st ← InMemory.study_at sid; InMemory.put_study sid (f st)).
Proof.
  intros Hn Ht s o s'. unfold InMemory.study_at, InMemory.put_study.
  destruct (InMemory.studies s !! sid) as [st|] eqn:Hst; mrun.
  - intros [= _ <-]. apply (im_put_study_rewrites _ _ st); [exact Hst|].
    destruct (same_study_shape_refl st) as [_ Hsh].
    split; [apply Hn|rewrite Ht; exact Hsh].
  - intros [= _ <-]. reflexivity.
Qed.

Lemma im_check_study_id_rewrites sid :
  preserves im_rewrites (InMemory._check_study_id sid).
Proof. unfold InMemory._check_study_id. preserves_auto. Qed.

Lemma im_set_study_user_attr_rewrites sid key v :
  preserves im_rewrites (InMemory.set_study_user_attr sid key v).
Proof.
  unfold InMemory.set_study_user_attr.
  refine (preserves_bind _ _ _ (im_check_study_id_rewrites sid) _). intros [].
  apply (im_study_update_rewrites sid
           (fun st => InMemory.set_study_user_attrs
                        (<[key := v]> (InMemory.study_user_attrs st)) st));
    reflexivity.
Qed.

Lemma im_set_study_system_attr_rewrites sid key v :
  preserves im_rewrites (InMemory.set_study_system_attr sid key v).
Proof.
  unfold InMemory.set_study_system_attr.
  refine (preserves_bind _ _ _ (im_check_study_id_rewrites sid) _). intros [].
  apply (im_study_update_rewrites sid
           (fun st => InMemory.set_study_system_attrs
                        (<[key := v]> (InMemory.study_system_attrs st)) st));
    reflexivity.
Qed.

Lemma im_set_study_directions_rewrites sid ds :
  preserves im_rewrites (InMemory.set_study_directions sid ds).
Proof.
  unfold InMemory.set_study_directions.
  refine (preserves_bind _ _ _ (im_check_study_id_rewrites sid) _). intros [].
  intros s o s'. unfold InMemory.study_at, InMemory.put_study.
  destruct (InMemory.studies s !! sid) as [st|] eqn:Hst; mrun.
  - destruct (InMemory.directions st !! 0%nat) as [d0|]; simpl.
    + destruct (decide (d0 ≠ NOT_SET ∧ InMemory.directions st ≠ ds)).
      * intros [= _ <-]. reflexivity.
      * mrun. intros [= _ <-]. apply (im_put_study_rewrites _ _ st); [exact Hst|].
        destruct (same_study_shape_refl st) as [_ Hsh].
        split; [reflexivity|exact Hsh].
    + intros [= _ <-]. reflexivity.
  - intros [= _ <-]. reflexivity.
Qed.

(** *** Creating a trial *)

Lemma im_create_new_trial_run now sid template s st :
  InMemory.studies s !! sid = Some st ->
  InMemory.create_new_trial now sid template s =
  match InMemory._update_cache (InMemory.max_trial_id s + 1) sid
          (im_appended s sid st (template_or_running now template)) with
  | (Ok _, s') => (Ok (InMemory.max_trial_id s + 1), s')
  | (Raise e, s') => (Raise e, s')
  end.
Proof.
  intros Hst. unfold InMemory.create_new_trial.
  rewrite (run_bind_ok _ _ _ _ _ (im_check_study_id_run _ _ _ Hst)).
  unfold InMemory.study_at at 1, InMemory.put_study. mrun.
  unfold im_appended, im_new_record, template_or_running, InMemory.set_studies.
  simpl. reflexivity.
Qed.

Lemma im_appended_wf s sid st trial :
  im_wf s ->
  InMemory.studies s !! sid = Some st ->
  im_wf (im_appended s sid st trial).
Proof.
  intros [Hid Htr Hsty Hnm] Hst.
  assert (Hfresh : ∀ sid' st' n t, InMemory.studies s !! sid' = Some st' ->
                     InMemory.trials st' !! n = Some t ->
                     trial_id t ≠ InMemory.max_trial_id s + 1).
  { intros sid' st' n t Hs' Ht.
    destruct (Htr _ _ _ _ Hs' Ht) as [_ Hlook].
    destruct (Hid _ _ _ Hlook) as [Hle _]. lia. }
  split; unfold im_appended; simpl.
  - intros i sid' n Hlook.
    destruct (decide (i = InMemory.max_trial_id s + 1)) as [->|Hne].
    + rewrite lookup_insert_eq in Hlook. injection Hlook as <- <-.
      split; [lia|].
      exists (InMemory.set_trials
                (InMemory.trials st ++ [im_new_record s st trial]) st),
             (im_new_record s st trial).
      split; [apply lookup_insert_eq|]. split; [|reflexivity].
      cbn [InMemory.trials InMemory.set_trials].
      rewrite lookup_app_r by reflexivity.
      rewrite Nat.sub_diag. reflexivity.
    + rewrite lookup_insert_ne in Hlook by congruence.
      destruct (Hid i sid' n Hlook) as (Hle & st' & t & Hs' & Ht & Hti).
      split; [lia|]. destruct (decide (sid = sid')) as [<-|Hns].
      * rewrite Hst in Hs'. injection Hs' as <-.
        eexists _, t. rewrite lookup_insert_eq. split; [reflexivity|].
        simpl. split; [|exact Hti].
        rewrite lookup_app_l by (eapply lookup_lt_Some; eauto). exact Ht.
      * exists st', t. rewrite lookup_insert_ne by exact Hns. auto.
  - intros sid' st' n t Hs' Ht.
    destruct (decide (sid = sid')) as [<-|Hns].
    + rewrite lookup_insert_eq in Hs'. injection Hs' as <-. simpl in Ht.
      destruct (decide (n < length (InMemory.trials st))%nat) as [Hlt|Hge].
      * rewrite lookup_app_l in Ht by exact Hlt.
        destruct (Htr _ _ _ _ Hst Ht) as [Hnum Hlook]. split; [exact Hnum|].
        rewrite lookup_insert_ne; [exact Hlook|].
        intros Heq. apply (Hfresh _ _ _ _ Hst Ht). congruence.
      * rewrite lookup_app_r in Ht by lia.
        destruct (n - length (InMemory.trials st))%nat as [|k] eqn:Hk;
          [|destruct k; discriminate].
        simpl in Ht. injection Ht as <-.
        assert (n = length (InMemory.trials st)) as -> by lia.
        split; [reflexivity|]. simpl. apply lookup_insert_eq.
    + rewrite lookup_insert_ne in Hs' by exact Hns.
      destruct (Htr _ _ _ _ Hs' Ht) as [Hnum Hlook]. split; [exact Hnum|].
      rewrite lookup_insert_ne; [exact Hlook|].
      intros Heq. apply (Hfresh _ _ _ _ Hs' Ht). congruence.
  - intros sid' st' Hs'.
    destruct (decide (sid = sid')) as [<-|Hns].
    + rewrite lookup_insert_eq in Hs'. injection Hs' as <-. simpl.
      apply Hsty. exact Hst.
    + rewrite lookup_insert_ne in Hs' by exact Hns. apply Hsty. exact Hs'.
  - intros nm sid' Hlook.
    destruct (Hnm nm sid' Hlook) as (st' & Hs' & Hname).
    destruct (decide (sid = sid')) as [<-|Hns].
    + rewrite Hst in Hs'. injection Hs' as <-.
      eexists. rewrite lookup_insert_eq. split; [reflexivity|exact Hname].
    + exists st'. rewrite lookup_insert_ne by exact Hns. auto.
Qed.

Lemma im_create_new_trial_wf now sid template s :
  im_wf s -> im_wf (InMemory.create_new_trial now sid template s).2.
Proof.
  intros Hwf. destruct (InMemory.studies s !! sid) as [st|] eqn:Hst.
  - rewrite (im_create_new_trial_run _ _ _ _ _ Hst).
    destruct (InMemory._update_cache _ _ _) as [[[]|e] s'] eqn:Hc; simpl;
      (eapply im_rewrites_wf;
       [apply im_appended_wf; eassumption
       |exact (im_update_cache_rewrites _ _ _ _ _ Hc)]).
  - unfold InMemory.create_new_trial.
    rewrite (run_bind_raise _ _ _ _ _ (im_check_study_id_missing _ _ Hst)).
    exact Hwf.
Qed.

(** *** Creating and deleting a study *)

Lemma im_create_new_study_wf generated_name study_name s :
  im_wf s ->
  match study_name with
  | Some _ => True
  | None => InMemory.study_name_to_id s !! generated_name = None
  end ->
  im_wf (InMemory.create_new_study generated_name study_name s).2.
Proof.
  intros [Hid Htr Hsty Hnm] Hgen. unfold InMemory.create_new_study.
  cbn [InMemory.study_name_to_id InMemory.studies InMemory.max_study_id
       InMemory.max_trial_id InMemory.trial_id_to_study_id_and_number].
  set (new_id := InMemory.max_study_id s + 1).
  assert (Hdup : im_wf (InMemory.mkInMemoryStorage
                          (InMemory.trial_id_to_study_id_and_number s)
                          (InMemory.study_name_to_id s) (InMemory.studies s)
                          new_id (InMemory.max_trial_id s))).
  { split; cbn; auto. intros sid st Hs. destruct (Hsty sid st Hs). split; [lia|auto]. }
  assert (Hnew : ∀ nm, InMemory.study_name_to_id s !! nm = None ->
            im_wf (InMemory.mkInMemoryStorage
                     (InMemory.trial_id_to_study_id_and_number s)
                     (<[nm := new_id]> (InMemory.study_name_to_id s))
                     (<[new_id := InMemory.new_study_info nm]> (InMemory.studies s))
                     new_id (InMemory.max_trial_id s))).
  { intros nm Hfree.
    assert (Hold : ∀ sid st, InMemory.studies s !! sid = Some st -> sid ≠ new_id).
    { intros sid st Hs. destruct (Hsty sid st Hs). subst new_id. lia. }
    split; cbn [InMemory.study_name_to_id InMemory.studies InMemory.max_study_id
                InMemory.max_trial_id InMemory.trial_id_to_study_id_and_number].
    - intros i sid n Hlook.
      destruct (Hid i sid n Hlook) as (Hle & st & t & Hs & Ht & Hti).
      split; [exact Hle|]. exists st, t.
      rewrite lookup_insert_ne by (intros Heq; apply (Hold _ _ Hs); congruence).
      auto.
    - intros sid st n t Hs Ht. destruct (decide (new_id = sid)) as [<-|Hne].
      + rewrite lookup_insert_eq in Hs. injection Hs as <-. discriminate.
      + rewrite lookup_insert_ne in Hs by exact Hne. apply (Htr _ _ _ _ Hs Ht).
    - intros sid st Hs. destruct (decide (new_id = sid)) as [<-|Hne].
      + rewrite lookup_insert_eq in Hs. injection Hs as <-.
        split; [lia|]. cbn. apply lookup_insert_eq.
      + rewrite lookup_insert_ne in Hs by exact Hne.
        destruct (Hsty sid st Hs) as [Hle Hname]. split; [lia|].
        rewrite lookup_insert_ne; [exact Hname|].
        intros Heq. rewrite <- Heq in Hname. congruence.
    - intros nm' sid Hlook. destruct (decide (nm = nm')) as [<-|Hne].
      + rewrite lookup_insert_eq in Hlook. injection Hlook as <-.
        exists (InMemory.new_study_info nm). rewrite lookup_insert_eq. auto.
      + rewrite lookup_insert_ne in Hlook by exact Hne.
        destruct (Hnm nm' sid Hlook) as (st & Hs & Hname). exists st.
        rewrite lookup_insert_ne by (intros Heq; apply (Hold _ _ Hs); congruence).
        auto. }
  destruct study_name as [nm|].
  - destruct (decide (is_Some (InMemory.study_name_to_id s !! nm))) as [_|Hn].
    + exact Hdup.
    + apply Hnew. destruct (InMemory.study_name_to_id s !! nm) eqn:E; [|reflexivity].
      exfalso. apply Hn. eauto.
  - apply Hnew. exact Hgen.
Qed.

Lemma without_trial_ids_lookup ts (m : gmap Z (Z * nat)) i :
  without_trial_ids ts m !! i =
  if decide (i ∈ trial_id <$> ts) then None else m !! i.
Proof.
  unfold without_trial_ids. revert m. induction ts as [|t ts IH]; intros m.
  - cbn [foldl]. destruct (decide (i ∈ trial_id <$> [])) as [Hin|_]; [|reflexivity].
    rewrite fmap_nil in Hin. apply elem_of_nil in Hin. contradiction.
  - cbn [foldl]. rewrite IH, fmap_cons.
    destruct (decide (i ∈ trial_id <$> ts)) as [Hin|Hnin],
             (decide (i ∈ trial_id t :: (trial_id <$> ts))) as [Hin'|Hnin'];
      try reflexivity.
    + exfalso. apply Hnin'. apply elem_of_cons. auto.
    + apply elem_of_cons in Hin' as [->|?]; [|contradiction].
      apply lookup_delete_eq.
    + apply lookup_delete_ne. intros <-. apply Hnin'. apply elem_of_cons. auto.
Qed.

(** The loop of [delete_study] succeeds when the ids of the trials are
    indexed and pairwise distinct. *)
Lemma im_del_trial_ids_run ts :
  ∀ s, NoDup (trial_id <$> ts) ->
       (∀ t, t ∈ ts -> is_Some (InMemory.trial_id_to_study_id_and_number s !! trial_id t)) ->
       InMemory.del_trial_ids ts s =
       (Ok tt, InMemory.mkInMemoryStorage
                 (without_trial_ids ts (InMemory.trial_id_to_study_id_and_number s))
                 (InMemory.study_name_to_id s) (InMemory.studies s)
                 (InMemory.max_study_id s) (InMemory.max_trial_id s)).
Proof.
  induction ts as [|t ts IH]; intros s Hnd Hall.
  - destruct s; reflexivity.
  - cbn [InMemory.del_trial_ids]. munfold.
    destruct (decide (is_Some (InMemory.trial_id_to_study_id_and_number s !! trial_id t)))
      as [_|Hn]; [|exfalso; apply Hn, Hall; apply elem_of_cons; auto].
    cbn [fmap list_fmap] in Hnd. apply NoDup_cons in Hnd as [Hnin Hnd].
    rewrite IH; [reflexivity|exact Hnd|].
    intros t' Hin. cbn [InMemory.trial_id_to_study_id_and_number].
    rewrite lookup_delete_ne; [apply Hall; apply elem_of_cons; auto|].
    intros Heq. apply Hnin. rewrite Heq. apply list_elem_of_fmap. eauto.
Qed.

Lemma im_wf_trial_ids_NoDup s sid st :
  im_wf s -> InMemory.studies s !! sid = Some st ->
  NoDup (trial_id <$> InMemory.trials st).
Proof.
  intros Hwf Hst. apply NoDup_alt. intros n m i Hn Hm.
  apply list_lookup_fmap_Some in Hn as (t1 & -> & H1).
  apply list_lookup_fmap_Some in Hm as (t2 & Heq & H2).
  destruct (wf_trial _ Hwf _ _ _ _ Hst H1) as [_ L1].
  destruct (wf_trial _ Hwf _ _ _ _ Hst H2) as [_ L2].
  rewrite Heq in L1. rewrite L1 in L2. congruence.
Qed.

Lemma im_delete_study_run s sid st :
  im_wf s -> InMemory.studies s !! sid = Some st ->
  InMemory.delete_study sid s = (Ok tt, im_deleted s sid st).
Proof.
  intros Hwf Hst. unfold InMemory.delete_study.
  rewrite (run_bind_ok _ _ _ _ _ (im_check_study_id_run _ _ _ Hst)).
  rewrite (run_bind_ok _ _ _ _ _ (im_study_at_run _ _ _ Hst)).
  assert (Hall : ∀ t, t ∈ InMemory.trials st ->
            is_Some (InMemory.trial_id_to_study_id_and_number s !! trial_id t)).
  { intros t Hin. apply list_elem_of_lookup in Hin as [n Hn].
    destruct (wf_trial _ Hwf _ _ _ _ Hst Hn) as [_ Hl]. eauto. }
  rewrite (run_bind_ok _ _ _ _ _
             (im_del_trial_ids_run _ s (im_wf_trial_ids_NoDup _ _ _ Hwf Hst) Hall)).
  erewrite run_bind_ok; [|apply im_study_at_run; exact Hst].
  munfold. cbn [InMemory.study_name_to_id InMemory.studies].
  destruct (wf_study _ Hwf _ _ Hst) as [_ Hname]. rewrite Hname.
  destruct (decide (is_Some (Some sid))) as [_|Hn]; [|exfalso; apply Hn; eauto].
  rewrite Hst.
  destruct (decide (is_Some (Some st))) as [_|Hn]; [|exfalso; apply Hn; eauto].
  reflexivity.
Qed.

Lemma im_deleted_wf s sid st :
  im_wf s -> InMemory.studies s !! sid = Some st -> im_wf (im_deleted s sid st).
Proof.
  intros Hwf Hst. pose proof Hwf as [Hid Htr Hsty Hnm].
  split; unfold im_deleted;
    cbn [InMemory.study_name_to_id InMemory.studies InMemory.max_study_id
         InMemory.max_trial_id InMemory.trial_id_to_study_id_and_number].
  - intros i sid' n. rewrite without_trial_ids_lookup.
    destruct (decide (i ∈ trial_id <$> InMemory.trials st)) as [_|Hnin];
      [discriminate|].
    intros Hlook. destruct (Hid i sid' n Hlook) as (Hle & st' & t & Hs & Ht & Hti).
    split; [exact Hle|]. exists st', t.
    rewrite lookup_delete_ne; [auto|]. intros <-.
    rewrite Hst in Hs. injection Hs as <-. apply Hnin.
    apply list_elem_of_fmap. exists t. split; [auto|].
    eapply list_elem_of_lookup_2; eauto.
  - intros sid' st' n t Hs Ht.
    destruct (decide (sid = sid')) as [<-|Hne];
      [rewrite lookup_delete_eq in Hs; discriminate|].
    rewrite lookup_delete_ne in Hs by exact Hne.
    destruct (Htr _ _ _ _ Hs Ht) as [Hnum Hlook]. split; [exact Hnum|].
    rewrite without_trial_ids_lookup.
    destruct (decide (trial_id t ∈ trial_id <$> InMemory.trials st)) as [Hin|_];
      [|exact Hlook].
    apply list_elem_of_fmap in Hin as (t0 & Heq & Hin0).
    apply list_elem_of_lookup in Hin0 as [m Hm].
    destruct (Htr _ _ _ _ Hst Hm) as [_ Hl0]. rewrite <- Heq in Hl0. congruence.
  - intros sid' st' Hs.
    destruct (decide (sid = sid')) as [<-|Hne];
      [rewrite lookup_delete_eq in Hs; discriminate|].
    rewrite lookup_delete_ne in Hs by exact Hne.
    destruct (Hsty _ _ Hs) as [Hle Hname]. split; [exact Hle|].
    rewrite lookup_delete_ne; [exact Hname|]. intros Heq.
    destruct (Hsty _ _ Hst) as [_ Hname0]. rewrite Heq in Hname0. congruence.
  - intros nm sid' Hlook.
    destruct (decide (InMemory.name st = nm)) as [<-|Hne];
      [rewrite lookup_delete_eq in Hlook; discriminate|].
    rewrite lookup_delete_ne in Hlook by exact Hne.
    destruct (Hnm _ _ Hlook) as (st' & Hs & Hname). exists st'.
    rewrite lookup_delete_ne; [auto|]. intros <-.
    rewrite Hst in Hs. injection Hs as <-. contradiction.
Qed.

(** *** The invariant *)

Lemma im_empty_storage_wf : im_wf InMemory.empty_storage.
Proof.
  split; unfold InMemory.empty_storage; cbn; intros *;
    rewrite lookup_empty; discriminate.
Qed.

Lemma im_call_wf c s :
  im_wf s -> generated_name_is_new c s -> im_wf (im_call c s).
Proof.
  intros Hwf Hgen. destruct c as [gen nm|sid|sid ds|sid k v|sid k v|now sid tmpl|now i wr];
    cbn [im_call].
  - apply im_create_new_study_wf; [exact Hwf|].
    destruct nm; [exact I|exact Hgen].
  - destruct (InMemory.studies s !! sid) as [st|] eqn:Hst.
    + rewrite (im_delete_study_run _ _ _ Hwf Hst). apply im_deleted_wf; assumption.
    + unfold InMemory.delete_study.
      rewrite (run_bind_raise _ _ _ _ _ (im_check_study_id_missing _ _ Hst)).
      exact Hwf.
  - destruct (InMemory.set_study_directions sid ds s) as [o s'] eqn:Hr.
    exact (im_rewrites_wf _ _ Hwf (im_set_study_directions_rewrites _ _ _ _ _ Hr)).
  - destruct (InMemory.set_study_user_attr sid k v s) as [o s'] eqn:Hr.
    exact (im_rewrites_wf _ _ Hwf (im_set_study_user_attr_rewrites _ _ _ _ _ _ Hr)).
  - destruct (InMemory.set_study_system_attr sid k v s) as [o s'] eqn:Hr.
    exact (im_rewrites_wf _ _ Hwf (im_set_study_system_attr_rewrites _ _ _ _ _ _ Hr)).
  - apply im_create_new_trial_wf. exact Hwf.
  - destruct (im_write now i wr s) as [o s'] eqn:Hr.
    exact (im_rewrites_wf _ _ Hwf (im_write_rewrites _ _ _ _ _ _ Hr)).
Qed.

(** The indexes of the in-memory storage are consistent in every state
    reached from the empty storage by the methods that change it, whether
    they return or raise: each indexed trial id points at the trial carrying
    it, each trial carries its position as number, each study is found under
    its name, and no id exceeds its counter. *)
Theorem im_storage_index_is_consistent (cs : list StorageCall) :
  generated_names_are_new cs InMemory.empty_storage ->
  im_wf (im_run_calls cs InMemory.empty_storage).
Proof.
  unfold im_run_calls. generalize im_empty_storage_wf.
  generalize InMemory.empty_storage. induction cs as [|c cs IH]; intros s Hwf Hgen.
  - exact Hwf.
  - destruct Hgen as [Hc Hcs]. cbn [foldl]. apply IH; [|exact Hcs].
    apply im_call_wf; assumption.
Qed.

End InMemoryWf.

Section InMemoryWfExamples.
#[local] Existing Instance concrete_externals.

Lemma im_storage_index_is_consistent_witness :
  generated_names_are_new Ex2.session InMemory.empty_storage ∧
  im_wf (im_run_calls Ex2.session InMemory.empty_storage).
Proof.
  assert (Hgen : generated_names_are_new Ex2.session InMemory.empty_storage).
  { unfold Ex2.session. cbn [generated_names_are_new generated_name_is_new].
    repeat split. }
  split; [exact Hgen|].
  exact (im_storage_index_is_consistent Ex2.session Hgen).
Defined.

Lemma im_two_studies_wf : im_wf Ex2.im_two_studies.
Proof.
  apply (im_storage_index_is_consistent (take 12 Ex2.session)).
  unfold Ex2.session. cbn [take generated_names_are_new generated_name_is_new].
  repeat split.
Qed.

End InMemoryWfExamples.

(** * Lookups, creation and deletion on a consistent in-memory storage *)

Section InMemoryLookups.
Context `{!Externals}.

Lemma im_get_trial_eval s i :
  InMemory.get_trial i s =
  (match InMemory.trial_id_to_study_id_and_number s !! i with
   | None => Raise KeyError
   | Some (sid, n) =>
     match InMemory.studies s !! sid with
     | None => Raise KeyError
     | Some st =>
       match InMemory.trials st !! n with
       | Some t => Ok t
       | None => Raise IndexError
       end
     end
   end, s).
Proof.
  unfold InMemory.get_trial, InMemory._get_trial, InMemory._check_trial_id,
    InMemory.id_entry, InMemory.study_at.
  destruct (InMemory.trial_id_to_study_id_and_number s !! i) as [[sid n]|] eqn:Hid;
    [|mrun; reflexivity].
  destruct (InMemory.studies s !! sid) as [st|] eqn:Hst; [|mrun; reflexivity].
  destruct (InMemory.trials st !! n) as [t|] eqn:Ht; mrun; reflexivity.
Qed.

Lemma im_wf_slot s i sid n st t :
  im_wf s -> im_slot s i sid n st t -> trial_id t = i ∧ number t = Z.of_nat n.
Proof.
  intros Hwf (Hid & Hst & Ht).
  destruct (wf_trial _ Hwf _ _ _ _ Hst Ht) as [Hnum _].
  destruct (wf_id _ Hwf _ _ _ Hid) as (_ & st' & t' & Hst' & Ht' & Hti).
  rewrite Hst in Hst'. injection Hst' as <-. rewrite Ht in Ht'. injection Ht' as <-.
  auto.
Qed.

Lemma py_index_nonneg {A} (l : list A) (n : nat) :
  py_index l (Z.of_nat n) = l !! n.
Proof.
  unfold py_index. destruct (decide (0 <= Z.of_nat n)) as [_|Hn]; [|lia].
  rewrite Nat2Z.id. reflexivity.
Qed.

(** On a consistent storage the lookups of a trial agree with each other:
    the record found under an id carries that id; its study and its number
    are what [get_study_id_from_trial_id] and [get_trial_number_from_id]
    return; [get_trial_id_from_study_id_trial_number] on that study and
    number returns the id; and [get_all_trials] of the study has the record
    at the position of its number. *)
Theorem im_trial_lookups_agree s i t :
  im_wf s ->
  InMemory.get_trial i s = (Ok t, s) ->
  trial_id t = i ∧
  ∃ sid ts,
    InMemory.get_study_id_from_trial_id i s = (Ok sid, s) ∧
    InMemory.get_trial_number_from_id i s = (Ok (number t), s) ∧
    InMemory.get_trial_id_from_study_id_trial_number sid (number t) s = (Ok i, s) ∧
    InMemory.get_all_trials sid None s = (Ok ts, s) ∧
    py_index ts (number t) = Some t.
Proof.
  intros Hwf Hg. unfold InMemory.get_trial in Hg.
  apply im_get_trial_inv in Hg as (_ & sid & n & st & Hslot).
  destruct (im_wf_slot _ _ _ _ _ _ Hwf Hslot) as [Hti Hnum].
  pose proof Hslot as (Hid & Hst & Ht).
  split; [exact Hti|]. exists sid, (InMemory.trials st).
  split; [|split; [|split; [|split]]].
  - unfold InMemory.get_study_id_from_trial_id.
    rewrite (run_bind_ok _ _ _ _ _ (im_check_trial_id_slot _ _ _ _ _ _ Hslot)).
    rewrite (run_bind_ok _ _ _ _ _ (im_id_entry_slot _ _ _ _ _ _ Hslot)).
    reflexivity.
  - unfold InMemory.get_trial_number_from_id.
    rewrite (run_bind_ok _ _ _ _ _ (im_check_trial_id_slot _ _ _ _ _ _ Hslot)).
    rewrite (run_bind_ok _ _ _ _ _ (im_id_entry_slot _ _ _ _ _ _ Hslot)).
    rewrite Hnum. reflexivity.
  - unfold InMemory.get_trial_id_from_study_id_trial_number. mrun.
    destruct (decide (Z.of_nat (length (InMemory.trials st)) <= number t)) as [Hle|_].
    { apply lookup_lt_Some in Ht. lia. }
    rewrite Hnum, py_index_nonneg, Ht. simpl.
    destruct (decide (number t = Z.of_nat n)) as [_|Hn]; [|contradiction].
    rewrite Hti. reflexivity.
  - unfold InMemory.get_all_trials.
    rewrite (run_bind_ok _ _ _ _ _ (im_check_study_id_run _ _ _ Hst)).
    rewrite (run_bind_ok _ _ _ _ _ (im_study_at_run _ _ _ Hst)).
    reflexivity.
  - rewrite Hnum, py_index_nonneg. exact Ht.
Qed.

(** [get_trial_id_from_study_id_trial_number] on a consistent storage, for
    every integer: a number from 0 up to the number of trials returns the id
    of the trial with that number; a larger one raises [KeyError]; a negative
    one indexes the list from its end, finds a trial with another number and
    fails the assertion, or raises [IndexError] below minus the length. *)
Theorem im_trial_number_lookup s sid st k :
  im_wf s ->
  InMemory.studies s !! sid = Some st ->
  let len := Z.of_nat (length (InMemory.trials st)) in
  let out := InMemory.get_trial_id_from_study_id_trial_number sid k s in
  (len <= k -> out = (Raise KeyError, s)) ∧
  (0 <= k < len ->
   ∃ t, InMemory.trials st !! Z.to_nat k = Some t ∧ number t = k ∧
        out = (Ok (trial_id t), s) ∧ InMemory.get_trial (trial_id t) s = (Ok t, s)) ∧
  (- len <= k < 0 -> out = (Raise AssertionError, s)) ∧
  (k < - len -> out = (Raise IndexError, s)).
Proof.
  intros Hwf Hst len out. subst out.
  unfold InMemory.get_trial_id_from_study_id_trial_number. mrun. fold len.
  split; [|split; [|split]].
  - intros Hk. destruct (decide (len <= k)); [reflexivity|lia].
  - intros Hk. destruct (decide (len <= k)) as [|_]; [lia|].
    destruct (lookup_lt_is_Some_2 (InMemory.trials st) (Z.to_nat k)) as [t Ht];
      [subst len; lia|].
    destruct (wf_trial _ Hwf _ _ _ _ Hst Ht) as [Hnum Hlook].
    exists t. split; [exact Ht|]. split; [lia|].
    unfold py_index. destruct (decide (0 <= k)) as [_|]; [|lia].
    rewrite Ht. simpl.
    destruct (decide (number t = k)) as [_|Hn]; [|lia].
    split; [reflexivity|].
    apply (im_get_trial_slot _ _ sid (Z.to_nat k) st). repeat split; assumption.
  - intros Hk. destruct (decide (len <= k)) as [|_]; [lia|].
    unfold py_index. destruct (decide (0 <= k)) as [|_]; [lia|]. fold len.
    destruct (decide (0 <= len + k)) as [_|]; [|lia].
    destruct (lookup_lt_is_Some_2 (InMemory.trials st) (Z.to_nat (len + k)))
      as [t Ht]; [subst len; lia|].
    rewrite Ht. simpl.
    destruct (wf_trial _ Hwf _ _ _ _ Hst Ht) as [Hnum _].
    destruct (decide (number t = k)) as [Heq|_]; [lia|reflexivity].
  - intros Hk. destruct (decide (len <= k)) as [|_]; [lia|].
    unfold py_index. destruct (decide (0 <= k)) as [|_]; [lia|]. fold len.
    destruct (decide (0 <= len + k)) as [|_]; [lia|reflexivity].
Qed.

Lemma im_update_cache_not_complete s i sid sid' n st t :
  im_slot s i sid' n st t ->
  state t ≠ COMPLETE ->
  InMemory._update_cache i sid s = (Ok tt, s).
Proof.
  intros Hslot Hnc. unfold InMemory._update_cache.
  rewrite (run_bind_ok _ _ _ _ _ (im_get_trial_slot _ _ _ _ _ _ Hslot)).
  destruct (decide (state t ≠ COMPLETE)) as [_|Hn]; [reflexivity|contradiction].
Qed.

Lemma im_appended_slot s sid st trial :
  InMemory.studies s !! sid = Some st ->
  im_slot (im_appended s sid st trial) (InMemory.max_trial_id s + 1) sid
    (length (InMemory.trials st))
    (InMemory.set_trials (InMemory.trials st ++ [im_new_record s st trial]) st)
    (im_new_record s st trial).
Proof.
  intros Hst. unfold im_slot, im_appended.
  cbn [InMemory.trial_id_to_study_id_and_number InMemory.studies InMemory.trials
       InMemory.set_trials].
  split; [apply lookup_insert_eq|]. split; [apply lookup_insert_eq|].
  rewrite lookup_app_r by reflexivity. rewrite Nat.sub_diag. reflexivity.
Qed.

Lemma im_appended_get_trial_other s sid st trial j :
  im_wf s ->
  InMemory.studies s !! sid = Some st ->
  j ≠ InMemory.max_trial_id s + 1 ->
  InMemory.get_trial j (im_appended s sid st trial) =
  ((InMemory.get_trial j s).1, im_appended s sid st trial).
Proof.
  intros Hwf Hst Hne. rewrite !im_get_trial_eval. f_equal.
  unfold im_appended at 1.
  cbn [InMemory.trial_id_to_study_id_and_number fst].
  rewrite lookup_insert_ne by congruence.
  destruct (InMemory.trial_id_to_study_id_and_number s !! j) as [[sid' n]|] eqn:Hid;
    [|reflexivity].
  destruct (wf_id _ Hwf _ _ _ Hid) as (_ & st' & t & Hst' & Ht & _).
  unfold im_appended. cbn [InMemory.studies].
  destruct (decide (sid = sid')) as [<-|Hns].
  - rewrite lookup_insert_eq, Hst. rewrite Hst in Hst'. injection Hst' as <-.
    cbn [InMemory.trials InMemory.set_trials].
    rewrite lookup_app_l by (eapply lookup_lt_Some; eauto). reflexivity.
  - rewrite lookup_insert_ne by exact Hns. reflexivity.
Qed.

(** [create_new_trial] on a consistent storage, for a trial that does not
    start COMPLETE: it returns an id that was not indexed, one above the
    counter; the record stored is the template (or a RUNNING trial started
    now) with this id and, as number, the number of trials the study held;
    it is the last of [get_all_trials]; every other trial id reads as
    before. *)
Theorem im_create_new_trial_appends now sid template s st :
  im_wf s ->
  InMemory.studies s !! sid = Some st ->
  state (template_or_running now template) ≠ COMPLETE ->
  let new_id := InMemory.max_trial_id s + 1 in
  let record := im_new_record s st (template_or_running now template) in
  let out := InMemory.create_new_trial now sid template s in
  out.1 = Ok new_id ∧
  InMemory.trial_id_to_study_id_and_number s !! new_id = None ∧
  InMemory.get_trial new_id out.2 = (Ok record, out.2) ∧
  trial_id record = new_id ∧
  number record = Z.of_nat (length (InMemory.trials st)) ∧
  InMemory.get_all_trials sid None out.2 =
    (Ok (InMemory.trials st ++ [record]), out.2) ∧
  (∀ j, j ≠ new_id ->
        InMemory.get_trial j out.2 = ((InMemory.get_trial j s).1, out.2)).
Proof.
  intros Hwf Hst Hnc new_id record out.
  pose proof (im_appended_slot s sid st (template_or_running now template) Hst)
    as Hslot.
  assert (Hout : out = (Ok new_id,
                        im_appended s sid st (template_or_running now template))).
  { subst out. rewrite (im_create_new_trial_run _ _ _ _ _ Hst).
    rewrite (im_update_cache_not_complete _ _ _ _ _ _ _ Hslot); [reflexivity|].
    exact Hnc. }
  rewrite Hout. cbn [fst snd].
  split; [reflexivity|]. split.
  { destruct (InMemory.trial_id_to_study_id_and_number s !! new_id)
      as [[sid' n]|] eqn:Hid; [|reflexivity].
    destruct (wf_id _ Hwf _ _ _ Hid) as [Hle _]. subst new_id. lia. }
  split; [apply (im_get_trial_slot _ _ _ _ _ _ Hslot)|].
  split; [reflexivity|]. split; [reflexivity|]. split.
  - pose proof Hslot as (_ & Hst' & _). unfold InMemory.get_all_trials.
    rewrite (run_bind_ok _ _ _ _ _ (im_check_study_id_run _ _ _ Hst')).
    rewrite (run_bind_ok _ _ _ _ _ (im_study_at_run _ _ _ Hst')).
    reflexivity.
  - intros j Hj. apply im_appended_get_trial_other; assumption.
Qed.

(** [delete_study] on a consistent storage removes the study with its trials
    and its name: the study id, the name and the ids of its trials are
    [KeyError]s afterwards; the trials of the other studies read as before;
    the name can be given to a new study, which gets a new id. *)
Theorem im_delete_study_removes_the_study s sid st generated_name :
  im_wf s ->
  InMemory.studies s !! sid = Some st ->
  let out := InMemory.delete_study sid s in
  out.1 = Ok tt ∧
  InMemory.get_study_name_from_id sid out.2 = (Raise KeyError, out.2) ∧
  InMemory.get_study_id_from_name (InMemory.name st) out.2 = (Raise KeyError, out.2) ∧
  (∀ t, t ∈ InMemory.trials st ->
        InMemory.get_trial (trial_id t) out.2 = (Raise KeyError, out.2)) ∧
  (∀ j sid' n, InMemory.trial_id_to_study_id_and_number s !! j = Some (sid', n) ->
               sid' ≠ sid ->
               InMemory.get_trial j out.2 = ((InMemory.get_trial j s).1, out.2)) ∧
  (InMemory.create_new_study generated_name (Some (InMemory.name st)) out.2).1 =
    NewStudy (InMemory.max_study_id s + 1) ∧
  sid ≠ InMemory.max_study_id s + 1.
Proof.
  intros Hwf Hst out. subst out. rewrite (im_delete_study_run _ _ _ Hwf Hst).
  cbn [fst snd]. split; [reflexivity|].
  assert (Hgone : InMemory.studies (im_deleted s sid st) !! sid = None)
    by apply lookup_delete_eq.
  split.
  { unfold InMemory.get_study_name_from_id.
    rewrite (run_bind_raise _ _ _ _ _ (im_check_study_id_missing _ _ Hgone)).
    reflexivity. }
  split.
  { unfold InMemory.get_study_id_from_name. munfold.
    cbn [im_deleted InMemory.study_name_to_id]. rewrite lookup_delete_eq.
    destruct (decide (is_Some (@None Z))) as [[? Hs]|_]; [discriminate|reflexivity]. }
  split.
  { intros t Hin. rewrite im_get_trial_eval.
    cbn [im_deleted InMemory.trial_id_to_study_id_and_number].
    rewrite without_trial_ids_lookup.
    destruct (decide (trial_id t ∈ trial_id <$> InMemory.trials st)) as [_|Hn];
      [reflexivity|].
    exfalso. apply Hn. apply list_elem_of_fmap. eauto. }
  split.
  { intros j sid' n Hid Hne. rewrite !im_get_trial_eval. f_equal.
    cbn [im_deleted InMemory.trial_id_to_study_id_and_number InMemory.studies fst].
    rewrite without_trial_ids_lookup.
    destruct (decide (j ∈ trial_id <$> InMemory.trials st)) as [Hin|_].
    - exfalso. apply list_elem_of_fmap in Hin as (t & -> & Hin).
      apply list_elem_of_lookup in Hin as [m Hm].
      destruct (wf_trial _ Hwf _ _ _ _ Hst Hm) as [_ Hl]. congruence.
    - rewrite Hid. rewrite lookup_delete_ne by congruence. reflexivity. }
  split.
  { unfold InMemory.create_new_study.
    cbn [im_deleted InMemory.study_name_to_id InMemory.max_study_id].
    rewrite lookup_delete_eq.
    destruct (decide (is_Some (@None Z))) as [[? Hs]|_]; [discriminate|reflexivity]. }
  destruct (wf_study _ Hwf _ _ Hst) as [Hle _]. lia.
Qed.

(** *** Writes to one trial and the other trials *)

Lemma im_store_get_trial_other s i sid n st t t' j :
  im_wf s -> im_slot s i sid n st t -> j ≠ i ->
  (InMemory.get_trial j (im_store s sid n st t')).1 = (InMemory.get_trial j s).1.
Proof.
  intros Hwf Hslot Hne. rewrite !im_get_trial_eval. cbn [fst].
  unfold im_store. cbn [InMemory.set_studies InMemory.trial_id_to_study_id_and_number
                        InMemory.studies].
  destruct (InMemory.trial_id_to_study_id_and_number s !! j) as [[sid' n']|] eqn:Hid;
    [|reflexivity].
  pose proof Hslot as (Hidi & Hst & Ht).
  destruct (decide (sid = sid')) as [<-|Hns].
  - rewrite lookup_insert_eq, Hst. cbn [InMemory.trials InMemory.set_trials].
    rewrite list_lookup_insert_ne; [reflexivity|].
    intros <-. destruct (wf_id _ Hwf _ _ _ Hid) as (_ & st' & t0 & Hst' & Ht0 & Hti).
    rewrite Hst in Hst'. injection Hst' as <-. rewrite Ht in Ht0. injection Ht0 as <-.
    destruct (im_wf_slot _ _ _ _ _ _ Hwf Hslot) as [Hti' _]. congruence.
  - rewrite lookup_insert_ne by exact Hns. reflexivity.
Qed.

Lemma im_registered_store_same_trials s sid n st p dist t' :
  im_same_trials (im_store s sid n st t')
    (im_store (im_registered s sid st p dist) sid n (st_registered st p dist) t').
Proof.
  split; [reflexivity|]. split; [reflexivity|]. intros sid'.
  unfold im_store, im_registered.
  cbn [InMemory.set_studies InMemory.studies].
  destruct (decide (sid = sid')) as [<-|Hne].
  - rewrite !lookup_insert_eq. reflexivity.
  - rewrite !lookup_insert_ne by exact Hne. reflexivity.
Qed.

Lemma im_same_trials_refl s : im_same_trials s s.
Proof. repeat split; reflexivity. Qed.

Lemma run_lift_ok {S A B} (a : A) (k : A -> M S B) (s : S) :
  (lift (Ok a) ≫= k) s = k a s.
Proof. reflexivity. Qed.

Lemma im_set_trial_state_effect now i new_state s sid n st t :
  im_slot s i sid n st t ->
  is_finished (state t) = false ->
  (InMemory.set_trial_state now i new_state s).2 = s ∨
  ∃ t', im_same_trials (im_store s sid n st t')
          (InMemory.set_trial_state now i new_state s).2.
Proof.
  intros Hslot Hnf. unfold InMemory.set_trial_state.
  rewrite (run_bind_ok _ _ _ _ _ (im_get_trial_slot _ _ _ _ _ _ Hslot)).
  unfold check_trial_is_updatable. rewrite Hnf, !run_lift_ok.
  destruct (decide (new_state = RUNNING ∧ state t ≠ WAITING)) as [_|_];
    [left; reflexivity|].
  right. destruct (is_finished new_state).
  - erewrite run_bind_ok; [|apply (im_set_trial_slot _ _ _ _ _ _ _ Hslot)].
    erewrite run_bind_ok;
      [|eapply im_id_entry_slot, im_store_slot; exact Hslot].
    cbv beta iota. rewrite run_bind. eexists.
    destruct (InMemory._update_cache i sid _) as [[[]|e] s1] eqn:Hc; cbn [snd];
      exact (im_update_cache_same_trials _ _ _ _ _ Hc).
  - erewrite run_bind_ok; [|apply (im_set_trial_slot _ _ _ _ _ _ _ Hslot)].
    eexists. apply im_same_trials_refl.
Qed.

Lemma im_write_effect now i wr s sid n st t :
  im_slot s i sid n st t ->
  (im_write now i wr s).2 = s ∨
  ∃ t', im_same_trials (im_store s sid n st t') (im_write now i wr s).2.
Proof.
  intros Hslot. destruct (is_finished (state t)) eqn:Hnf.
  { left. rewrite (im_write_finished now i wr s t); [reflexivity| |exact Hnf].
    apply (im_get_trial_slot _ _ _ _ _ _ Hslot). }
  destruct wr as [ns|vs|p v dist|step iv|key av|key av]; unfold im_write;
    rewrite ?run_then_ret_snd.
  - apply (im_set_trial_state_effect _ _ _ _ _ _ _ _ Hslot Hnf).
  - right. rewrite (im_set_trial_values_run _ _ _ _ _ _ vs Hslot Hnf).
    eexists. apply im_same_trials_refl.
  - rewrite (im_set_trial_param_run _ _ _ _ _ _ p v dist Hslot Hnf).
    destruct (match InMemory.param_distribution st !! p with
              | Some d_old => check_distribution_compatibility d_old dist
              | None => true
              end); [right|left; reflexivity].
    eexists. apply im_registered_store_same_trials.
  - right. rewrite (im_set_trial_intermediate_value_run _ _ _ _ _ _ step iv Hslot Hnf).
    eexists. apply im_same_trials_refl.
  - right. rewrite (im_set_trial_user_attr_run _ _ _ _ _ _ key av Hslot Hnf).
    eexists. apply im_same_trials_refl.
  - right. rewrite (im_set_trial_system_attr_run _ _ _ _ _ _ key av Hslot Hnf).
    eexists. apply im_same_trials_refl.
Qed.

Lemma im_write_no_trial now i wr s e s1 :
  InMemory._get_trial i s = (Raise e, s1) ->
  (im_write now i wr s).2 = s.
Proof.
  intros Hg. pose proof (im_get_trial_state _ _ _ _ Hg) as ->.
  destruct wr as [ns|vs|p v dist|step iv|key av|key av]; unfold im_write;
    rewrite ?run_then_ret_snd;
    unfold InMemory.set_trial_state, InMemory.set_trial_values,
      InMemory.set_trial_param, InMemory.set_trial_intermediate_value,
      InMemory.set_trial_system_attr;
    rewrite ?(run_bind_raise _ _ _ _ _ Hg); try reflexivity.
  unfold InMemory.set_trial_user_attr. rewrite run_bind.
  destruct (InMemory._check_trial_id i s) as [[[]|e'] s2] eqn:Hc.
  - assert (s2 = s) as ->.
    { revert Hc. unfold InMemory._check_trial_id. munfold.
      destruct (decide _); intros [= <-]; reflexivity. }
    rewrite (run_bind_raise _ _ _ _ _ Hg). reflexivity.
  - revert Hc. unfold InMemory._check_trial_id. munfold.
    destruct (decide _); intros Heq; inversion Heq; subst; reflexivity.
Qed.

(** A write to one trial of a consistent storage, of whatever kind and
    whether it is accepted or rejected, leaves every other trial id reading
    as before. *)
Theorem im_write_leaves_other_trials now i wr s j :
  im_wf s ->
  j ≠ i ->
  (InMemory.get_trial j (im_write now i wr s).2).1 = (InMemory.get_trial j s).1.
Proof.
  intros Hwf Hne.
  destruct (InMemory._get_trial i s) as [[t|e] s1] eqn:Hg.
  - apply im_get_trial_inv in Hg as (_ & sid & n & st & Hslot).
    destruct (im_write_effect now i wr s _ _ _ _ Hslot) as [->|[t' Hsame]];
      [reflexivity|].
    rewrite (im_same_trials_get_trial _ _ j Hsame).
    apply (im_store_get_trial_other _ _ _ _ _ _ _ _ Hwf Hslot Hne).
  - rewrite (im_write_no_trial now i wr s e s1 Hg). reflexivity.
Qed.

(** *** The distribution registry of a study *)

(** The first trial that writes a parameter name registers its distribution
    for the whole study.  A later write of that name, to the same or to
    another unfinished trial of the study, is rejected with [ValueError] and
    changes nothing when its distribution is incompatible with the registered
    one; a compatible one is accepted and stored in the trial. *)
Theorem im_param_distribution_is_shared s i j sid ni nj st ti tj p v d v' d' :
  im_slot s i sid ni st ti ->
  im_slot s j sid nj st tj ->
  is_finished (state ti) = false ->
  is_finished (state tj) = false ->
  InMemory.param_distribution st !! p = None ->
  let out := InMemory.set_trial_param i p v d s in
  out.1 = Ok tt ∧
  (check_distribution_compatibility d d' = false ->
   InMemory.set_trial_param j p v' d' out.2 = (Raise ValueError, out.2)) ∧
  (check_distribution_compatibility d d' = true ->
   let out' := InMemory.set_trial_param j p v' d' out.2 in
   out'.1 = Ok tt ∧
   ∃ t, InMemory.get_trial j out'.2 = (Ok t, out'.2) ∧
        params t !! p = Some (to_external_repr d' v') ∧
        distributions t !! p = Some d').
Proof.
  intros Hsi Hsj Hfi Hfj Hnew out. subst out.
  rewrite (im_set_trial_param_run _ _ _ _ _ _ p v d Hsi Hfi), Hnew.
  cbn [fst snd]. split; [reflexivity|].
  set (st1 := InMemory.set_trials
                (<[ni := with_param p v d ti]> (InMemory.trials (st_registered st p d)))
                (st_registered st p d)).
  set (s1 := im_store (im_registered s sid st p d) sid ni (st_registered st p d)
               (with_param p v d ti)).
  assert (Hslot : ∃ t, im_slot s1 j sid nj st1 t ∧ is_finished (state t) = false).
  { pose proof (im_registered_slot _ _ _ _ _ _ p d Hsi) as Hri.
    pose proof (im_registered_slot _ _ _ _ _ _ p d Hsj) as (Hidj & _ & Htj).
    destruct (decide (ni = nj)) as [<-|Hne].
    - exists (with_param p v d ti). split; [|exact Hfi].
      split; [exact Hidj|]. split; [apply lookup_insert_eq|].
      subst st1. cbn [InMemory.trials InMemory.set_trials].
      apply list_lookup_insert_eq. destruct Hsi as (_ & _ & Ht).
      eapply lookup_lt_Some; eauto.
    - exists tj. split; [|exact Hfj].
      split; [exact Hidj|]. split; [apply lookup_insert_eq|].
      subst st1. cbn [InMemory.trials InMemory.set_trials].
      rewrite list_lookup_insert_ne by exact Hne. exact Htj. }
  destruct Hslot as (t & Hslot & Hft).
  assert (Hreg : InMemory.param_distribution st1 !! p = Some d)
    by (subst st1; cbn; apply lookup_insert_eq).
  split.
  - intros Hc. rewrite (im_set_trial_param_run _ _ _ _ _ _ p v' d' Hslot Hft).
    rewrite Hreg, Hc. reflexivity.
  - intros Hc.
    rewrite (im_set_trial_param_run _ _ _ _ _ _ p v' d' Hslot Hft).
    rewrite Hreg, Hc. cbn [fst snd]. split; [reflexivity|].
    exists (with_param p v' d' t). split.
    + eapply im_get_trial_slot, im_store_slot, im_registered_slot. exact Hslot.
    + split; cbn; apply lookup_insert_eq.
Qed.

(** Every method that takes a trial id raises [KeyError] on an id that is
    not indexed, and leaves the storage as it was. *)
Theorem im_missing_trial_is_a_key_error s i :
  InMemory.trial_id_to_study_id_and_number s !! i = None ->
  InMemory.get_trial i s = (Raise KeyError, s) ∧
  (∀ now wr, im_write now i wr s = (Raise KeyError, s)) ∧
  InMemory.get_study_id_from_trial_id i s = (Raise KeyError, s) ∧
  InMemory.get_trial_number_from_id i s = (Raise KeyError, s).
Proof.
  intros Hid.
  assert (Hc : InMemory._check_trial_id i s = (Raise KeyError, s))
    by (unfold InMemory._check_trial_id; mrun; reflexivity).
  assert (Hg : InMemory._get_trial i s = (Raise KeyError, s))
    by (unfold InMemory._get_trial; rewrite (run_bind_raise _ _ _ _ _ Hc); reflexivity).
  split; [exact Hg|]. split; [|split].
  - intros now wr.
    destruct wr; unfold im_write, InMemory.set_trial_state, InMemory.set_trial_values,
      InMemory.set_trial_param, InMemory.set_trial_intermediate_value,
      InMemory.set_trial_user_attr, InMemory.set_trial_system_attr;
      rewrite ?run_bind, ?Hc, ?Hg; reflexivity.
  - unfold InMemory.get_study_id_from_trial_id.
    rewrite (run_bind_raise _ _ _ _ _ Hc). reflexivity.
  - unfold InMemory.get_trial_number_from_id.
    rewrite (run_bind_raise _ _ _ _ _ Hc). reflexivity.
Qed.

End InMemoryLookups.

Section InMemoryLookupsExamples.
#[local] Existing Instance concrete_externals.

Lemma im_two_studies_study_0 :
  InMemory.studies Ex2.im_two_studies !! 0 = Some Ex2.im_two_studies_study_0.
Proof. vm_compute. reflexivity. Qed.

Lemma im_trial_lookups_agree_witness :
  (im_wf Ex2.im_two_studies ∧
   InMemory.get_trial 2 Ex2.im_two_studies =
     (Ok Ex2.im_two_studies_trial_2, Ex2.im_two_studies)) ∧
  trial_id Ex2.im_two_studies_trial_2 = 2.
Proof.
  assert (Hg : InMemory.get_trial 2 Ex2.im_two_studies =
               (Ok Ex2.im_two_studies_trial_2, Ex2.im_two_studies))
    by (vm_compute; reflexivity).
  split; [split; [exact im_two_studies_wf|exact Hg]|].
  exact (proj1 (im_trial_lookups_agree _ _ _ im_two_studies_wf Hg)).
Defined.

Lemma im_trial_number_lookup_witness :
  (im_wf Ex2.im_two_studies ∧
   InMemory.studies Ex2.im_two_studies !! 0 = Some Ex2.im_two_studies_study_0) ∧
  InMemory.get_trial_id_from_study_id_trial_number 0 (-1) Ex2.im_two_studies =
    (Raise AssertionError, Ex2.im_two_studies) ∧
  InMemory.get_trial_id_from_study_id_trial_number 0 2 Ex2.im_two_studies =
    (Raise KeyError, Ex2.im_two_studies).
Proof.
  split; [split; [exact im_two_studies_wf|exact im_two_studies_study_0]|].
  destruct (im_trial_number_lookup Ex2.im_two_studies 0 _ (-1) im_two_studies_wf
              im_two_studies_study_0) as (_ & _ & H3 & _).
  destruct (im_trial_number_lookup Ex2.im_two_studies 0 _ 2 im_two_studies_wf
              im_two_studies_study_0) as (H1 & _).
  split; [apply H3; cbn; lia|apply H1; cbn; lia].
Defined.

Lemma im_create_new_trial_appends_witness :
  (im_wf Ex2.im_two_studies ∧
   InMemory.studies Ex2.im_two_studies !! 0 = Some Ex2.im_two_studies_study_0 ∧
   state (template_or_running 200 (Some Ex.waiting_template)) ≠ COMPLETE) ∧
  (InMemory.create_new_trial 200 0 (Some Ex.waiting_template) Ex2.im_two_studies).1 =
    Ok (InMemory.max_trial_id Ex2.im_two_studies + 1).
Proof.
  assert (Hnc : state (template_or_running 200 (Some Ex.waiting_template)) ≠ COMPLETE)
    by discriminate.
  split; [exact (conj im_two_studies_wf (conj im_two_studies_study_0 Hnc))|].
  exact (proj1 (im_create_new_trial_appends 200 0 (Some Ex.waiting_template)
                  Ex2.im_two_studies _ im_two_studies_wf im_two_studies_study_0 Hnc)).
Defined.

Lemma im_delete_study_removes_the_study_witness :
  (im_wf Ex2.im_two_studies ∧
   InMemory.studies Ex2.im_two_studies !! 0 = Some Ex2.im_two_studies_study_0) ∧
  (InMemory.delete_study 0 Ex2.im_two_studies).1 = Ok tt ∧
  InMemory.get_study_name_from_id 0 (InMemory.delete_study 0 Ex2.im_two_studies).2 =
    (Raise KeyError, (InMemory.delete_study 0 Ex2.im_two_studies).2).
Proof.
  split; [exact (conj im_two_studies_wf im_two_studies_study_0)|].
  destruct (im_delete_study_removes_the_study Ex2.im_two_studies 0 _ "no-name-d"
              im_two_studies_wf im_two_studies_study_0) as (H1 & H2 & _).
  exact (conj H1 H2).
Defined.

Lemma im_write_leaves_other_trials_witness :
  (im_wf Ex2.im_two_studies ∧ 2 ≠ 0) ∧
  (InMemory.get_trial 2
     (im_write 300 0 (WriteUserAttr "k" "v") Ex2.im_two_studies).2).1 =
  (InMemory.get_trial 2 Ex2.im_two_studies).1.
Proof.
  assert (Hne : (2 : Z) ≠ 0) by discriminate.
  split; [exact (conj im_two_studies_wf Hne)|].
  exact (im_write_leaves_other_trials 300 0 (WriteUserAttr "k" "v")
           Ex2.im_two_studies 2 im_two_studies_wf Hne).
Defined.

Lemma im_two_studies_slot_0 :
  im_slot Ex2.im_two_studies 0 0 0 Ex2.im_two_studies_study_0 Ex2.im_two_studies_trial_0.
Proof. split; [vm_compute; reflexivity|]. split; vm_compute; reflexivity. Qed.

Lemma im_two_studies_slot_2 :
  im_slot Ex2.im_two_studies 2 0 1 Ex2.im_two_studies_study_0 Ex2.im_two_studies_trial_2.
Proof. split; [vm_compute; reflexivity|]. split; vm_compute; reflexivity. Qed.

Lemma im_param_distribution_is_shared_witness :
  (im_slot Ex2.im_two_studies 2 0 1 Ex2.im_two_studies_study_0
     Ex2.im_two_studies_trial_2 ∧
   is_finished (state Ex2.im_two_studies_trial_2) = false ∧
   InMemory.param_distribution Ex2.im_two_studies_study_0 !! "y" = None) ∧
  (InMemory.set_trial_param 2 "y" 1%Q "int" Ex2.im_two_studies).1 = Ok tt ∧
  InMemory.set_trial_param 2 "y" 2%Q "float"
    (InMemory.set_trial_param 2 "y" 1%Q "int" Ex2.im_two_studies).2 =
    (Raise ValueError, (InMemory.set_trial_param 2 "y" 1%Q "int" Ex2.im_two_studies).2).
Proof.
  assert (Hnew : InMemory.param_distribution Ex2.im_two_studies_study_0 !! "y" = None)
    by (vm_compute; reflexivity).
  split; [exact (conj im_two_studies_slot_2 (conj eq_refl Hnew))|].
  destruct (im_param_distribution_is_shared Ex2.im_two_studies 2 2 0 1%nat 1%nat _ _ _
              "y" 1%Q "int" 2%Q "float" im_two_studies_slot_2 im_two_studies_slot_2
              eq_refl eq_refl Hnew) as (H1 & H2 & _).
  split; [exact H1|exact (H2 eq_refl)].
Defined.

Lemma im_missing_trial_is_a_key_error_witness :
  InMemory.trial_id_to_study_id_and_number Ex2.im_two_studies !! 9 = None ∧
  InMemory.get_trial 9 Ex2.im_two_studies = (Raise KeyError, Ex2.im_two_studies).
Proof.
  assert (H9 : InMemory.trial_id_to_study_id_and_number Ex2.im_two_studies !! 9 = None)
    by (vm_compute; reflexivity).
  split; [exact H9|].
  exact (proj1 (im_missing_trial_is_a_key_error Ex2.im_two_studies 9 H9)).
Defined.

End InMemoryLookupsExamples.

(** * Further properties of the Redis storage *)

Section RedisHeartbeats.
Context `{!Externals}.

Lemma hset_fst_elem_of (i : Z) (v : Q) (h : list (Z * Q)) (f : Z) :
  f ∈ (Redis.hset i v h).*1 <-> f = i ∨ f ∈ h.*1.
Proof.
  induction h as [|[f0 w0] h IH]; cbn [Redis.hset].
  - rewrite fmap_cons, fmap_nil, list_elem_of_singleton. cbn.
    split; [auto|]. intros [?|Hin]; [auto|]. apply elem_of_nil in Hin. contradiction.
  - destruct (decide (f0 = i)) as [->|Hne]; rewrite !fmap_cons, !elem_of_cons; cbn.
    + tauto.
    + rewrite IH. tauto.
Qed.

Lemma hset_fst_NoDup (i : Z) (v : Q) (h : list (Z * Q)) :
  NoDup h.*1 -> NoDup (Redis.hset i v h).*1.
Proof.
  induction h as [|[f0 w0] h IH]; cbn [Redis.hset]; intros Hnd.
  - rewrite fmap_cons, fmap_nil. apply NoDup_singleton.
  - rewrite fmap_cons in Hnd. apply NoDup_cons in Hnd as [Hnin Hnd]. cbn in Hnin.
    destruct (decide (f0 = i)) as [->|Hne]; rewrite fmap_cons; apply NoDup_cons; cbn.
    + auto.
    + split; [|auto]. rewrite hset_fst_elem_of. intros [?|?]; [congruence|contradiction].
Qed.

Lemma hset_elem_of (i : Z) (v : Q) (h : list (Z * Q)) (f : Z) (w : Q) :
  NoDup h.*1 ->
  (f, w) ∈ Redis.hset i v h <-> (f = i ∧ w = v) ∨ (f ≠ i ∧ (f, w) ∈ h).
Proof.
  induction h as [|[f0 w0] h IH]; cbn [Redis.hset]; intros Hnd.
  - rewrite list_elem_of_singleton. split.
    + intros [= -> ->]. auto.
    + intros [[-> ->]|[_ Hin]]; [reflexivity|]. apply elem_of_nil in Hin. contradiction.
  - rewrite fmap_cons in Hnd. apply NoDup_cons in Hnd as [Hnin Hnd]. cbn in Hnin.
    destruct (decide (f0 = i)) as [->|Hne]; rewrite !elem_of_cons.
    + split.
      * intros [[= -> ->]|Hin]; [auto|]. right. split; [|auto].
        intros ->. apply Hnin. apply list_elem_of_fmap. exists (i, w). auto.
      * intros [[-> ->]|[Hf [[= -> ->]|Hin]]]; [auto|contradiction|auto].
    + rewrite (IH Hnd). split.
      * intros [[= -> ->]|[[-> ->]|[Hf Hin]]]; [right; split; auto|auto|auto].
      * intros [[-> ->]|[Hf [[= -> ->]|Hin]]]; [auto|auto|auto].
Qed.

Lemma rd_record_heartbeat_run r i sid t0 :
  Redis.key_trial_study_id r !! i = Some sid ->
  Redis.record_heartbeat t0 i r =
  (Ok tt, Redis.with_key_study_heartbeats
            (<[sid := Redis.hset i t0 (Redis.hgetall sid r)]>
               (Redis.key_study_heartbeats r)) r).
Proof.
  intros Hsid. unfold Redis.record_heartbeat, Redis.get_study_id_from_trial_id.
  mrun. reflexivity.
Qed.

Lemma rd_stale_ids_run T sid r hb :
  Redis._heartbeat_interval r = Some hb ->
  Redis._get_stale_trial_ids T sid r = (Ok (rd_stale_ids T sid r), r).
Proof.
  intros Hhb. unfold Redis._get_stale_trial_ids, rd_stale_ids. munfold.
  rewrite Hhb. reflexivity.
Qed.

Lemma rd_stale_ids_elem_of T sid r hb j :
  Redis._heartbeat_interval r = Some hb ->
  j ∈ rd_stale_ids T sid r <->
  ∃ w, (j, w) ∈ Redis.hgetall sid r ∧
       (inject_Z (Redis.grace_period_of hb (Redis._grace_period r)) < T - w)%Q.
Proof.
  intros Hhb. unfold rd_stale_ids. rewrite Hhb. split.
  - intros Hin. apply list_elem_of_fmap in Hin as ([f w] & -> & Hin).
    apply list_elem_of_filter in Hin as [HP Hin]. cbn in *.
    exists w. split; [exact Hin|]. apply Qltb_lt. exact HP.
  - intros (w & Hin & Hlt). apply list_elem_of_fmap. exists (j, w).
    split; [reflexivity|]. apply list_elem_of_filter. split; [|exact Hin].
    cbn. apply Qltb_lt. exact Hlt.
Qed.

(** A heartbeat recorded at Redis time [t0] decides alone whether the trial
    is stale: at time [T] the trial is reported by [_get_stale_trial_ids]
    exactly when [T - t0] exceeds the grace period ([grace_period], or twice
    the heartbeat interval when none was given), whatever heartbeat it had
    before; the other trials of the study are reported as before. *)
Theorem rd_heartbeat_decides_staleness r i sid hb t0 T :
  Redis._heartbeat_interval r = Some hb ->
  Redis.key_trial_study_id r !! i = Some sid ->
  NoDup (Redis.hgetall sid r).*1 ->
  let out := Redis.record_heartbeat t0 i r in
  let grace := Redis.grace_period_of hb (Redis._grace_period r) in
  out.1 = Ok tt ∧
  NoDup (Redis.hgetall sid out.2).*1 ∧
  Redis._get_stale_trial_ids T sid out.2 = (Ok (rd_stale_ids T sid out.2), out.2) ∧
  (i ∈ rd_stale_ids T sid out.2 <-> (inject_Z grace < T - t0)%Q) ∧
  (∀ j, j ≠ i -> (j ∈ rd_stale_ids T sid out.2 <-> j ∈ rd_stale_ids T sid r)).
Proof.
  intros Hhb Hsid Hnd out grace. subst out.
  rewrite (rd_record_heartbeat_run _ _ _ t0 Hsid). cbn [fst snd].
  set (r' := Redis.with_key_study_heartbeats _ r).
  assert (Hh : Redis.hgetall sid r' = Redis.hset i t0 (Redis.hgetall sid r)).
  { unfold Redis.hgetall at 1. subst r'. cbn. rewrite lookup_insert_eq. reflexivity. }
  assert (Hhb' : Redis._heartbeat_interval r' = Some hb) by exact Hhb.
  split; [reflexivity|]. split; [rewrite Hh; apply hset_fst_NoDup; exact Hnd|].
  split; [apply (rd_stale_ids_run _ _ _ hb Hhb')|]. split.
  - rewrite (rd_stale_ids_elem_of _ _ _ hb _ Hhb'), Hh. split.
    + intros (w & Hin & Hlt). apply (hset_elem_of _ _ _ _ _ Hnd) in Hin.
      destruct Hin as [[_ ->]|[Hne _]]; [exact Hlt|contradiction].
    + intros Hlt. exists t0. split; [|exact Hlt].
      apply (hset_elem_of _ _ _ _ _ Hnd). auto.
  - intros j Hne.
    rewrite (rd_stale_ids_elem_of _ _ _ hb _ Hhb'), (rd_stale_ids_elem_of _ _ _ hb _ Hhb), Hh.
    split; intros (w & Hin & Hlt); exists w; (split; [|exact Hlt]).
    + apply (hset_elem_of _ _ _ _ _ Hnd) in Hin.
      destruct Hin as [[? _]|[_ Hin]]; [contradiction|exact Hin].
    + apply (hset_elem_of _ _ _ _ _ Hnd). auto.
Qed.

End RedisHeartbeats.
